(** * Guard_: credential and session core

    A shallow embedding of the authentication core of the Guard_ backend
    (FastAPI + MongoDB): [services/jwt_service.py], [services/auth_service.py],
    the [login] handler of [routes/auth_routes.py] and the OTP handlers of
    [routes/super_admin_routes.py].

    Conventions of the embedding.
    - A MongoDB document and a JWT payload are Python dicts: [gmap string pyval].
    - A collection is the list of its documents in natural order; [find_one]
      returns the first document the filter accepts.
    - Code that can raise runs in the [result] monad; [try ... except] is
      [try_except] with the clauses of the source, in their order.
    - [datetime.utcnow()] is an explicit argument, in seconds.
    - External libraries (PyJWT, passlib, bcrypt, SHA-256, the mail service)
      appear through the part of their interface the code calls. *)

From stdpp Require Import base strings list gmap pretty.
From Stdlib Require Import ZArith Lia.

Local Open Scope Z_scope.
Local Open Scope string_scope.

(** ** Python values *)

Inductive pyval : Type :=
| PNone
| PBool (b : bool)
| PInt (n : Z)
| PStr (s : string)
| PTime (t : Z)
| POid (o : string).

#[global] Instance pyval_eq_dec : EqDecision pyval.
Proof. solve_decision. Defined.

#[global] Instance pyval_inhabited : Inhabited pyval := populate PNone.

(** Python truthiness, as used by [if x:] and [if not x:]. *)
Definition truthy (v : pyval) : bool :=
  match v with
  | PNone => false
  | PBool b => b
  | PInt n => negb (Z.eqb n 0)
  | PStr s => negb (bool_decide (s = ""))
  | PTime _ => true
  | POid _ => true
  end.

Abbreviation dict := (gmap string pyval).

(** [d.get(k)] and [d.get(k, default)]. *)
Definition dict_get (d : dict) (k : string) : pyval := default PNone (d !! k).
Definition dict_get_default (d : dict) (k : string) (dflt : pyval) : pyval :=
  default dflt (d !! k).

(** ** Exceptions and the [result] monad *)

(** Exception classes of PyJWT ([jwt.exceptions]), all below [PyJWTError]. *)
Inductive jwt_exc : Type :=
| PyJWTError
| InvalidTokenError
| DecodeError
| InvalidSignatureError
| ExpiredSignatureError
| InvalidAlgorithmError.

#[global] Instance jwt_exc_eq_dec : EqDecision jwt_exc.
Proof. solve_decision. Defined.

(** The exceptions ([Exception] subclasses) that occur in the modelled code.
    [AuthenticationError] and [AuthorizationError] of [auth_service.py] are
    [HTTPException]s with status 401 and 403. *)
Inductive exn : Type :=
| HTTPException (status_code : Z) (detail : string)
| JwtError (c : jwt_exc)
| AttributeError (msg : string)
| KeyError (key : string)
| ValueError (msg : string)
| UnicodeEncodeError
| ImportError (msg : string)
| TypeError (msg : string)
| InvalidId (oid : string)
| LibraryError (cls msg : string).

#[global] Instance exn_eq_dec : EqDecision exn.
Proof. solve_decision. Defined.

Definition HTTP_400_BAD_REQUEST : Z := 400.
Definition HTTP_401_UNAUTHORIZED : Z := 401.
Definition HTTP_403_FORBIDDEN : Z := 403.
Definition HTTP_429_TOO_MANY_REQUESTS : Z := 429.
Definition HTTP_500_INTERNAL_SERVER_ERROR : Z := 500.
Definition HTTP_503_SERVICE_UNAVAILABLE : Z := 503.

Definition AuthenticationError (detail : string) : exn :=
  HTTPException HTTP_401_UNAUTHORIZED detail.
Definition AuthorizationError (detail : string) : exn :=
  HTTPException HTTP_403_FORBIDDEN detail.

Definition is_HTTPException (e : exn) : bool :=
  match e with HTTPException _ _ => true | _ => false end.

(** [str(e)]: Starlette prints an [HTTPException] as "status: detail"; the
    other classes print their argument. *)
Definition str_exn (e : exn) : string :=
  match e with
  | HTTPException c d => pretty c +:+ ": " +:+ d
  | JwtError _ => "Signature verification failed"
  | AttributeError m => m
  | KeyError k => "'" +:+ k +:+ "'"
  | ValueError m => m
  | UnicodeEncodeError => "surrogates not allowed"
  | ImportError m => m
  | TypeError m => m
  | InvalidId o => "'" +:+ o +:+ "' is not a valid ObjectId"
  | LibraryError _ m => m
  end.

Inductive result (A : Type) : Type :=
| Ok (a : A)
| Raise (e : exn).
Arguments Ok {A} a.
Arguments Raise {A} e.

#[global] Instance result_ret : MRet result := fun _ a => Ok a.
#[global] Instance result_bind : MBind result := fun _ _ f m =>
  match m with Ok a => f a | Raise e => Raise e end.

(** An [except] clause: the class expression (whose evaluation can itself
    raise) as an instance test, and the handler body. *)
Definition clause (A : Type) : Type := result (exn -> bool) * (exn -> result A).

(** Python looks for a handler clause by clause; the class expression of a
    clause is evaluated only when the clauses before it did not match. *)
Fixpoint handle {A : Type} (e : exn) (clauses : list (clause A)) : result A :=
  match clauses with
  | [] => Raise e
  | (cls, h) :: rest =>
      match cls with
      | Raise e' => Raise e'
      | Ok isinstance => if isinstance e then h e else handle e rest
      end
  end.

Definition try_except {A : Type} (body : result A) (clauses : list (clause A))
  : result A :=
  match body with
  | Ok a => Ok a
  | Raise e => handle e clauses
  end.

(** [except Exception] and [except HTTPException]. *)
Definition except_Exception {A : Type} (h : exn -> result A) : clause A :=
  (Ok (fun _ => true), h).
Definition except_HTTPException {A : Type} (h : exn -> result A) : clause A :=
  (Ok is_HTTPException, h).

Definition raises {A : Type} (r : result A) : bool :=
  match r with Ok _ => false | Raise _ => true end.

(** ** config.py *)

Record Settings : Type := mkSettings {
  SECRET_KEY : string;
  ALGORITHM : string;
  ACCESS_TOKEN_EXPIRE_MINUTES : Z;
  REFRESH_TOKEN_EXPIRE_DAYS : Z;
  OTP_EXPIRE_MINUTES : Z;
  OTP_MAX_ATTEMPTS : Z;
  OTP_RATE_LIMIT_MINUTES : Z
}.

(** The values when no environment variable is set. *)
Definition default_settings : Settings := {|
  SECRET_KEY := "your-secret-key-change-in-production";
  ALGORITHM := "HS256";
  ACCESS_TOKEN_EXPIRE_MINUTES := 30;
  REFRESH_TOKEN_EXPIRE_DAYS := 7;
  OTP_EXPIRE_MINUTES := 10;
  OTP_MAX_ATTEMPTS := 3;
  OTP_RATE_LIMIT_MINUTES := 1
|}.

Definition minutes (n : Z) : Z := 60 * n.
Definition days (n : Z) : Z := 86400 * n.

(** ** models.py: [UserRole] *)

Inductive UserRole : Type := SUPER_ADMIN | ADMIN | SUPERVISOR | GUARD.

#[global] Instance UserRole_eq_dec : EqDecision UserRole.
Proof. solve_decision. Defined.

(** [UserRole(str, Enum)]: a member compares equal to its string value. *)
Definition role_value (r : UserRole) : string :=
  match r with
  | SUPER_ADMIN => "SUPER_ADMIN"
  | ADMIN => "ADMIN"
  | SUPERVISOR => "SUPERVISOR"
  | GUARD => "GUARD"
  end.

(** [v == role] for a dict value [v]. *)
Definition eq_role (v : pyval) (r : UserRole) : bool :=
  bool_decide (v = PStr (role_value r)).

(** [v in roles]. *)
Definition in_roles (v : pyval) (roles : list UserRole) : bool :=
  existsb (eq_role v) roles.

(** ** The [jwt] module (PyJWT), as [jwt_service.py] uses it *)

(** A token string is modelled by what it was made from: the claims, the key
    and the algorithm of [jwt.encode], with HMAC as an ideal MAC; any other
    string is [Malformed]. *)
Inductive Token : Type :=
| Signed (key : string) (alg : string) (claims : dict)
| Malformed (s : string).

#[global] Instance Token_eq_dec : EqDecision Token.
Proof. solve_decision. Defined.

(** [if not token]: only the empty string is falsy. *)
Definition token_truthy (t : Token) : bool :=
  match t with
  | Signed _ _ _ => true
  | Malformed s => negb (bool_decide (s = ""))
  end.

(** The claims as serialised: a [datetime] becomes its integer timestamp. *)
Definition wire_claims (claims : dict) : dict :=
  (fun v => match v with PTime t => PInt t | _ => v end) <$> claims.

(** [jwt.encode(claims, key, algorithm=alg)]. *)
Definition jwt_encode (claims : dict) (key alg : string) : Token :=
  Signed key alg (wire_claims claims).

(** [jwt.decode(token, key, algorithms=algs)] at time [now]: the signature is
    checked first, then the [exp] claim ([exp <= now] is expired). *)
Definition jwt_decode (now : Z) (t : Token) (key : string) (algs : list string)
  : result dict :=
  match t with
  | Malformed _ => Raise (JwtError DecodeError)
  | Signed k alg claims =>
      if negb (bool_decide (alg ∈ algs)) then
        Raise (JwtError InvalidAlgorithmError)
      else if negb (bool_decide (k = key)) then
        Raise (JwtError InvalidSignatureError)
      else
        match claims !! "exp" with
        | None => Ok claims
        | Some (PInt exp) =>
            if Z.leb exp now then Raise (JwtError ExpiredSignatureError)
            else Ok claims
        | Some _ => Raise (JwtError DecodeError)
        end
  end.

(** The class hierarchy of [jwt.exceptions]. *)
Definition jwt_base (c : jwt_exc) : option jwt_exc :=
  match c with
  | PyJWTError => None
  | InvalidTokenError => Some PyJWTError
  | DecodeError => Some InvalidTokenError
  | InvalidSignatureError => Some DecodeError
  | ExpiredSignatureError => Some InvalidTokenError
  | InvalidAlgorithmError => Some InvalidTokenError
  end.

Fixpoint jwt_issubclass_fuel (n : nat) (c d : jwt_exc) : bool :=
  bool_decide (c = d) ||
  match n with
  | O => false
  | S n' => match jwt_base c with
            | Some b => jwt_issubclass_fuel n' b d
            | None => false
            end
  end.

Definition jwt_issubclass : jwt_exc -> jwt_exc -> bool := jwt_issubclass_fuel 4.

Definition jwt_isinstance (c : jwt_exc) (e : exn) : bool :=
  match e with
  | JwtError c' => jwt_issubclass c' c
  | _ => false
  end.

(** The exception names the module [jwt] exports ([jwt/__init__.py]). *)
Definition jwt_exports (name : string) : option jwt_exc :=
  if bool_decide (name = "PyJWTError") then Some PyJWTError
  else if bool_decide (name = "InvalidTokenError") then Some InvalidTokenError
  else if bool_decide (name = "DecodeError") then Some DecodeError
  else if bool_decide (name = "InvalidSignatureError") then Some InvalidSignatureError
  else if bool_decide (name = "ExpiredSignatureError") then Some ExpiredSignatureError
  else if bool_decide (name = "InvalidAlgorithmError") then Some InvalidAlgorithmError
  else None.

(** The expression [jwt.<name>] in an [except] clause. *)
Definition jwt_attr (name : string) : result (exn -> bool) :=
  match jwt_exports name with
  | Some c => Ok (jwt_isinstance c)
  | None => Raise (AttributeError ("module 'jwt' has no attribute '" +:+ name +:+ "'"))
  end.

(** ** services/jwt_service.py: tokens *)

Section JWTService.
Variable settings : Settings.

Definition create_access_token (now : Z) (data : dict) : Token :=
  let expire := now + minutes (ACCESS_TOKEN_EXPIRE_MINUTES settings) in
  let to_encode := <["type" := PStr "access"]> (<["exp" := PTime expire]> data) in
  jwt_encode to_encode (SECRET_KEY settings) (ALGORITHM settings).

Definition create_refresh_token (now : Z) (user_id : string) : Token :=
  let to_encode : dict :=
    {[ "user_id" := PStr user_id;
       "type" := PStr "refresh";
       "exp" := PTime (now + days (REFRESH_TOKEN_EXPIRE_DAYS settings)) ]} in
  jwt_encode to_encode (SECRET_KEY settings) (ALGORITHM settings).

Definition verify_token (now : Z) (token : Token) (token_type : string)
  : result (option dict) :=
  try_except
    (payload ← jwt_decode now token (SECRET_KEY settings) [ALGORITHM settings];
     if negb (bool_decide (dict_get payload "type" = PStr token_type))
     then Ok None
     else Ok (Some payload))
    [ (jwt_attr "ExpiredSignatureError", fun _ => Ok None);
      (jwt_attr "JWTError", fun _ => Ok None) ].

End JWTService.

(** ** Python [str], UTF-8 *)

(** A Python [str] is its sequence of code points; [bytes] is [list byte]. *)
Definition pystr : Type := list N.

#[global] Instance byte_eq_dec : EqDecision Byte.byte := Byte.byte_eq_dec.

Definition b8 (n : N) : Byte.byte := default Byte.x00 (Byte.of_N n).

(** [chr(c).encode('utf-8')]; a lone surrogate cannot be encoded. *)
Definition utf8_char (c : N) : result (list Byte.byte) :=
  if N.ltb c 128 then Ok [b8 c]
  else if N.ltb c 2048 then Ok [b8 (192 + c / 64); b8 (128 + c mod 64)]
  else if N.leb 55296 c && N.leb c 57343 then Raise UnicodeEncodeError
  else if N.ltb c 65536 then
    Ok [b8 (224 + c / 4096); b8 (128 + (c / 64) mod 64); b8 (128 + c mod 64)]
  else
    Ok [b8 (240 + c / 262144); b8 (128 + (c / 4096) mod 64);
        b8 (128 + (c / 64) mod 64); b8 (128 + c mod 64)].

(** [s.encode('utf-8')]. *)
Fixpoint encode_utf8 (s : pystr) : result (list Byte.byte) :=
  match s with
  | [] => Ok []
  | c :: rest =>
      bs ← utf8_char c;
      tl ← encode_utf8 rest;
      Ok (bs ++ tl)%list
  end.

Definition is_cont (b : N) : bool := N.leb 128 b && N.leb b 191.

(** The second byte a lead byte of a 3- or 4-byte sequence allows (no
    overlong forms, no surrogates, nothing above U+10FFFF). *)
Definition second_ok (b0 b1 : N) : bool :=
  if N.eqb b0 224 then N.leb 160 b1 && N.leb b1 191
  else if N.eqb b0 237 then N.leb 128 b1 && N.leb b1 159
  else if N.eqb b0 240 then N.leb 144 b1 && N.leb b1 191
  else if N.eqb b0 244 then N.leb 128 b1 && N.leb b1 143
  else is_cont b1.

(** [bs.decode('utf-8', errors='ignore')]: a malformed or truncated sequence
    is dropped up to the byte that breaks it, and decoding goes on there. *)
Fixpoint decode_utf8_ignore (bs : list Byte.byte) : pystr :=
  match bs with
  | [] => []
  | x0 :: r0 =>
      let b0 := Byte.to_N x0 in
      if N.ltb b0 128 then b0 :: decode_utf8_ignore r0
      else if N.leb 194 b0 && N.leb b0 223 then
        match r0 with
        | [] => []
        | x1 :: r1 =>
            let b1 := Byte.to_N x1 in
            if is_cont b1
            then ((b0 - 192) * 64 + (b1 - 128))%N :: decode_utf8_ignore r1
            else decode_utf8_ignore r0
        end
      else if N.leb 224 b0 && N.leb b0 239 then
        match r0 with
        | [] => []
        | x1 :: r1 =>
            let b1 := Byte.to_N x1 in
            if second_ok b0 b1 then
              match r1 with
              | [] => []
              | x2 :: r2 =>
                  let b2 := Byte.to_N x2 in
                  if is_cont b2
                  then ((b0 - 224) * 4096 + (b1 - 128) * 64 + (b2 - 128))%N
                         :: decode_utf8_ignore r2
                  else decode_utf8_ignore r1
              end
            else decode_utf8_ignore r0
        end
      else if N.leb 240 b0 && N.leb b0 244 then
        match r0 with
        | [] => []
        | x1 :: r1 =>
            let b1 := Byte.to_N x1 in
            if second_ok b0 b1 then
              match r1 with
              | [] => []
              | x2 :: r2 =>
                  let b2 := Byte.to_N x2 in
                  if is_cont b2 then
                    match r2 with
                    | [] => []
                    | x3 :: r3 =>
                        let b3 := Byte.to_N x3 in
                        if is_cont b3
                        then ((b0 - 240) * 262144 + (b1 - 128) * 4096
                              + (b2 - 128) * 64 + (b3 - 128))%N
                               :: decode_utf8_ignore r3
                        else decode_utf8_ignore r2
                    end
                  else decode_utf8_ignore r1
              end
            else decode_utf8_ignore r0
        end
      else decode_utf8_ignore r0
  end.

(** [bs[:72]] when [len(bs) > 72], else [bs]. *)
Definition truncate_72 (bs : list Byte.byte) : list Byte.byte :=
  if Nat.ltb 72 (length bs) then take 72 bs else bs.

(** ** services/jwt_service.py: passwords *)

(** What the module gets from passlib and bcrypt. [use_raw_bcrypt] is the
    module-level flag set when importing passlib failed. The salt a hashing
    call draws is an argument of the call. *)
Record CryptBackend : Type := mkCryptBackend {
  use_raw_bcrypt : bool;
  pwd_context_hash : pystr -> string -> result string;
  pwd_context_verify : pystr -> string -> result bool;
  import_bcrypt : result unit;
  bcrypt_hashpw : list Byte.byte -> string -> result string;
  bcrypt_checkpw : list Byte.byte -> string -> result bool
}.

Section Passwords.
Variable B : CryptBackend.

Definition _hash_with_raw_bcrypt (password : pystr) (salt : string)
  : result string :=
  try_except
    (_ ← import_bcrypt B;
     password_bytes ← encode_utf8 password;
     let password_bytes := truncate_72 password_bytes in
     bcrypt_hashpw B password_bytes salt)
    [ except_Exception (fun e =>
        Raise (ValueError ("Raw bcrypt hashing failed: " +:+ str_exn e))) ].

Definition hash_password (password : pystr) (salt : string) : result string :=
  try_except
    (if use_raw_bcrypt B then _hash_with_raw_bcrypt password salt
     else
       try_except
         (encoded ← encode_utf8 password;
          let processed_password :=
            if Nat.ltb 72 (length encoded)
            then decode_utf8_ignore (take 72 encoded)
            else password in
          pwd_context_hash B processed_password salt)
         [ except_Exception (fun _ => _hash_with_raw_bcrypt password salt) ])
    [ except_Exception (fun e =>
        Raise (ValueError ("Password hashing failed: " +:+ str_exn e))) ].

Definition _verify_with_raw_bcrypt (plain_password : pystr)
  (hashed_password : string) : result bool :=
  try_except
    (_ ← import_bcrypt B;
     password_bytes ← encode_utf8 plain_password;
     let password_bytes := truncate_72 password_bytes in
     let hash_bytes := hashed_password in
     bcrypt_checkpw B password_bytes hash_bytes)
    [ except_Exception (fun _ => Ok false) ].

Definition verify_password (plain_password : pystr) (hashed_password : string)
  : result bool :=
  try_except
    (if use_raw_bcrypt B
     then _verify_with_raw_bcrypt plain_password hashed_password
     else
       try_except
         (pwd_context_verify B plain_password hashed_password)
         [ except_Exception (fun _ =>
             _verify_with_raw_bcrypt plain_password hashed_password) ])
    [ except_Exception (fun _ => Ok false) ].

End Passwords.

(** *** bcrypt as an ideal hash

    [hashpw] depends on the salt and on the first 72 bytes of the password
    only; apart from that it is taken to be collision free: the digest is the
    72-byte key itself. A salt is the 29 characters "$2b$12$" + 22. *)

Definition bcrypt_salt_ok (salt : string) : bool :=
  String.prefix "$2b$12$" salt && Nat.eqb (String.length salt) 29.

Definition ideal_hashpw (password : list Byte.byte) (salt : string)
  : result string :=
  if bcrypt_salt_ok salt
  then Ok (salt +:+ String.string_of_list_byte (take 72 password))
  else Raise (ValueError "Invalid salt").

(** [bcrypt.checkpw]: hash again with the salt the hash starts with, compare. *)
Definition ideal_checkpw (password : list Byte.byte) (hashed : string)
  : result bool :=
  ret ← ideal_hashpw password (String.substring 0 29 hashed);
  Ok (bool_decide (ret = hashed)).

(** passlib's [CryptContext(schemes=["bcrypt"], bcrypt__truncate_error=False)]
    over that bcrypt: the secret is encoded and passed on whole. *)
Definition ideal_pwd_context_hash (secret : pystr) (salt : string)
  : result string :=
  bs ← encode_utf8 secret;
  ideal_hashpw bs salt.

Definition ideal_pwd_context_verify (secret : pystr) (hashed : string)
  : result bool :=
  if String.prefix "$2" hashed then
    bs ← encode_utf8 secret;
    ideal_checkpw bs hashed
  else Raise (LibraryError "UnknownHashError" "hash could not be identified").

(** The service as deployed: passlib imported, bcrypt installed. *)
Definition passlib_backend : CryptBackend := {|
  use_raw_bcrypt := false;
  pwd_context_hash := ideal_pwd_context_hash;
  pwd_context_verify := ideal_pwd_context_verify;
  import_bcrypt := Ok ();
  bcrypt_hashpw := ideal_hashpw;
  bcrypt_checkpw := ideal_checkpw
|}.

(** The service when importing passlib failed at start-up. *)
Definition raw_bcrypt_backend : CryptBackend := {|
  use_raw_bcrypt := true;
  pwd_context_hash := fun _ _ => Raise (AttributeError "'NoneType' object has no attribute 'hash'");
  pwd_context_verify := fun _ _ => Raise (AttributeError "'NoneType' object has no attribute 'verify'");
  import_bcrypt := Ok ();
  bcrypt_hashpw := ideal_hashpw;
  bcrypt_checkpw := ideal_checkpw
|}.

(** ** database.py: the MongoDB collections *)

Abbreviation collection := (list dict).

(** The database: each collection, or [None] where [get_collection] returns
    [None] (no connection). *)
Record Database : Type := mkDatabase {
  users : option collection;
  supervisors : option collection;
  guards : option collection;
  otp_tokens : option collection
}.

#[global] Instance Database_eq_dec : EqDecision Database.
Proof. solve_decision. Defined.

(** A collection handle, as [db[collection_name]] returns it. *)
Inductive handle_t : Type := Users | Supervisors | Guards | OtpTokens.

#[global] Instance handle_eq_dec : EqDecision handle_t.
Proof. solve_decision. Defined.

Definition docs_of (db : Database) (h : handle_t) : collection :=
  default [] match h with
             | Users => users db
             | Supervisors => supervisors db
             | Guards => guards db
             | OtpTokens => otp_tokens db
             end.

(** A write reaches the documents of a collection that is there. *)
Definition modify_docs (db : Database) (h : handle_t)
  (f : collection -> collection) : Database :=
  match h with
  | Users => mkDatabase (f <$> users db) (supervisors db) (guards db) (otp_tokens db)
  | Supervisors => mkDatabase (users db) (f <$> supervisors db) (guards db) (otp_tokens db)
  | Guards => mkDatabase (users db) (supervisors db) (f <$> guards db) (otp_tokens db)
  | OtpTokens => mkDatabase (users db) (supervisors db) (guards db) (f <$> otp_tokens db)
  end.

Definition get_collection (db : Database) (h : handle_t) : option handle_t :=
  match h with
  | Users => users db
  | Supervisors => supervisors db
  | Guards => guards db
  | OtpTokens => otp_tokens db
  end ≫= fun _ => Some h.

Definition get_users_collection (db : Database) := get_collection db Users.
Definition get_supervisors_collection (db : Database) := get_collection db Supervisors.
Definition get_guards_collection (db : Database) := get_collection db Guards.
Definition get_otp_tokens_collection (db : Database) := get_collection db OtpTokens.

(** Query filters. [{k: v}] accepts the documents whose field [k] is [v];
    [{k: {"$gte": t}}] those whose field [k] is a date not before [t]. *)
Definition field_eq (k : string) (v : pyval) (d : dict) : bool :=
  bool_decide (d !! k = Some v).

Definition field_gte (k : string) (t : Z) (d : dict) : bool :=
  match d !! k with
  | Some (PTime c) => Z.leb t c
  | _ => false
  end.

(** Operations on the documents of one collection. *)
Definition coll_find_one (f : dict -> bool) (c : collection) : option dict :=
  List.find f c.

Definition coll_delete_many (f : dict -> bool) (c : collection) : collection :=
  List.filter (fun d => negb (f d)) c.

Fixpoint coll_delete_one (f : dict -> bool) (c : collection) : collection :=
  match c with
  | [] => []
  | d :: rest => if f d then rest else d :: coll_delete_one f rest
  end.

Fixpoint coll_update_one (f : dict -> bool) (upd : dict -> dict) (c : collection)
  : collection :=
  match c with
  | [] => []
  | d :: rest => if f d then upd d :: rest else d :: coll_update_one f upd rest
  end.

(** [insert_one]: the driver adds the [_id] it generated. *)
Definition coll_insert_one (oid : string) (d : dict) (c : collection) : collection :=
  (c ++ [<["_id" := POid oid]> d])%list.

(** Update operators. *)
Definition op_set (fields : list (string * pyval)) (d : dict) : dict :=
  foldl (fun acc kv => <[kv.1 := kv.2]> acc) d fields.

Definition op_inc (k : string) (n : Z) (d : dict) : dict :=
  match d !! k with
  | Some (PInt a) => <[k := PInt (a + n)]> d
  | None => <[k := PInt n]> d
  | Some _ => d
  end.

(** Handlers run against the database and can raise: what they did to the
    database before raising stays done. *)
Definition DB (A : Type) : Type := Database -> result A * Database.

#[global] Instance DB_ret : MRet DB := fun _ a db => (Ok a, db).
#[global] Instance DB_bind : MBind DB := fun _ _ f m db =>
  match m db with
  | (Ok a, db') => f a db'
  | (Raise e, db') => (Raise e, db')
  end.

Definition raise {A : Type} (e : exn) : DB A := fun db => (Raise e, db).
Definition lift {A : Type} (r : result A) : DB A := fun db => (r, db).

(** [try: body except ...:] around database code. *)
Definition db_try {A : Type} (body : DB A) (clauses : list (clause A))
  : DB A := fun db =>
  match body db with
  | (Ok a, db') => (Ok a, db')
  | (Raise e, db') => (handle e clauses, db')
  end.

(** As [db_try], with handlers that themselves use the database. *)
Definition db_catch {A : Type} (body : DB A) (h : exn -> DB A) : DB A := fun db =>
  match body db with
  | (Ok a, db') => (Ok a, db')
  | (Raise e, db') => h e db'
  end.

Definition find_one (h : handle_t) (f : dict -> bool) : DB (option dict) :=
  fun db => (Ok (coll_find_one f (docs_of db h)), db).
Definition delete_many (h : handle_t) (f : dict -> bool) : DB unit :=
  fun db => (Ok (), modify_docs db h (coll_delete_many f)).
Definition delete_one (h : handle_t) (f : dict -> bool) : DB unit :=
  fun db => (Ok (), modify_docs db h (coll_delete_one f)).
Definition update_one (h : handle_t) (f : dict -> bool) (upd : dict -> dict)
  : DB unit :=
  fun db => (Ok (), modify_docs db h (coll_update_one f upd)).
Definition insert_one (h : handle_t) (oid : string) (d : dict) : DB unit :=
  fun db => (Ok (), modify_docs db h (coll_insert_one oid d)).

(** [d[k]]. *)
Definition dict_item (d : dict) (k : string) : result pyval :=
  match d !! k with
  | Some v => Ok v
  | None => Raise (KeyError k)
  end.

(** [now > v] for a stored date [v], and [v >= n] for a stored counter. *)
Definition now_gt (now : Z) (v : pyval) : result bool :=
  match v with
  | PTime t => Ok (Z.ltb t now)
  | _ => Raise (TypeError "'>' not supported between instances")
  end.

Definition int_ge (v : pyval) (n : Z) : result bool :=
  match v with
  | PInt a => Ok (Z.leb n a)
  | _ => Raise (TypeError "'>=' not supported between instances")
  end.

(** [f"{v}"]. *)
Definition str_pyval (v : pyval) : string :=
  match v with
  | PNone => "None"
  | PBool true => "True"
  | PBool false => "False"
  | PInt n => pretty n
  | PStr s => s
  | PTime t => pretty t
  | POid o => o
  end.

Definition gets {A : Type} (f : Database -> A) : DB A := fun db => (Ok (f db), db).

(** ** services/jwt_service.py: one-time codes *)

Fixpoint zeros (n : nat) : string :=
  match n with
  | O => ""
  | S n' => "0" +:+ zeros n'
  end.

(** [f"{secrets.randbelow(1000000):06d}"], for the number [r] drawn. *)
Definition generate_otp (r : Z) : string :=
  let digits := pretty r in
  zeros (6 - String.length digits) +:+ digits.

Section OTP.
(** [hashlib.sha256(s.encode()).hexdigest()]. *)
Variable sha256_hexdigest : string -> string.
Variable B : CryptBackend.

Definition hash_otp (otp : string) : string := sha256_hexdigest otp.

Definition verify_otp (plain_otp : string) (hashed_otp : pyval) : bool :=
  bool_decide (PStr (sha256_hexdigest plain_otp) = hashed_otp).

(** ** routes/super_admin_routes.py: the OTP-gated password change *)

(** The filter [{"email": email, "purpose": "PASSWORD_CHANGE"}]. *)
Definition otp_filter (email : pyval) (d : dict) : bool :=
  field_eq "email" email d && field_eq "purpose" (PStr "PASSWORD_CHANGE") d.

(** [request_password_change_otp]. The arguments after [now] are what the
    request draws from outside: the random number of the code, the [_id] of
    the inserted document and the outcome of sending the mail. *)
Definition request_password_change_otp (current_super_admin : dict) (now : Z)
  (rand : Z) (oid : string) (send_otp_email : result bool) : DB string :=
  db_try
    (otp_collection ← gets get_otp_tokens_collection;
     match otp_collection with
     | None =>
         raise (HTTPException HTTP_503_SERVICE_UNAVAILABLE "Database not available")
     | Some otp_collection =>
         let super_admin_email := dict_get current_super_admin "email" in
         if negb (truthy super_admin_email) then
           raise (HTTPException HTTP_400_BAD_REQUEST "Super admin email not found")
         else
           recent_otp ← find_one otp_collection (fun d =>
             otp_filter super_admin_email d
             && field_gte "createdAt" (now - minutes 1) d);
           if bool_decide (is_Some recent_otp) then
             raise (HTTPException HTTP_429_TOO_MANY_REQUESTS
                      "Please wait 1 minute before requesting another OTP")
           else
             let otp := generate_otp rand in
             let otp_hash := hash_otp otp in
             let expires_at := now + minutes 10 in
             let otp_data : dict :=
               {[ "email" := super_admin_email;
                  "otpHash" := PStr otp_hash;
                  "purpose" := PStr "PASSWORD_CHANGE";
                  "expiresAt" := PTime expires_at;
                  "attempts" := PInt 0;
                  "createdAt" := PTime now ]} in
             delete_many otp_collection (otp_filter super_admin_email);;
             insert_one otp_collection oid otp_data;;
             email_sent ← lift send_otp_email;
             if negb email_sent then
               delete_one otp_collection (otp_filter super_admin_email);;
               raise (HTTPException HTTP_500_INTERNAL_SERVER_ERROR
                        "Failed to send OTP email. Please try again.")
             else
               mret ("OTP sent to " +:+ str_pyval super_admin_email
                     +:+ ". Please check your email. OTP expires in 10 minutes.")
     end)
    [ except_HTTPException (fun e => Raise e);
      except_Exception (fun _ =>
        Raise (HTTPException HTTP_500_INTERNAL_SERVER_ERROR "Failed to send OTP")) ].

(** Lines 672-713 of [change_super_admin_password]: the checks on the stored
    challenge, up to and including its removal when the code is right. *)
Definition verify_otp_record (otp_collection : handle_t) (super_admin_email : pyval)
  (request_otp : string) (now : Z) : DB unit :=
  otp_record ← find_one otp_collection (otp_filter super_admin_email);
  match otp_record with
  | None =>
      raise (HTTPException HTTP_400_BAD_REQUEST
               "No OTP found. Please request an OTP first.")
  | Some otp_record =>
      expiresAt ← lift (dict_item otp_record "expiresAt");
      expired ← lift (now_gt now expiresAt);
      if expired : bool then
        _id ← lift (dict_item otp_record "_id");
        delete_one otp_collection (field_eq "_id" _id);;
        raise (HTTPException HTTP_400_BAD_REQUEST
                 "OTP has expired. Please request a new OTP.")
      else
        attempts ← lift (dict_item otp_record "attempts");
        exceeded ← lift (int_ge attempts 3);
        if exceeded : bool then
          _id ← lift (dict_item otp_record "_id");
          delete_one otp_collection (field_eq "_id" _id);;
          raise (HTTPException HTTP_429_TOO_MANY_REQUESTS
                   "Maximum OTP attempts exceeded. Please request a new OTP.")
        else
          otpHash ← lift (dict_item otp_record "otpHash");
          if negb (verify_otp request_otp otpHash) then
            _id ← lift (dict_item otp_record "_id");
            update_one otp_collection (field_eq "_id" _id) (op_inc "attempts" 1);;
            raise (HTTPException HTTP_400_BAD_REQUEST
                     "Invalid OTP. Please check and try again.")
          else
            _id ← lift (dict_item otp_record "_id");
            delete_one otp_collection (field_eq "_id" _id)
  end.

Definition change_super_admin_password (request_otp : string)
  (request_newPassword : pystr) (current_super_admin : dict) (now : Z)
  (salt : string) : DB string :=
  db_try
    (users_collection ← gets get_users_collection;
     otp_collection ← gets get_otp_tokens_collection;
     match users_collection, otp_collection with
     | Some users_collection, Some otp_collection =>
         let super_admin_email := dict_get current_super_admin "email" in
         if negb (truthy super_admin_email) then
           raise (HTTPException HTTP_400_BAD_REQUEST "Super admin email not found")
         else
           verify_otp_record otp_collection super_admin_email request_otp now;;
           new_password_hash ← lift (hash_password B request_newPassword salt);
           super_admin_id ← lift (dict_item current_super_admin "_id");
           update_one users_collection (field_eq "_id" super_admin_id)
             (op_set [("passwordHash", PStr new_password_hash);
                      ("updatedAt", PTime now)]);;
           mret "Password changed successfully"
     | _, _ =>
         raise (HTTPException HTTP_503_SERVICE_UNAVAILABLE "Database not available")
     end)
    [ except_HTTPException (fun e => Raise e);
      except_Exception (fun e =>
        Raise (HTTPException HTTP_500_INTERNAL_SERVER_ERROR
                 ("Failed to change password: " +:+ str_exn e))) ].

End OTP.

(** ** bson: [ObjectId] *)

Definition is_hex_digit (a : Ascii.ascii) : bool :=
  let n := Ascii.N_of_ascii a in
  (N.leb 48 n && N.leb n 57) || (N.leb 97 n && N.leb n 102)
  || (N.leb 65 n && N.leb n 70).

Definition lower_hex (a : Ascii.ascii) : Ascii.ascii :=
  let n := Ascii.N_of_ascii a in
  if N.leb 65 n && N.leb n 70 then Ascii.ascii_of_N (n + 32) else a.

Fixpoint string_forallb (f : Ascii.ascii -> bool) (s : string) : bool :=
  match s with
  | EmptyString => true
  | String a rest => f a && string_forallb f rest
  end.

Fixpoint string_map (f : Ascii.ascii -> Ascii.ascii) (s : string) : string :=
  match s with
  | EmptyString => EmptyString
  | String a rest => String (f a) (string_map f rest)
  end.

(** [ObjectId(v)]: 24 hexadecimal digits, or [InvalidId]. *)
Definition ObjectId (v : pyval) : result pyval :=
  match v with
  | POid o => Ok (POid o)
  | PStr s =>
      if Nat.eqb (String.length s) 24 && string_forallb is_hex_digit s
      then Ok (POid (string_map lower_hex s))
      else Raise (InvalidId s)
  | _ => Raise (TypeError "id must be an instance of (bytes, str, ObjectId)")
  end.

(** ** services/auth_service.py *)

Section AuthService.
Variable settings : Settings.

Definition get_current_user (now : Z) (token : option Token) : DB dict :=
  match token with
  | None => raise (AuthenticationError "Authentication required")
  | Some token =>
      if negb (token_truthy token) then
        raise (AuthenticationError "Authentication required")
      else
        payload ← lift (verify_token settings now token "access");
        match payload with
        | None => raise (AuthenticationError "Invalid or expired token")
        | Some payload =>
            if bool_decide (payload = ∅) then
              raise (AuthenticationError "Invalid or expired token")
            else
              let user_id := dict_get payload "user_id" in
              let role := dict_get payload "role" in
              if negb (truthy user_id) || negb (truthy role) then
                raise (AuthenticationError "Invalid token payload")
              else
                collection ←
                  (if bool_decide (role = PStr "ADMIN")
                      || bool_decide (role = PStr "SUPER_ADMIN")
                   then gets get_users_collection
                   else if bool_decide (role = PStr "SUPERVISOR")
                   then gets get_supervisors_collection
                   else if bool_decide (role = PStr "GUARD")
                   then gets get_guards_collection
                   else raise (AuthenticationError "Invalid user role"));
                match collection with
                | None =>
                    raise (HTTPException HTTP_503_SERVICE_UNAVAILABLE
                             "Database not available")
                | Some collection =>
                    user_object_id ← lift (try_except (ObjectId user_id)
                      [ except_Exception (fun _ =>
                          Raise (AuthenticationError "Invalid user ID format")) ]);
                    user ← find_one collection (field_eq "_id" user_object_id);
                    match user with
                    | None => raise (AuthenticationError "User not found")
                    | Some user =>
                        if negb (truthy (dict_get_default user "isActive" (PBool false)))
                        then raise (AuthenticationError "Account is not active")
                        else mret (<["role" := role]> user)
                    end
                end
        end
  end.

End AuthService.

(** The role dependencies; each takes the user [get_current_user] returned. *)
Definition get_current_super_admin (current_user : dict) : result dict :=
  if negb (eq_role (dict_get current_user "role") SUPER_ADMIN)
  then Raise (AuthorizationError "Super admin access required")
  else Ok current_user.


Definition get_current_supervisor (current_user : dict) : result dict :=
  if negb (eq_role (dict_get current_user "role") SUPERVISOR)
  then Raise (AuthorizationError "Supervisor access required")
  else Ok current_user.

Definition get_current_guard (current_user : dict) : result dict :=
  if negb (eq_role (dict_get current_user "role") GUARD)
  then Raise (AuthorizationError "Guard access required")
  else Ok current_user.

Definition get_super_admin_or_admin (current_user : dict) : result dict :=
  if negb (in_roles (dict_get current_user "role") [SUPER_ADMIN; ADMIN])
  then Raise (AuthorizationError "Super Admin or Admin access required")
  else Ok current_user.

Definition get_admin_or_supervisor (current_user : dict) : result dict :=
  if negb (in_roles (dict_get current_user "role") [ADMIN; SUPERVISOR])
  then Raise (AuthorizationError "Admin or Supervisor access required")
  else Ok current_user.



(** A protected operation: [Depends(get_current_user)] runs first, the role
    dependency on its result. *)
Definition protected (settings : Settings) (role_checker : dict -> result dict)
  (now : Z) (token : option Token) : DB dict :=
  current_user ← get_current_user settings now token;
  lift (role_checker current_user).

(** ** routes/auth_routes.py: [login] *)

(** The filter [{"$or": [{"email": username}, {"phone": username}]}]. *)
Definition contact_filter (username : string) (d : dict) : bool :=
  field_eq "email" (PStr username) d || field_eq "phone" (PStr username) d.

(** The response of a successful login. *)
Record LoginResponse : Type := mkLoginResponse {
  access_token : Token;
  token_type : string;
  user : dict
}.

(** [{"ADMIN": users, "SUPERVISOR": supervisors, "GUARD": guards}[role]]. *)
Definition role_collection (users_collection supervisors_collection
  guards_collection : handle_t) (role : pyval) : result handle_t :=
  if bool_decide (role = PStr "ADMIN") then Ok users_collection
  else if bool_decide (role = PStr "SUPERVISOR") then Ok supervisors_collection
  else if bool_decide (role = PStr "GUARD") then Ok guards_collection
  else Raise (KeyError (str_pyval role)).

Section Login.
Variable settings : Settings.
Variable B : CryptBackend.

(** Lines 84-116: the search through the partitions, inside its own
    [try ... except Exception]. *)
Definition find_user (users_collection supervisors_collection guards_collection
  : handle_t) (username : string) : DB (dict * pyval) :=
  db_try
    (user ← find_one users_collection (contact_filter username);
     match user with
     | Some user => mret (user, dict_get_default user "role" (PStr "ADMIN"))
     | None =>
         user ← find_one supervisors_collection (contact_filter username);
         match user with
         | Some user => mret (user, PStr "SUPERVISOR")
         | None =>
             user ← find_one guards_collection (contact_filter username);
             match user with
             | Some user => mret (user, PStr "GUARD")
             | None =>
                 raise (HTTPException HTTP_401_UNAUTHORIZED
                          "Invalid email/phone or password")
             end
         end
     end)
    [ except_Exception (fun e =>
        Raise (HTTPException HTTP_500_INTERNAL_SERVER_ERROR
                 ("Database query failed: " +:+ str_exn e))) ].

(** [password_hash.startswith('$2b$')] and [password_hash[:20]] of the debug
    output need a [str]. *)
Definition as_str (v : pyval) : result string :=
  match v with
  | PStr s => Ok s
  | _ => Raise (AttributeError "object has no attribute 'startswith'")
  end.

Definition login (username : string) (password : pystr) (now : Z)
  : DB LoginResponse :=
  db_try
    (users_collection ← gets get_users_collection;
     supervisors_collection ← gets get_supervisors_collection;
     guards_collection ← gets get_guards_collection;
     match users_collection, supervisors_collection, guards_collection with
     | Some users_collection, Some supervisors_collection, Some guards_collection =>
         found ← find_user users_collection supervisors_collection
                   guards_collection username;
         let user := found.1 in
         let role := found.2 in
         let password_hash := dict_get user "passwordHash" in
         if negb (truthy password_hash) then
           raise (HTTPException HTTP_500_INTERNAL_SERVER_ERROR
                    "User data corrupted - missing password")
         else
           password_hash ← lift (as_str password_hash);
           password_valid ← lift (verify_password B password password_hash);
           if negb password_valid then
             debug_result ← lift (verify_password B [] password_hash);
             raise (HTTPException HTTP_401_UNAUTHORIZED
                      "Invalid email/phone or password")
           else if negb (truthy (dict_get_default user "isActive" (PBool false))) then
             raise (HTTPException HTTP_401_UNAUTHORIZED
                      "Account not activated. Please contact the administrator.")
           else
             user ← db_catch
               (collection ← lift (role_collection users_collection
                                     supervisors_collection guards_collection role);
                _id ← lift (dict_item user "_id");
                update_one collection (field_eq "_id" _id)
                  (op_set [("lastLogin", PTime now)]);;
                mret (<["lastLogin" := PTime now]> user))
               (fun _ => mret user);
             access_token ← lift (try_except
               (_id ← dict_item user "_id";
                Ok (create_access_token settings now
                      {[ "user_id" := PStr (str_pyval _id);
                         "email" := dict_get user "email";
                         "phone" := dict_get user "phone";
                         "role" := role ]}))
               [ except_Exception (fun e =>
                   Raise (HTTPException HTTP_500_INTERNAL_SERVER_ERROR
                            ("Token creation failed: " +:+ str_exn e))) ]);
             _id ← lift (dict_item user "_id");
             name ← lift (dict_item user "name");
             isActive ← lift (dict_item user "isActive");
             mret {| access_token := access_token;
                     token_type := "bearer";
                     user := {[ "id" := PStr (str_pyval _id);
                                "email" := dict_get user "email";
                                "phone" := dict_get user "phone";
                                "name" := name;
                                "role" := role;
                                "areaCity" := dict_get user "areaCity";
                                "isActive" := isActive;
                                "lastLogin" := dict_get user "lastLogin" ]} |}
     | _, _, _ =>
         raise (HTTPException HTTP_503_SERVICE_UNAVAILABLE
                  "Database collections not available")
     end)
    [ except_HTTPException (fun e => Raise e);
      except_Exception (fun e =>
        Raise (HTTPException HTTP_500_INTERNAL_SERVER_ERROR
                 ("Internal server error during login: " +:+ str_exn e))) ].

End Login.

(** * Notions used in the statements *)

(** ** Tokens *)

(** The message of the [AttributeError] that looking up [jwt.JWTError] raises. *)
Definition no_JWTError : string := "module 'jwt' has no attribute 'JWTError'".

(** A token signed with another key. *)
Definition forged_token : Token :=
  Signed "not-the-server-key" "HS256"
    {[ "user_id" := PStr "65a1b2c3d4e5f60718293a4b";
       "role" := PStr "SUPER_ADMIN";
       "type" := PStr "access";
       "exp" := PInt 4102444800 ]}.

(** ** Passwords *)

(** The attempt inside the [try] of [_verify_with_raw_bcrypt]. *)
Definition raw_bcrypt_attempt (B : CryptBackend) (plain_password : pystr)
  (hashed_password : string) : result bool :=
  _ ← import_bcrypt B;
  password_bytes ← encode_utf8 plain_password;
  bcrypt_checkpw B (truncate_72 password_bytes) hashed_password.

(** A salt as [bcrypt.gensalt(rounds=12)] returns them. *)
Definition a_salt : string := "$2b$12$N9qo8uLOickgx2ZMRZoMye".

(** Seventy-one times the letter a, then e with an acute accent (U+00E9, two
    bytes in UTF-8): 73 bytes, the 72nd being the first half of the accent. *)
Definition a71 : pystr := repeat 97%N 71.
Definition split_password : pystr := (a71 ++ [233%N])%list.

(** ** One-time codes *)

(** The challenge on file for an address, as the handlers look it up. *)
Definition challenge_of (email : pyval) (db : Database) : option dict :=
  coll_find_one (otp_filter email) (docs_of db OtpTokens).

(** A document as [request_password_change_otp] writes it. *)
Definition challenge_shaped (d : dict) : bool :=
  match d !! "_id", d !! "expiresAt", d !! "attempts", d !! "otpHash" with
  | Some _, Some (PTime _), Some (PInt _), Some (PStr _) => true
  | _, _, _, _ => false
  end.

Definition doc_id (d : dict) : option pyval := d !! "_id".
Definition otp_key (d : dict) : option pyval * option pyval :=
  (d !! "email", d !! "purpose").

(** The state of [otp_tokens] the handlers keep: documents of that shape,
    [_id] unique (MongoDB's own guarantee), one document at most for an
    address and a purpose. *)
Definition otp_store_ok (c : collection) : Prop :=
  Forall (fun d => challenge_shaped d = true) c
  /\ NoDup (doc_id <$> c)
  /\ NoDup (otp_key <$> c).

(** The test of the rate limit, for a window of [window] seconds. *)
Definition recent_challenge (email : pyval) (now window : Z) (d : dict) : bool :=
  otp_filter email d && field_gte "createdAt" (now - window) d.

(** The creation time of the most recent challenge of an address. *)
Definition created_at (d : dict) : option Z :=
  match d !! "createdAt" with
  | Some (PTime t) => Some t
  | _ => None
  end.

Fixpoint latest_created (email : pyval) (c : collection) : option Z :=
  match c with
  | [] => None
  | d :: rest =>
      match (if otp_filter email d then created_at d else None),
            latest_created email rest with
      | Some t, Some t' => Some (Z.max t t')
      | Some t, None => Some t
      | None, r => r
      end
  end.

(** The document [request_password_change_otp] inserts. *)
Definition new_challenge (sha256_hexdigest : string -> string) (email : pyval)
  (now rand : Z) (oid : string) : dict :=
  <["_id" := POid oid]>
    ({[ "email" := email;
        "otpHash" := PStr (hash_otp sha256_hexdigest (generate_otp rand));
        "purpose" := PStr "PASSWORD_CHANGE";
        "expiresAt" := PTime (now + minutes 10);
        "attempts" := PInt 0;
        "createdAt" := PTime now ]} : dict).

(** A stand-in for SHA-256 where a statement is evaluated: one to one, as
    SHA-256 is taken to be. *)
Definition stub_sha256 (s : string) : string := "sha256:" +:+ s.

(** A configuration that sets [OTP_RATE_LIMIT_MINUTES=5]. *)
Definition five_minute_settings : Settings := {|
  SECRET_KEY := SECRET_KEY default_settings;
  ALGORITHM := ALGORITHM default_settings;
  ACCESS_TOKEN_EXPIRE_MINUTES := 30;
  REFRESH_TOKEN_EXPIRE_DAYS := 7;
  OTP_EXPIRE_MINUTES := 10;
  OTP_MAX_ATTEMPTS := 3;
  OTP_RATE_LIMIT_MINUTES := 5
|}.

(** A super admin, and a challenge issued to them at second 1000. *)
Definition root_email : pyval := PStr "root@lh.io.in".
Definition root_admin : dict :=
  {[ "_id" := POid "65a1b2c3d4e5f60718293a4b";
     "email" := root_email;
     "name" := PStr "Root";
     "role" := PStr "SUPER_ADMIN";
     "passwordHash" := PStr "$2b$12$N9qo8uLOickgx2ZMRZoMyeTest@123";
     "isActive" := PBool true ]}.

(** The password Test@123, of which the hash above is the ideal bcrypt hash
    under [a_salt]. *)
Definition test_password : pystr := [84; 101; 115; 116; 64; 49; 50; 51]%N.

(** An admin whose account is not active. *)
Definition inactive_admin : dict :=
  {[ "_id" := POid "65a1b2c3d4e5f60718293a50";
     "email" := PStr "off@lh.io.in";
     "name" := PStr "Former Admin";
     "role" := PStr "ADMIN";
     "passwordHash" := PStr "$2b$12$N9qo8uLOickgx2ZMRZoMyeTest@123";
     "isActive" := PBool false ]}.
Definition challenge_1000 : dict :=
  new_challenge stub_sha256 root_email 1000 42 "65a1b2c3d4e5f60718293a4c".
Definition otp_db_1000 : Database :=
  mkDatabase None None None (Some [challenge_1000]).

(** ** Accounts *)

(** The partition [get_current_user] reads for a role. *)
Definition partition_of_role (role : pyval) : option handle_t :=
  if bool_decide (role = PStr "ADMIN") || bool_decide (role = PStr "SUPER_ADMIN")
  then Some Users
  else if bool_decide (role = PStr "SUPERVISOR") then Some Supervisors
  else if bool_decide (role = PStr "GUARD") then Some Guards
  else None.

(** Modelled from the spec: the deactivation of an account ("flip
    is_active=false"), which no handler under src/ performs. It is the
    update [{"$set": {"isActive": False}}] of the account's document. *)
Definition deactivate (h : handle_t) (_id : pyval) : DB unit :=
  update_one h (field_eq "_id" _id) (op_set [("isActive", PBool false)]).

(** A supervisor with an account in the supervisors partition, the database
    it lives in, and the access token a login at second 1000 gave it. *)
Definition supervisor_account : dict :=
  {[ "_id" := POid "65a1b2c3d4e5f60718293a4e";
     "email" := PStr "sup@lh.io.in";
     "name" := PStr "Area Supervisor";
     "passwordHash" := PStr "$2b$12$N9qo8uLOickgx2ZMRZoMyeTest@123";
     "isActive" := PBool true ]}.

Definition accounts_db : Database :=
  mkDatabase (Some [root_admin; inactive_admin]) (Some [supervisor_account])
    (Some []) (Some []).

Definition supervisor_token : Token :=
  create_access_token default_settings 1000
    {[ "user_id" := PStr "65a1b2c3d4e5f60718293a4e";
       "email" := PStr "sup@lh.io.in";
       "phone" := PNone;
       "role" := PStr "SUPERVISOR" ]}.

(** The same address seeded in the admin partition and in the supervisors
    partition. *)
Definition shared_contact_db : Database :=
  mkDatabase
    (Some [root_admin;
           <["email" := PStr "sup@lh.io.in"]>
             (<["_id" := POid "65a1b2c3d4e5f60718293a4f"]>
                (<["role" := PStr "ADMIN"]> root_admin))])
    (Some [supervisor_account]) (Some []) (Some []).

(** * Further functions of the sources *)

(** ** services/auth_service.py: further dependencies *)

Definition get_current_user_optional (settings : Settings) (now : Z)
  (token : option Token) : DB (option dict) :=
  match token with
  | None => mret None
  | Some t =>
      if negb (token_truthy t) then mret None
      else
        db_try
          (current_user ← get_current_user settings now token;
           mret (Some current_user))
          [ except_HTTPException (fun _ => Ok None) ]
  end.

(** [update_many]: every document the filter accepts is updated. *)
Definition coll_update_many (f : dict -> bool) (upd : dict -> dict)
  (c : collection) : collection :=
  (fun d => if f d then upd d else d) <$> c.

(** The filter [{"userId": user_id, "revoked": False}]. *)
Definition unrevoked_of (user_id : string) (d : dict) : bool :=
  field_eq "userId" (PStr user_id) d && field_eq "revoked" (PBool false) d.

(** [revoke_user_tokens]. The collection of refresh tokens is passed in, as
    [get_refresh_tokens_collection()] returns it ([None] without a database),
    and returned as the call leaves it. *)
Definition revoke_user_tokens (refresh_tokens_collection : option collection)
  (user_id : string) (now : Z) : bool * option collection :=
  match refresh_tokens_collection with
  | None => (false, None)
  | Some c =>
      (true,
       Some (coll_update_many (unrevoked_of user_id)
               (op_set [("revoked", PBool true); ("updatedAt", PTime now)]) c))
  end.

(** ** routes/super_admin_routes.py: the management of accounts *)

(** Truth value of a [str], of an [Optional[str]] and of a document. *)
Definition str_truthy (s : string) : bool := negb (bool_decide (s = "")).

Definition opt_truthy (x : option string) : bool :=
  match x with
  | Some s => str_truthy s
  | None => false
  end.

Definition doc_truthy (x : option dict) : bool :=
  match x with
  | Some d => negb (bool_decide (d = ∅))
  | None => false
  end.

(** An [Optional[str]] inside an f-string. *)
Definition opt_str (x : option string) : string :=
  match x with
  | Some s => s
  | None => "None"
  end.

(** A filter [{k1: v1, ...}] (every field as given) and a filter
    [{"$or": [{k1: v1}, ...]}] (one of them). *)
Definition all_fields (criteria : list (string * pyval)) (d : dict) : bool :=
  forallb (fun kv => field_eq kv.1 kv.2 d) criteria.

Definition or_fields (conditions : list (string * pyval)) (d : dict) : bool :=
  existsb (fun kv => field_eq kv.1 kv.2 d) conditions.

(** [delete_one] with the [deleted_count] of its result. *)
Definition delete_one_count (h : handle_t) (f : dict -> bool) : DB Z :=
  fun db => (Ok (if existsb f (docs_of db h) then 1 else 0),
             modify_docs db h (coll_delete_one f)).

(** models.py: the bodies of the requests. *)
Record SuperAdminAddAdminRequest : Type := mkAddAdminRequest {
  req_name : string;
  req_email : option string;
  req_phone : option string;
  req_password : pystr;
  req_state : string
}.

Record SuperAdminChangePasswordRequest : Type := mkChangePasswordRequest {
  userEmail : option string;
  userPhone : option string;
  newPassword : pystr
}.

Record AddAdminResponse : Type := mkAddAdminResponse {
  message : string;
  admin : dict
}.

Section SuperAdminRoutes.
(** [str.strip]. *)
Variable strip : string -> string.
Variable B : CryptBackend.

(** [x and x.strip()]: when that is truthy, it is the stripped text, which
    is what [x.strip()] gives wherever the handler asks for it again. *)
Definition and_strip (x : option string) : option string :=
  match x with
  | Some s => if str_truthy s && str_truthy (strip s) then Some (strip s) else None
  | None => None
  end.

Definition add_state_admin (admin_data : SuperAdminAddAdminRequest)
  (current_super_admin : dict) (now : Z) (salt oid : string)
  : DB AddAdminResponse :=
  db_try
    (users_collection ← gets get_users_collection;
     match users_collection with
     | None =>
         raise (HTTPException HTTP_503_SERVICE_UNAVAILABLE "Database not available")
     | Some users_collection =>
         _id ← lift (dict_item current_super_admin "_id");
         let super_admin_id := str_pyval _id in
         let super_admin_name :=
           dict_get_default current_super_admin "name"
             (dict_get_default current_super_admin "email" (PStr "Super Admin")) in
         let has_email := and_strip (req_email admin_data) in
         let has_phone := and_strip (req_phone admin_data) in
         if bool_decide (has_email = None) && bool_decide (has_phone = None) then
           raise (HTTPException 422 "At least email or phone must be provided")
         else
           existing_admin ← find_one users_collection
             (all_fields [("role", PStr "ADMIN");
                          ("state", PStr (req_state admin_data))]);
           if doc_truthy existing_admin then
             raise (HTTPException HTTP_400_BAD_REQUEST
                      ("Admin already exists for state '" +:+ req_state admin_data
                       +:+ "'. Only one admin per state is allowed."))
           else
             let or_conditions :=
               (match has_email with Some e => [("email", PStr e)] | None => [] end
                ++ match has_phone with Some p => [("phone", PStr p)] | None => [] end)%list in
             (match or_conditions with
              | [] => mret ()
              | _ =>
                  existing_user ← find_one users_collection (or_fields or_conditions);
                  match existing_user with
                  | Some existing_user =>
                      if negb (bool_decide (existing_user = ∅)) then
                        match has_email, has_phone with
                        | Some e, _ =>
                            if bool_decide (dict_get existing_user "email" = PStr e) then
                              raise (HTTPException HTTP_400_BAD_REQUEST
                                       ("User with email "
                                        +:+ opt_str (req_email admin_data)
                                        +:+ " already exists"))
                            else
                              match has_phone with
                              | Some p =>
                                  if bool_decide (dict_get existing_user "phone" = PStr p)
                                  then raise (HTTPException HTTP_400_BAD_REQUEST
                                                ("User with phone "
                                                 +:+ opt_str (req_phone admin_data)
                                                 +:+ " already exists"))
                                  else mret ()
                              | None => mret ()
                              end
                        | None, Some p =>
                            if bool_decide (dict_get existing_user "phone" = PStr p)
                            then raise (HTTPException HTTP_400_BAD_REQUEST
                                          ("User with phone "
                                           +:+ opt_str (req_phone admin_data)
                                           +:+ " already exists"))
                            else mret ()
                        | None, None => mret ()
                        end
                      else mret ()
                  | None => mret ()
                  end
              end);;
             hashed_password ← lift (hash_password B (req_password admin_data) salt);
             let admin_record : dict :=
               {[ "name" := PStr (req_name admin_data);
                  "role" := PStr "ADMIN";
                  "state" := PStr (req_state admin_data);
                  "isActive" := PBool true;
                  "isEmailVerified" := PBool true;
                  "createdBy" := PStr super_admin_id;
                  "createdAt" := PTime now;
                  "updatedAt" := PTime now;
                  "passwordHash" := PStr hashed_password ]} in
             let admin_record :=
               match has_email with
               | Some e => <["email" := PStr e]> admin_record
               | None => admin_record
               end in
             let admin_record :=
               match has_phone with
               | Some p => <["phone" := PStr p]> admin_record
               | None => admin_record
               end in
             insert_one users_collection oid admin_record;;
             let response_admin : dict :=
               {[ "id" := PStr oid;
                  "name" := PStr (req_name admin_data);
                  "state" := PStr (req_state admin_data);
                  "createdBy" := super_admin_name ]} in
             let response_admin :=
               match has_email with
               | Some e => <["email" := PStr e]> response_admin
               | None => response_admin
               end in
             let response_admin :=
               match has_phone with
               | Some p => <["phone" := PStr p]> response_admin
               | None => response_admin
               end in
             mret {| message := "State-wise admin added successfully";
                     admin := response_admin |}
     end)
    [ except_HTTPException (fun e => Raise e);
      except_Exception (fun e =>
        Raise (HTTPException HTTP_500_INTERNAL_SERVER_ERROR
                 ("Failed to add state admin: " +:+ str_exn e))) ].

Definition delete_state_admin (name area : string) (current_super_admin : dict)
  : DB dict :=
  db_try
    (users_collection ← gets get_users_collection;
     match users_collection with
     | None =>
         raise (HTTPException HTTP_503_SERVICE_UNAVAILABLE "Database not available")
     | Some users_collection =>
         let name := strip name in
         let area := strip area in
         let search_criteria :=
           [("role", PStr "ADMIN"); ("name", PStr name); ("state", PStr area)] in
         admin ← find_one users_collection (all_fields search_criteria);
         match admin with
         | Some admin =>
             if negb (bool_decide (admin = ∅)) then
               _id ← lift (dict_item admin "_id");
               let admin_id := str_pyval _id in
               let admin_name := dict_get_default admin "name" (PStr "Unknown") in
               let admin_state :=
                 dict_get_default admin "state" (PStr "Unknown State") in
               deleted_count ← delete_one_count users_collection (field_eq "_id" _id);
               if Z.eqb deleted_count 0 then
                 raise (HTTPException HTTP_500_INTERNAL_SERVER_ERROR
                          "Failed to delete admin")
               else
                 mret ({[ "message" := PStr "State admin deleted successfully";
                          "admin_id" := PStr admin_id;
                          "name" := admin_name;
                          "area" := PStr area;
                          "state" := admin_state ]} : dict)
             else
               raise (HTTPException 404
                        ("State admin with name '" +:+ name +:+ "' in area '"
                         +:+ area +:+ "' not found"))
         | None =>
             raise (HTTPException 404
                      ("State admin with name '" +:+ name +:+ "' in area '"
                       +:+ area +:+ "' not found"))
         end
     end)
    [ except_HTTPException (fun e => Raise e);
      except_Exception (fun e =>
        Raise (HTTPException HTTP_500_INTERNAL_SERVER_ERROR
                 ("Failed to delete state admin: " +:+ str_exn e))) ].

(** The block [change_user_password] runs for each of the three collections:
    the first document that meets the criteria gets the new hash, and the
    kind of account is noted. *)
Definition change_password_in (collection : handle_t)
  (search_criteria : list (string * pyval)) (new_password_hash : string)
  (now : Z) (kind : string) (user_type : option string) : DB (option string) :=
  user ← find_one collection (all_fields search_criteria);
  match user with
  | Some user =>
      if negb (bool_decide (user = ∅)) then
        _id ← lift (dict_item user "_id");
        update_one collection (field_eq "_id" _id)
          (op_set [("passwordHash", PStr new_password_hash);
                   ("updatedAt", PTime now)]);;
        mret (Some kind)
      else mret user_type
  | None => mret user_type
  end.

Definition change_user_password (request : SuperAdminChangePasswordRequest)
  (current_super_admin : dict) (now : Z) (salt : string) : DB string :=
  db_try
    (users_collection ← gets get_users_collection;
     supervisors_collection ← gets get_supervisors_collection;
     guards_collection ← gets get_guards_collection;
     match users_collection, supervisors_collection, guards_collection with
     | Some users_collection, Some supervisors_collection, Some guards_collection =>
         new_password_hash ← lift (hash_password B (newPassword request) salt);
         let search_criteria :=
           if opt_truthy (userEmail request)
           then [("email", PStr (opt_str (userEmail request)))]
           else if opt_truthy (userPhone request)
           then [("phone", PStr (opt_str (userPhone request)))]
           else [] in
         let contact_info :=
           if opt_truthy (userEmail request) then userEmail request
           else userPhone request in
         user_type ← change_password_in users_collection search_criteria
                       new_password_hash now "admin" None;
         user_type ← change_password_in supervisors_collection search_criteria
                       new_password_hash now "supervisor" user_type;
         user_type ← change_password_in guards_collection search_criteria
                       new_password_hash now "guard" user_type;
         match user_type with
         | None =>
             raise (HTTPException 404
                      ("User with contact " +:+ opt_str contact_info
                       +:+ " not found in any collection"))
         | Some user_type =>
             mret ("Password changed successfully for " +:+ user_type +:+ " "
                   +:+ opt_str contact_info)
         end
     | _, _, _ =>
         raise (HTTPException HTTP_503_SERVICE_UNAVAILABLE "Database not available")
     end)
    [ except_HTTPException (fun e => Raise e);
      except_Exception (fun e =>
        Raise (HTTPException HTTP_500_INTERNAL_SERVER_ERROR
                 ("Failed to change user password: " +:+ str_exn e))) ].

End SuperAdminRoutes.

(** ** database.py: maintenance *)

(** [{k: {"$lt": t}}]: the documents whose field [k] is a date before [t]. *)
Definition field_lt (k : string) (t : Z) (d : dict) : bool :=
  match d !! k with
  | Some (PTime c) => Z.ltb c t
  | _ => false
  end.

(** [cleanup_expired_tokens], on the database and the collection of refresh
    tokens; [database is None] is the case in which the collections are not
    there. *)
Definition cleanup_expired_tokens (now : Z) (db : Database)
  (refresh_tokens : option collection) : Database * option collection :=
  match otp_tokens db with
  | None => (db, refresh_tokens)
  | Some _ =>
      (modify_docs db OtpTokens (coll_delete_many (field_lt "expiresAt" now)),
       coll_delete_many (field_lt "expiresAt" now) <$> refresh_tokens)
  end.

(** [create_default_super_admin], with the three settings it reads. The mail
    with the credentials is sent inside a [try] of its own and does not
    touch the database. *)
Definition create_default_super_admin (B : CryptBackend)
  (DEFAULT_SUPER_ADMIN_EMAIL : string) (DEFAULT_SUPER_ADMIN_PASSWORD : pystr)
  (DEFAULT_SUPER_ADMIN_NAME : string) (now : Z) (salt oid : string) : DB unit :=
  fun db =>
  match users db with
  | None => (Ok (), db)
  | Some _ =>
      db_try
        (if negb (str_truthy DEFAULT_SUPER_ADMIN_EMAIL)
            || bool_decide (DEFAULT_SUPER_ADMIN_PASSWORD = [])
         then mret ()
         else
           super_admin_exists ← find_one Users
             (all_fields [("role", PStr "SUPER_ADMIN")]);
           if negb (doc_truthy super_admin_exists) then
             passwordHash ← lift (hash_password B DEFAULT_SUPER_ADMIN_PASSWORD salt);
             let super_admin_data : dict :=
               {[ "email" := PStr DEFAULT_SUPER_ADMIN_EMAIL;
                  "passwordHash" := PStr passwordHash;
                  "name" := PStr DEFAULT_SUPER_ADMIN_NAME;
                  "role" := PStr "SUPER_ADMIN";
                  "areaCity" := PNone;
                  "state" := PNone;
                  "isActive" := PBool true;
                  "isEmailVerified" := PBool true;
                  "createdAt" := PTime now;
                  "updatedAt" := PTime now ]} in
             insert_one Users oid super_admin_data;;
             mret ()
           else mret ())
        [ except_Exception (fun _ => Ok ()) ] db
  end.

(** * Further notions used in the statements *)

(** A decimal digit. *)
Definition is_decimal_digit (a : Ascii.ascii) : bool :=
  let n := Ascii.N_of_ascii a in N.leb 48 n && N.leb n 57.

(** The character 0. *)
Definition ascii_zero : Ascii.ascii := Ascii.ascii_of_N 48.

(** Successive verifications of codes for one address, each given with the
    time at which it is presented: the outcomes, in order, and the database
    after the last. *)
Fixpoint present_codes (sha256_hexdigest : string -> string) (email : pyval)
  (attempts : list (string * Z)) (db : Database) : list (result unit) * Database :=
  match attempts with
  | [] => ([], db)
  | (code, now) :: rest =>
      let r := verify_otp_record sha256_hexdigest OtpTokens email code now db in
      let rs := present_codes sha256_hexdigest email rest r.2 in
      (r.1 :: rs.1, rs.2)
  end.

(** The admins a collection of users holds for a state. *)
Definition admins_of_state (state : string) (c : collection) : collection :=
  List.filter (all_fields [("role", PStr "ADMIN"); ("state", PStr state)]) c.

(** No state has two admins. *)
Definition one_admin_per_state (db : Database) : Prop :=
  forall state, (length (admins_of_state state (docs_of db Users)) <= 1)%nat.

(** A request for an admin of Haryana, and the [_id] the driver gives the
    new document. *)
Definition haryana_request : SuperAdminAddAdminRequest :=
  {| req_name := "State Admin";
     req_email := Some "admin.hr@lh.io.in";
     req_phone := None;
     req_password := test_password;
     req_state := "Haryana" |}.

Definition a_new_id : string := "65f000000000000000000004".

(** The update [change_user_password] applies to the document it found. *)
Definition new_password_update (new_password_hash : string) (now : Z)
  : dict -> dict :=
  op_set [("passwordHash", PStr new_password_hash); ("updatedAt", PTime now)].

(** What [change_user_password], called for an address, makes of the
    documents of one collection: the first document with the address, found
    by its [_id], gets the update. *)
Definition password_changed_in (email : string) (new_password_hash : string)
  (now : Z) (c : collection) : collection :=
  match coll_find_one (field_eq "email" (PStr email)) c with
  | Some user =>
      match user !! "_id" with
      | Some _id =>
          coll_update_one (field_eq "_id" _id)
            (new_password_update new_password_hash now) c
      | None => c
      end
  | None => c
  end.

(** A request for the new password New@1234 of the address that
    [shared_contact_db] has among the users and among the supervisors. *)
Definition sup_password_request : SuperAdminChangePasswordRequest :=
  {| userEmail := Some "sup@lh.io.in";
     userPhone := Some "";
     newPassword := [78; 101; 119; 64; 49; 50; 51; 52]%N |}.

(** * Properties *)

(** ** Tokens *)

Lemma jwt_attr_JWTError : jwt_attr "JWTError" = Raise (AttributeError no_JWTError).
Proof. reflexivity. Qed.

(** What [verify_token] makes of each outcome of [jwt.decode]. *)
Lemma verify_token_cases settings now token token_type :
  verify_token settings now token token_type =
  match jwt_decode now token (SECRET_KEY settings) [ALGORITHM settings] with
  | Ok payload =>
      if bool_decide (dict_get payload "type" = PStr token_type)
      then Ok (Some payload) else Ok None
  | Raise (JwtError ExpiredSignatureError) => Ok None
  | Raise _ => Raise (AttributeError no_JWTError)
  end.
Proof.
  unfold verify_token.
  destruct (jwt_decode _ _ _ _) as [payload|e]; simpl.
  - by destruct (bool_decide _).
  - destruct e; try reflexivity.
    match goal with c : jwt_exc |- _ => by destruct c end.
Qed.

(** A token this service signed decodes to its claims until it expires. *)
Lemma jwt_decode_own settings now claims :
  jwt_decode now (Signed (SECRET_KEY settings) (ALGORITHM settings) claims)
             (SECRET_KEY settings) [ALGORITHM settings]
  = match claims !! "exp" with
    | None => Ok claims
    | Some (PInt exp) =>
        if Z.leb exp now then Raise (JwtError ExpiredSignatureError) else Ok claims
    | Some _ => Raise (JwtError DecodeError)
    end.
Proof.
  unfold jwt_decode.
  rewrite bool_decide_eq_true_2 by set_solver.
  by rewrite bool_decide_eq_true_2.
Qed.

(** A payload whose [type] is not the expected one is rejected with [None]. *)
Lemma verify_token_type_mismatch settings now token token_type payload :
  jwt_decode now token (SECRET_KEY settings) [ALGORITHM settings] = Ok payload ->
  dict_get payload "type" <> PStr token_type ->
  verify_token settings now token token_type = Ok None.
Proof.
  intros Hdec Hty. rewrite verify_token_cases, Hdec.
  by rewrite bool_decide_eq_false_2.
Qed.

(** An expired token is rejected with [None]. *)
Lemma verify_token_expired settings now token token_type :
  jwt_decode now token (SECRET_KEY settings) [ALGORITHM settings]
    = Raise (JwtError ExpiredSignatureError) ->
  verify_token settings now token token_type = Ok None.
Proof. intros Hdec. by rewrite verify_token_cases, Hdec. Qed.



(** An access token is accepted, with the claims it was issued for, until it
    expires. *)
Lemma verify_token_fresh_access settings now now' data :
  now' < now + minutes (ACCESS_TOKEN_EXPIRE_MINUTES settings) ->
  verify_token settings now' (create_access_token settings now data) "access"
  = Ok (Some (wire_claims
        (<["type" := PStr "access"]>
           (<["exp" := PTime (now + minutes (ACCESS_TOKEN_EXPIRE_MINUTES settings))]>
              data)))).
Proof.
  intros Hlt. rewrite verify_token_cases.
  unfold create_access_token, jwt_encode.
  rewrite jwt_decode_own. unfold wire_claims at 1.
  rewrite lookup_fmap. simplify_map_eq /=.
  destruct (Z.leb_spec (now + minutes (ACCESS_TOKEN_EXPIRE_MINUTES settings)) now'); [lia|].
  unfold dict_get, wire_claims. rewrite !lookup_fmap. by simplify_map_eq /=.
Qed.

Lemma wire_claims_lookup_str claims k s :
  claims !! k = Some (PStr s) -> wire_claims claims !! k = Some (PStr s).
Proof. intros H. unfold wire_claims. by rewrite lookup_fmap, H. Qed.

(** Whatever [jwt.decode] raises other than [ExpiredSignatureError] leaves
    [verify_token] as an [AttributeError]: the second clause names a class
    the module does not have. *)
Lemma verify_token_decode_error settings now token token_type e :
  jwt_decode now token (SECRET_KEY settings) [ALGORITHM settings] = Raise e ->
  e <> JwtError ExpiredSignatureError ->
  verify_token settings now token token_type = Raise (AttributeError no_JWTError).
Proof.
  intros Hdec Hne. rewrite verify_token_cases, Hdec.
  destruct e; try reflexivity.
  match goal with c : jwt_exc |- _ => by destruct c end.
Qed.

(** C1. [verify_token] is to return [None] for a token whose signature is
    invalid. At a token signed with a key other than the server's,
    [jwt.decode] raises [InvalidSignatureError]; the clause
    [except jwt.ExpiredSignatureError] does not match it, and evaluating the
    class of the next clause, [jwt.JWTError], raises [AttributeError], which
    reaches the caller. The same happens for a string that is no token. *)
Theorem verify_token_invalid_signature_raises :
  verify_token default_settings 1700000000 forged_token "access"
    = Raise (AttributeError "module 'jwt' has no attribute 'JWTError'")
  /\ verify_token default_settings 1700000000 (Malformed "not.a.token") "access"
    = Raise (AttributeError "module 'jwt' has no attribute 'JWTError'").
Proof. split; reflexivity. Qed.

(** ** Passwords *)

Lemma handle_except_Exception {A : Type} (e : exn) (h : exn -> result A) rest :
  handle e (except_Exception h :: rest) = h e.
Proof. reflexivity. Qed.

Lemma _verify_with_raw_bcrypt_attempt B plain hashed :
  _verify_with_raw_bcrypt B plain hashed =
  match raw_bcrypt_attempt B plain hashed with
  | Ok b => Ok b
  | Raise _ => Ok false
  end.
Proof.
  unfold _verify_with_raw_bcrypt, raw_bcrypt_attempt, try_except.
  by destruct (_ ≫= _).
Qed.

Lemma _verify_with_raw_bcrypt_total B plain hashed :
  exists b, _verify_with_raw_bcrypt B plain hashed = Ok b.
Proof.
  rewrite _verify_with_raw_bcrypt_attempt.
  destruct (raw_bcrypt_attempt _ _ _); eauto.
Qed.

(** [verify_password] returns: each of its [try] blocks has a handler for
    [Exception], and the last handlers return [False]. *)
Lemma verify_password_returns (B : CryptBackend) (plain_password : pystr)
  (hashed_password : string) :
  exists b, verify_password B plain_password hashed_password = Ok b.
Proof.
  unfold verify_password.
  destruct (_verify_with_raw_bcrypt_total B plain_password hashed_password)
    as [b Hraw].
  destruct (use_raw_bcrypt B); simpl.
  - rewrite Hraw. by exists b.
  - destruct (pwd_context_verify B plain_password hashed_password) as [b'|e]; simpl.
    + by exists b'.
    + rewrite Hraw. by exists b.
Qed.



(** The same holds for hashing on the raw bcrypt path, where hashing and
    verifying cut the bytes of the password at the same place. *)
Lemma string_substring_app (s t : string) :
  String.substring 0 (String.length s) (s +:+ t) = s.
Proof. induction s as [|a s IH]; simpl; [by destruct t|by rewrite IH]. Qed.

Lemma truncate_72_take bs : take 72 (truncate_72 bs) = take 72 bs.
Proof.
  unfold truncate_72. destruct (Nat.ltb_spec 72 (length bs)); [|done].
  by rewrite take_take.
Qed.

Lemma string_app_inj (s t u : string) : s +:+ t = s +:+ u -> t = u.
Proof. induction s as [|a s IH]; simpl; [done|]. intros [= H]. by apply IH. Qed.

Lemma string_of_list_byte_inj (a b : list Byte.byte) :
  String.string_of_list_byte a = String.string_of_list_byte b -> a = b.
Proof.
  intros H. apply (f_equal String.list_byte_of_string) in H.
  by rewrite !String.list_byte_of_string_of_list_byte in H.
Qed.

(** Under ideal bcrypt, a password checks against a hash exactly when its
    first 72 bytes are those of the password hashed. *)
Lemma ideal_checkpw_hashpw pw pw' salt h :
  ideal_hashpw pw salt = Ok h ->
  ideal_checkpw pw' h = Ok (bool_decide (take 72 pw' = take 72 pw)).
Proof.
  unfold ideal_checkpw, ideal_hashpw.
  destruct (bcrypt_salt_ok salt) eqn:Hsalt; [|done].
  intros [= <-].
  assert (forall t, String.substring 0 29 (salt +:+ t) = salt) as Hsub.
  { intros t. unfold bcrypt_salt_ok in Hsalt.
    apply andb_true_iff in Hsalt as [_ H]. apply Nat.eqb_eq in H.
    rewrite <- H. apply string_substring_app. }
  rewrite Hsub, Hsalt. simpl.
  f_equal. apply bool_decide_ext. split.
  - intros H. by apply string_app_inj, string_of_list_byte_inj in H.
  - by intros ->.
Qed.

(** On the raw bcrypt path hashing and verifying cut the encoded password at
    the same byte, so a hash verifies the password it was made from, however
    long. *)
Lemma raw_bcrypt_hash_then_verify (password : pystr) (salt : string) bs :
  bcrypt_salt_ok salt = true ->
  encode_utf8 password = Ok bs ->
  exists h, hash_password raw_bcrypt_backend password salt = Ok h
            /\ verify_password raw_bcrypt_backend password h = Ok true.
Proof.
  intros Hsalt Henc.
  destruct (ideal_hashpw (truncate_72 bs) salt) as [h|] eqn:Hh;
    [|by unfold ideal_hashpw in Hh; rewrite Hsalt in Hh].
  exists h. split.
  - unfold hash_password, _hash_with_raw_bcrypt. simpl. by rewrite Henc; simpl; rewrite Hh.
  - unfold verify_password. simpl.
    rewrite _verify_with_raw_bcrypt_attempt. unfold raw_bcrypt_attempt. simpl.
    rewrite Henc. simpl. rewrite (ideal_checkpw_hashpw _ _ _ _ Hh).
    by rewrite bool_decide_eq_true_2.
Qed.

Lemma string_prefix_app_l (p q s : string) :
  String.prefix (p +:+ q) s = true -> String.prefix p s = true.
Proof.
  revert s. induction p as [|a p IH]; intros s; [by destruct s|].
  destruct s as [|b s]; [done|].
  change (String a p +:+ q) with (String a (p +:+ q)). cbn [String.prefix].
  destruct (Ascii.ascii_dec a b); [apply IH|done].
Qed.

Lemma string_prefix_app_r (p s t : string) :
  String.prefix p s = true -> String.prefix p (s +:+ t) = true.
Proof.
  revert s. induction p as [|a p IH]; intros s; [by destruct s, t|].
  destruct s as [|b s]; [done|].
  change (String b s +:+ t) with (String b (s +:+ t)). cbn [String.prefix].
  destruct (Ascii.ascii_dec a b); [apply IH|done].
Qed.

(** On the passlib path the same holds for a password of at most 72 bytes. *)
Lemma passlib_hash_then_verify_short (password : pystr) (salt : string) bs :
  bcrypt_salt_ok salt = true ->
  encode_utf8 password = Ok bs ->
  (length bs <= 72)%nat ->
  exists h, hash_password passlib_backend password salt = Ok h
            /\ verify_password passlib_backend password h = Ok true.
Proof.
  intros Hsalt Henc Hlen.
  destruct (ideal_hashpw bs salt) as [h|] eqn:Hh;
    [|by unfold ideal_hashpw in Hh; rewrite Hsalt in Hh].
  assert (String.prefix "$2" h = true) as Hpre.
  { unfold ideal_hashpw in Hh. rewrite Hsalt in Hh. injection Hh as <-.
    unfold bcrypt_salt_ok in Hsalt. apply andb_true_iff in Hsalt as [Hp _].
    apply string_prefix_app_r.
    by apply (string_prefix_app_l "$2" "b$12$"). }
  exists h. split.
  - unfold hash_password. simpl. rewrite Henc. simpl.
    destruct (Nat.ltb_spec 72 (length bs)); [lia|].
    unfold ideal_pwd_context_hash. rewrite Henc. simpl. by rewrite Hh.
  - unfold verify_password. simpl. unfold ideal_pwd_context_verify.
    rewrite Hpre, Henc. simpl. rewrite (ideal_checkpw_hashpw _ _ _ _ Hh).
    by rewrite bool_decide_eq_true_2.
Qed.

(** C3. A hash is to verify the password it was made from, also beyond 72
    bytes. With passlib in use, [hash_password] cuts the encoded password at
    72 bytes and decodes the cut with [errors='ignore'], which drops the
    character the cut went through: of the 73 bytes of [split_password] it
    hashes 71. [verify_password] hands the password to passlib whole, and
    bcrypt compares its first 72 bytes: the hash does not verify the password
    it was made from. It verifies the 71 letters. *)
Theorem hash_password_verify_password_split_character :
  exists h,
    hash_password passlib_backend split_password a_salt = Ok h
    /\ verify_password passlib_backend split_password h = Ok false
    /\ verify_password passlib_backend a71 h = Ok true.
Proof. eexists. split; [reflexivity|]. split; vm_compute; reflexivity. Qed.

(** A long password of one-byte characters is cut between characters, and
    its hash verifies it on the passlib path as well. *)
Example passlib_long_ascii_password :
  exists h,
    hash_password passlib_backend (repeat 97%N 80) a_salt = Ok h
    /\ verify_password passlib_backend (repeat 97%N 80) h = Ok true.
Proof. eexists. split; [reflexivity|]. vm_compute; reflexivity. Qed.

(** On the raw bcrypt path [split_password] verifies against its own hash. *)
Example raw_bcrypt_split_password :
  exists h,
    hash_password raw_bcrypt_backend split_password a_salt = Ok h
    /\ verify_password raw_bcrypt_backend split_password h = Ok true.
Proof. by apply (raw_bcrypt_hash_then_verify split_password a_salt
                   (repeat Byte.x61 71 ++ [Byte.xc3; Byte.xa9])). Qed.

(** ** Collections *)

Lemma coll_find_one_split (f : dict -> bool) (c : collection) d :
  coll_find_one f c = Some d ->
  exists l1 l2, c = (l1 ++ d :: l2)%list /\ f d = true
                /\ Forall (fun x => f x = false) l1.
Proof.
  unfold coll_find_one. induction c as [|x c IH]; simpl; [done|].
  destruct (f x) eqn:Hfx.
  - intros [= ->]. by exists [], c.
  - intros H. destruct (IH H) as (l1 & l2 & -> & Hd & Hl1).
    exists (x :: l1), l2. by repeat constructor.
Qed.

Lemma coll_find_one_none (f : dict -> bool) (c : collection) :
  Forall (fun x => f x = false) c -> coll_find_one f c = None.
Proof.
  unfold coll_find_one. induction 1 as [|x c Hx _ IH]; simpl; [done|].
  by rewrite Hx.
Qed.

Lemma coll_find_one_app (f : dict -> bool) (l1 l2 : collection) :
  Forall (fun x => f x = false) l1 ->
  coll_find_one f (l1 ++ l2) = coll_find_one f l2.
Proof.
  unfold coll_find_one. induction 1 as [|x c Hx _ IH]; simpl; [done|].
  by rewrite Hx.
Qed.

Lemma coll_delete_one_split (f : dict -> bool) (l1 l2 : collection) d :
  Forall (fun x => f x = false) l1 -> f d = true ->
  coll_delete_one f (l1 ++ d :: l2) = (l1 ++ l2)%list.
Proof.
  intros Hl1 Hd. induction Hl1 as [|x c Hx _ IH]; simpl.
  - by rewrite Hd.
  - by rewrite Hx, IH.
Qed.

Lemma coll_update_one_split (f : dict -> bool) upd (l1 l2 : collection) d :
  Forall (fun x => f x = false) l1 -> f d = true ->
  coll_update_one f upd (l1 ++ d :: l2) = (l1 ++ upd d :: l2)%list.
Proof.
  intros Hl1 Hd. induction Hl1 as [|x c Hx _ IH]; simpl.
  - by rewrite Hd.
  - by rewrite Hx, IH.
Qed.

Lemma field_eq_true k v d : field_eq k v d = true <-> d !! k = Some v.
Proof. unfold field_eq. by rewrite bool_decide_eq_true. Qed.

Lemma field_eq_false k v d : field_eq k v d = false <-> d !! k <> Some v.
Proof. unfold field_eq. by rewrite bool_decide_eq_false. Qed.

Lemma otp_filter_true email d :
  otp_filter email d = true <->
  otp_key d = (Some email, Some (PStr "PASSWORD_CHANGE")).
Proof.
  unfold otp_filter, otp_key. rewrite andb_true_iff, !field_eq_true.
  split; [by intros [-> ->]|by intros [= -> ->]].
Qed.

(** With unique [_id]s, no document before or after [d] carries [d]'s. *)
Lemma unique_id_before (l1 l2 : collection) d i :
  NoDup (doc_id <$> (l1 ++ d :: l2)%list) -> d !! "_id" = Some i ->
  Forall (fun x => field_eq "_id" i x = false) l1.
Proof.
  intros Hnd Hi. rewrite fmap_app, fmap_cons in Hnd.
  apply NoDup_app in Hnd as (_ & Hdisj & _).
  apply Forall_forall. intros x Hx. apply field_eq_false. intros Hxi.
  apply (Hdisj (doc_id x)).
  - by apply list_elem_of_fmap_2.
  - unfold doc_id at 1. rewrite Hxi, <- Hi. apply list_elem_of_here.
Qed.

(** With one document at most per address and purpose, the documents around
    the challenge of an address are not challenges of that address. *)
Lemma unique_key_others (l1 l2 : collection) d email :
  NoDup (otp_key <$> (l1 ++ d :: l2)%list) -> otp_filter email d = true ->
  Forall (fun x => otp_filter email x = false) (l1 ++ l2)%list.
Proof.
  intros Hnd Hd. apply otp_filter_true in Hd.
  rewrite fmap_app, fmap_cons in Hnd.
  apply NoDup_app in Hnd as (_ & Hdisj & Hnd2).
  apply NoDup_cons in Hnd2 as [Hnotin _].
  apply Forall_app. split; apply Forall_forall; intros x Hx;
    apply not_true_is_false; intros Hfx; apply otp_filter_true in Hfx.
  - apply (Hdisj (otp_key x)); [by apply list_elem_of_fmap_2|].
    rewrite Hfx, <- Hd. apply list_elem_of_here.
  - apply Hnotin. rewrite Hd, <- Hfx. by apply list_elem_of_fmap_2.
Qed.

(** ** One-time codes: verification *)

Lemma challenge_shaped_fields d :
  challenge_shaped d = true ->
  exists i e a h, d !! "_id" = Some i /\ d !! "expiresAt" = Some (PTime e)
                  /\ d !! "attempts" = Some (PInt a) /\ d !! "otpHash" = Some (PStr h).
Proof.
  unfold challenge_shaped. intros H.
  destruct (d !! "_id") as [i|]; [|done].
  destruct (d !! "expiresAt") as [[]|]; try done.
  destruct (d !! "attempts") as [[]|]; try done.
  destruct (d !! "otpHash") as [[]|]; try done.
  by eexists _, _, _, _.
Qed.

Lemma otp_filter_op_inc email k n d :
  k <> "email" -> k <> "purpose" ->
  otp_filter email (op_inc k n d) = otp_filter email d.
Proof.
  intros Hk1 Hk2. unfold otp_filter, field_eq, op_inc.
  destruct (d !! k) as [[]|]; try done; by rewrite !lookup_insert_ne.
Qed.

(** [verify_otp_record] when no challenge is on file. *)
Lemma verify_otp_record_not_found sha256_hexdigest h email request_otp now db :
  coll_find_one (otp_filter email) (docs_of db h) = None ->
  verify_otp_record sha256_hexdigest h email request_otp now db
  = (Raise (HTTPException 400 "No OTP found. Please request an OTP first."), db).
Proof.
  intros Hfind. unfold verify_otp_record, mbind, DB_bind, find_one.
  by rewrite Hfind.
Qed.

(** [verify_otp_record] on the challenge it finds: the four checks in the
    order of the source, each with its write to the collection. *)
Lemma verify_otp_record_found sha256_hexdigest h email request_otp now db
  otp_record i e a code_hash :
  coll_find_one (otp_filter email) (docs_of db h) = Some otp_record ->
  otp_record !! "_id" = Some i ->
  otp_record !! "expiresAt" = Some (PTime e) ->
  otp_record !! "attempts" = Some (PInt a) ->
  otp_record !! "otpHash" = Some code_hash ->
  verify_otp_record sha256_hexdigest h email request_otp now db
  = if Z.ltb e now then
      (Raise (HTTPException 400 "OTP has expired. Please request a new OTP."),
       modify_docs db h (coll_delete_one (field_eq "_id" i)))
    else if Z.leb 3 a then
      (Raise (HTTPException 429
                "Maximum OTP attempts exceeded. Please request a new OTP."),
       modify_docs db h (coll_delete_one (field_eq "_id" i)))
    else if negb (verify_otp sha256_hexdigest request_otp code_hash) then
      (Raise (HTTPException 400 "Invalid OTP. Please check and try again."),
       modify_docs db h (coll_update_one (field_eq "_id" i) (op_inc "attempts" 1)))
    else
      (Ok (), modify_docs db h (coll_delete_one (field_eq "_id" i))).
Proof.
  intros Hfind Hi He Ha Hh.
  unfold verify_otp_record, mbind, DB_bind, find_one, lift, dict_item.
  rewrite Hfind, He, Ha, Hh, Hi. simpl.
  destruct (Z.ltb e now); [done|].
  destruct (Z.leb 3 a); [done|].
  by destruct (verify_otp _ _ _).
Qed.

(** C2. The decision sequence of OTP verification, on a store in the
    state the handlers keep. No challenge on file: "No OTP found" (400), the
    store as it was. Otherwise, in this order: [now > expiresAt]: "expired"
    (400) and the challenge is gone; [attempts >= 3]: "attempts exceeded"
    (429) and the challenge is gone; the SHA-256 of the submitted code is
    not the stored hash: "Invalid OTP" (400) and the challenge stays, its
    [attempts] one higher; else the verification passes, the challenge is
    gone, and verifying again with the same code finds no challenge. *)
Theorem otp_verification_sequence (sha256_hexdigest : string -> string)
  (db : Database) (c : collection) (email : pyval) (request_otp : string)
  (now : Z) :
  otp_tokens db = Some c ->
  otp_store_ok c ->
  let r := verify_otp_record sha256_hexdigest OtpTokens email request_otp now db in
  match challenge_of email db with
  | None =>
      r = (Raise (HTTPException 400 "No OTP found. Please request an OTP first."), db)
  | Some challenge =>
      exists expires_at attempts code_hash,
        challenge !! "expiresAt" = Some (PTime expires_at)
        /\ challenge !! "attempts" = Some (PInt attempts)
        /\ challenge !! "otpHash" = Some (PStr code_hash)
        /\ if Z.ltb expires_at now then
             r.1 = Raise (HTTPException 400 "OTP has expired. Please request a new OTP.")
             /\ challenge_of email r.2 = None
           else if Z.leb 3 attempts then
             r.1 = Raise (HTTPException 429
                            "Maximum OTP attempts exceeded. Please request a new OTP.")
             /\ challenge_of email r.2 = None
           else if negb (bool_decide (sha256_hexdigest request_otp = code_hash)) then
             r.1 = Raise (HTTPException 400 "Invalid OTP. Please check and try again.")
             /\ challenge_of email r.2
                = Some (<["attempts" := PInt (attempts + 1)]> challenge)
           else
             r.1 = Ok ()
             /\ challenge_of email r.2 = None
             /\ verify_otp_record sha256_hexdigest OtpTokens email request_otp now r.2
                = (Raise (HTTPException 400
                            "No OTP found. Please request an OTP first."), r.2)
  end.
Proof.
  intros Hc (Hshape & Hids & Hkeys) r.
  assert (docs_of db OtpTokens = c) as Hdocs by by (unfold docs_of; rewrite Hc).
  assert (forall f, docs_of (modify_docs db OtpTokens f) OtpTokens = f c) as Hmod.
  { intros f. unfold docs_of, modify_docs. simpl. by rewrite Hc. }
  unfold challenge_of. rewrite Hdocs.
  destruct (coll_find_one (otp_filter email) c) as [ch|] eqn:Hfind.
  2: { subst r. apply verify_otp_record_not_found. by rewrite Hdocs. }
  destruct (coll_find_one_split _ _ _ Hfind) as (l1 & l2 & Heq & Hch & Hl1).
  assert (challenge_shaped ch = true) as Hsh.
  { rewrite Forall_forall in Hshape. apply Hshape. rewrite Heq. set_solver. }
  destruct (challenge_shaped_fields _ Hsh) as (i & e & a & h & Hi & He & Ha & Hh).
  exists e, a, h. split; [done|]. split; [done|]. split; [done|].
  rewrite Heq in Hids, Hkeys.
  pose proof (unique_id_before _ _ _ _ Hids Hi) as Hid1.
  pose proof (unique_key_others _ _ _ _ Hkeys Hch) as Hothers.
  assert (field_eq "_id" i ch = true) as Hidch by by apply field_eq_true.
  assert (r = verify_otp_record sha256_hexdigest OtpTokens email request_otp now db)
    as Hr by done.
  rewrite (verify_otp_record_found _ _ _ _ _ _ ch i e a (PStr h)) in Hr
    by (by rewrite ?Hdocs).
  clearbody r.
  assert (coll_find_one (otp_filter email)
            (coll_delete_one (field_eq "_id" i) c) = None) as Hgone.
  { rewrite Heq, coll_delete_one_split by done. by apply coll_find_one_none. }
  destruct (Z.ltb e now).
  { subst r. cbn [fst snd]. by rewrite Hmod. }
  destruct (Z.leb 3 a).
  { subst r. cbn [fst snd]. by rewrite Hmod. }
  unfold verify_otp in Hr.
  assert (bool_decide (PStr (sha256_hexdigest request_otp) = PStr h)
          = bool_decide (sha256_hexdigest request_otp = h)) as Hbd.
  { apply bool_decide_ext. split; [by intros [= ->]|by intros ->]. }
  rewrite Hbd in Hr.
  destruct (bool_decide (sha256_hexdigest request_otp = h)); subst r; cbn [fst snd negb].
  - rewrite Hmod. split; [done|]. split; [done|].
    apply verify_otp_record_not_found. by rewrite Hmod.
  - rewrite Hmod. split; [done|].
    rewrite Heq, coll_update_one_split by done.
    rewrite coll_find_one_app by done.
    unfold coll_find_one. simpl.
    rewrite otp_filter_op_inc, Hch by done.
    by unfold op_inc; rewrite Ha.
Qed.

(** One challenge on file, for the code 000042, verified with that code
    before it expires. *)
Lemma otp_verification_sequence_witness :
  let email := PStr "root@lh.io.in" in
  let c := [new_challenge stub_sha256 email 1000 42 "65a1b2c3d4e5f60718293a4c"] in
  let db := mkDatabase None None None (Some c) in
  otp_tokens db = Some c
  /\ otp_store_ok c
  /\ (verify_otp_record stub_sha256 OtpTokens email "000042" 1100 db).1 = Ok ()
  /\ challenge_of email
       (verify_otp_record stub_sha256 OtpTokens email "000042" 1100 db).2 = None.
Proof.
  intros email c db.
  assert (otp_store_ok c) as Hok.
  { split; [|split].
    - by repeat constructor.
    - apply NoDup_singleton.
    - apply NoDup_singleton. }
  split; [reflexivity|]. split; [exact Hok|].
  pose proof (otp_verification_sequence stub_sha256 db c email "000042" 1100
                eq_refl Hok) as H.
  change (challenge_of email db) with (Some (new_challenge stub_sha256 email 1000 42 "65a1b2c3d4e5f60718293a4c")) in H.
  destruct H as (e & a & h & He & Ha & Hh & H).
  injection He as <-. injection Ha as <-. injection Hh as <-.
  change (Z.ltb (1000 + minutes 10) 1100) with false in H.
  change (Z.leb 3 0) with false in H.
  change (negb (bool_decide (stub_sha256 "000042" = hash_otp stub_sha256 (generate_otp 42)))) with false in H.
  cbv iota in H. destruct H as (H1 & H2 & _). by split.
Defined.

(** The handler passes on what the verification raises, and touches nothing
    else. *)
Lemma change_super_admin_password_otp_error sha256_hexdigest B request_otp
  request_newPassword current_super_admin now salt db us c status detail db' :
  users db = Some us -> otp_tokens db = Some c ->
  truthy (dict_get current_super_admin "email") = true ->
  verify_otp_record sha256_hexdigest OtpTokens
    (dict_get current_super_admin "email") request_otp now db
    = (Raise (HTTPException status detail), db') ->
  change_super_admin_password sha256_hexdigest B request_otp request_newPassword
    current_super_admin now salt db
  = (Raise (HTTPException status detail), db').
Proof.
  intros Hus Hc Hem Hv.
  unfold change_super_admin_password, db_try, mbind, DB_bind, gets,
    get_users_collection, get_otp_tokens_collection, get_collection.
  rewrite Hus, Hc. simpl. rewrite Hem. simpl.
  unfold mbind, DB_bind. by rewrite Hv.
Qed.

(** Verification keeps the store in the state it relies on. *)
Lemma verify_otp_record_preserves_ok sha256_hexdigest db c email request_otp now :
  otp_tokens db = Some c -> otp_store_ok c ->
  exists c', otp_tokens
               (verify_otp_record sha256_hexdigest OtpTokens email request_otp now db).2
             = Some c'
             /\ otp_store_ok c'.
Proof.
  intros Hc Hok.
  assert (docs_of db OtpTokens = c) as Hdocs by by (unfold docs_of; rewrite Hc).
  assert (forall f, otp_tokens (modify_docs db OtpTokens f) = Some (f c)) as Hmod.
  { intros f. unfold modify_docs. simpl. by rewrite Hc. }
  destruct (coll_find_one (otp_filter email) c) as [ch|] eqn:Hfind.
  2: { rewrite verify_otp_record_not_found by by rewrite Hdocs. by exists c. }
  destruct Hok as (Hshape & Hids & Hkeys).
  destruct (coll_find_one_split _ _ _ Hfind) as (l1 & l2 & Heq & Hch & Hl1).
  rewrite Heq in Hshape, Hids, Hkeys, Hmod.
  assert (challenge_shaped ch = true) as Hsh.
  { rewrite Forall_forall in Hshape. apply Hshape.
    apply elem_of_app. right. apply list_elem_of_here. }
  destruct (challenge_shaped_fields _ Hsh) as (i & e & a & h & Hi & He & Ha & Hh).
  pose proof (unique_id_before _ _ _ _ Hids Hi) as Hid1.
  assert (field_eq "_id" i ch = true) as Hidch by by apply field_eq_true.
  rewrite (verify_otp_record_found _ _ _ _ _ _ ch i e a (PStr h))
    by (by rewrite ?Hdocs).
  assert (otp_store_ok (l1 ++ l2)) as Hdel.
  { split; [|split].
    - apply Forall_app in Hshape as [? Hs2]. apply Forall_cons in Hs2 as [_ ?].
      by apply Forall_app.
    - rewrite fmap_app, fmap_cons in Hids. rewrite fmap_app.
      eapply sublist_NoDup; [exact Hids|].
      apply sublist_app; [done|]. by apply sublist_cons.
    - rewrite fmap_app, fmap_cons in Hkeys. rewrite fmap_app.
      eapply sublist_NoDup; [exact Hkeys|].
      apply sublist_app; [done|]. by apply sublist_cons. }
  assert (otp_store_ok (l1 ++ op_inc "attempts" 1 ch :: l2)) as Hupd.
  { assert (op_inc "attempts" 1 ch = <["attempts" := PInt (a + 1)]> ch) as ->
      by by (unfold op_inc; rewrite Ha).
    split; [|split].
    - apply Forall_app in Hshape as [? Hs2]. apply Forall_cons in Hs2 as [_ ?].
      apply Forall_app. split; [done|]. apply Forall_cons. split; [|done].
      unfold challenge_shaped. by simplify_map_eq.
    - rewrite fmap_app, fmap_cons in *. unfold doc_id at 2.
      by rewrite lookup_insert_ne.
    - rewrite fmap_app, fmap_cons in *. unfold otp_key at 2.
      by rewrite !lookup_insert_ne. }
  destruct (Z.ltb e now); [|destruct (Z.leb 3 a); [|destruct (negb _)]];
    cbn [snd]; rewrite Hmod; eexists; (split; [reflexivity|]);
    rewrite ?coll_delete_one_split, ?coll_update_one_split by done; done.
Qed.

(** ** One-time codes: issuance *)

Lemma coll_find_one_existsb (f : dict -> bool) (c : collection) :
  bool_decide (is_Some (coll_find_one f c)) = existsb f c.
Proof.
  unfold coll_find_one. induction c as [|d c IH]; simpl; [done|].
  by destruct (f d).
Qed.

(** What [delete_many] leaves, and what [insert_one] adds. *)
Lemma filter_coll_delete_many (f : dict -> bool) (c : collection) :
  List.filter f (coll_delete_many f c) = [].
Proof.
  unfold coll_delete_many. induction c as [|d c IH]; simpl; [done|].
  destruct (f d) eqn:Hd; simpl; [done|]. by rewrite Hd.
Qed.

Lemma filter_others_coll_delete_many (f : dict -> bool) (c : collection) :
  List.filter (fun d => negb (f d)) (coll_delete_many f c)
  = List.filter (fun d => negb (f d)) c.
Proof.
  unfold coll_delete_many. induction c as [|d c IH]; simpl; [done|].
  destruct (f d) eqn:Hd; simpl; [done|]. by rewrite Hd, IH.
Qed.

Lemma coll_delete_one_not_found (f : dict -> bool) (c : collection) :
  List.filter f c = [] -> coll_delete_one f c = c.
Proof.
  induction c as [|d c IH]; simpl; [done|].
  destruct (f d); [done|]. intros H. by rewrite IH.
Qed.

Lemma otp_filter_new_challenge sha256_hexdigest email now rand oid :
  otp_filter email (new_challenge sha256_hexdigest email now rand oid) = true.
Proof.
  unfold otp_filter, new_challenge. apply andb_true_iff.
  rewrite !field_eq_true. split; by simplify_map_eq.
Qed.

(** [request_password_change_otp] when the collection is there and the caller
    has an address: refusal, or the replacement of the challenges of the
    address by a new one, which is removed again when the mail was not sent. *)
Lemma request_password_change_otp_eq sha256_hexdigest current_super_admin now
  rand oid send_otp_email db c :
  otp_tokens db = Some c ->
  truthy (dict_get current_super_admin "email") = true ->
  let email := dict_get current_super_admin "email" in
  let inserted := fun c => coll_insert_one oid
                    (delete "_id" (new_challenge sha256_hexdigest email now rand oid))
                    (coll_delete_many (otp_filter email) c) in
  request_password_change_otp sha256_hexdigest current_super_admin now rand oid
    send_otp_email db
  = if existsb (recent_challenge email now (minutes 1)) c then
      (Raise (HTTPException 429 "Please wait 1 minute before requesting another OTP"),
       db)
    else
      match send_otp_email with
      | Ok true =>
          (Ok ("OTP sent to " +:+ str_pyval email
               +:+ ". Please check your email. OTP expires in 10 minutes."),
           modify_docs db OtpTokens inserted)
      | Ok false =>
          (Raise (HTTPException 500 "Failed to send OTP email. Please try again."),
           modify_docs db OtpTokens
             (fun c => coll_delete_one (otp_filter email) (inserted c)))
      | Raise e =>
          (Raise (if is_HTTPException e then e
                  else HTTPException 500 "Failed to send OTP"),
           modify_docs db OtpTokens inserted)
      end.
Proof.
  intros Hc Hem email inserted.
  unfold request_password_change_otp, db_try, mbind, DB_bind, gets,
    get_otp_tokens_collection, get_collection.
  rewrite Hc. simpl. rewrite Hem. simpl. fold email.
  unfold mbind, DB_bind, find_one.
  assert (docs_of db OtpTokens = c) as -> by by (unfold docs_of; rewrite Hc).
  rewrite coll_find_one_existsb.
  change (fun d => otp_filter email d && field_gte "createdAt" (now - minutes 1) d)
    with (recent_challenge email now (minutes 1)).
  destruct (existsb _ c); [done|].
  assert (delete "_id" (new_challenge sha256_hexdigest email now rand oid)
          = ({[ "email" := email;
                "otpHash" := PStr (hash_otp sha256_hexdigest (generate_otp rand));
                "purpose" := PStr "PASSWORD_CHANGE";
                "expiresAt" := PTime (now + minutes 10);
                "attempts" := PInt 0;
                "createdAt" := PTime now ]} : dict)) as Hnew.
  { unfold new_challenge. rewrite delete_insert_eq. apply delete_id.
    by simplify_map_eq. }
  subst inserted. cbv beta. rewrite Hnew.
  unfold delete_many, insert_one, delete_one, lift, raise, modify_docs.
  destruct send_otp_email as [[]|e]; simpl; rewrite ?Hc; simpl; try done.
  by destruct (is_HTTPException e).
Qed.

(** The test of the rate limit looks at every challenge of the address, which
    is to look at the most recent one. *)
Lemma recent_challenge_latest email now window (c : collection) :
  existsb (recent_challenge email now window) c = true <->
  exists t, latest_created email c = Some t /\ now - window <= t.
Proof.
  induction c as [|d c IH]; simpl.
  - split; [done|]. by intros (t & ? & _).
  - rewrite orb_true_iff, IH. clear IH.
    unfold recent_challenge, field_gte, created_at.
    destruct (otp_filter email d); simpl.
    2: { split; [intros [?|H]; [done|exact H] | intros H; by right]. }
    destruct (d !! "createdAt") as [v|].
    2: { split; [intros [?|H]; [done|exact H] | intros H; by right]. }
    destruct v as [ | b | n | s | t | o];
      try (split; [intros [?|H]; [done|exact H] | intros H; by right]).
    destruct (latest_created email c) as [t'|].
    + split.
      * intros [H|(t1 & [= <-] & H)]; eexists; (split; [done|]); lia.
      * intros (t1 & [= <-] & H).
        destruct (Z.leb_spec (now - window) t); [by left|].
        right. exists t'. split; [done|]. lia.
    + split.
      * intros [H|(t1 & ? & _)]; [|done]. exists t. split; [done|]. lia.
      * intros (t1 & [= <-] & H). left. lia.
Qed.

(** C7, as the handler has it. The window of the rate limit is one minute,
    written in the handler; the setting [OTP_RATE_LIMIT_MINUTES] is not
    read. Issuance is refused with 429, and the store left as it was, exactly
    when the most recent challenge of the address was created within the last
    minute. Otherwise every challenge of the address that was on file is
    deleted before the new one is inserted: afterwards the challenges of the
    address are the new one alone (or none, when the mail could not be sent
    and the new one was removed), and the other documents are as before. *)
Theorem otp_issue_rate_limit_one_minute (sha256_hexdigest : string -> string)
  (current_super_admin : dict) (now rand : Z) (oid : string)
  (send_otp_email : result bool) (db : Database) (c : collection) :
  otp_tokens db = Some c ->
  truthy (dict_get current_super_admin "email") = true ->
  let email := dict_get current_super_admin "email" in
  let r := request_password_change_otp sha256_hexdigest current_super_admin now
             rand oid send_otp_email db in
  let fresh := new_challenge sha256_hexdigest email now rand oid in
  (existsb (recent_challenge email now (minutes 1)) c = true <->
   exists t, latest_created email c = Some t /\ now - minutes 1 <= t)
  /\ if existsb (recent_challenge email now (minutes 1)) c then
       r = (Raise (HTTPException 429
                     "Please wait 1 minute before requesting another OTP"), db)
     else
       exists c',
         otp_tokens r.2 = Some c'
         /\ (List.filter (otp_filter email) c' = [fresh]
             \/ List.filter (otp_filter email) c' = [])
         /\ (length (List.filter (otp_filter email) c') <= 1)%nat
         /\ List.filter (fun d => negb (otp_filter email d)) c'
            = List.filter (fun d => negb (otp_filter email d)) c
         /\ (send_otp_email = Ok true ->
             List.filter (otp_filter email) c' = [fresh]
             /\ exists message, r.1 = Ok message).
Proof.
  intros Hc Hem email r fresh.
  split; [apply recent_challenge_latest|].
  subst r. rewrite (request_password_change_otp_eq _ _ _ _ _ _ _ c Hc Hem).
  fold email.
  destruct (existsb _ c); [done|].
  assert (forall f, otp_tokens (modify_docs db OtpTokens f) = Some (f c)) as Hmod.
  { intros f. unfold modify_docs. simpl. by rewrite Hc. }
  assert (<["_id" := POid oid]>
            (delete "_id" (new_challenge sha256_hexdigest email now rand oid))
          = fresh) as Hfresh.
  { subst fresh. unfold new_challenge. by rewrite insert_delete_eq, insert_insert_eq. }
  pose proof (otp_filter_new_challenge sha256_hexdigest email now rand oid) as Hf.
  fold fresh in Hf.
  set (rest := coll_delete_many (otp_filter email) c).
  assert (List.filter (otp_filter email) (rest ++ [fresh]) = [fresh]) as Hone.
  { rewrite List.filter_app. subst rest. rewrite filter_coll_delete_many.
    simpl. by rewrite Hf. }
  assert (List.filter (fun d => negb (otp_filter email d)) (rest ++ [fresh])
          = List.filter (fun d => negb (otp_filter email d)) c) as Hothers.
  { rewrite List.filter_app. subst rest. rewrite filter_others_coll_delete_many.
    simpl. rewrite Hf. simpl. by rewrite app_nil_r. }
  assert (coll_delete_one (otp_filter email) (rest ++ [fresh]) = rest) as Hdel.
  { rewrite coll_delete_one_split; [by rewrite app_nil_r| |done].
    subst rest. unfold coll_delete_many. apply Forall_forall.
    intros x Hx. apply list_elem_of_In, List.filter_In in Hx as [_ Hx].
    by apply negb_true_iff. }
  destruct send_otp_email as [[]|e]; cbn [fst snd]; rewrite Hmod;
    unfold coll_insert_one; rewrite Hfresh; fold rest.
  - exists (rest ++ [fresh])%list. rewrite Hone.
    split; [done|]. split; [by left|]. split; [simpl; lia|]. split; [done|].
    intros _. split; [done|]. by eexists.
  - exists rest. rewrite Hdel. subst rest. rewrite filter_coll_delete_many.
    rewrite filter_others_coll_delete_many.
    split; [done|]. split; [by right|]. split; [simpl; lia|]. by split.
  - exists (rest ++ [fresh])%list. rewrite Hone.
    split; [done|]. split; [by left|]. split; [simpl; lia|]. by split.
Qed.

(** A second request 61 seconds after the first: the challenge of the first
    is replaced. *)
Lemma otp_issue_rate_limit_one_minute_witness :
  otp_tokens otp_db_1000 = Some [challenge_1000]
  /\ truthy (dict_get root_admin "email") = true
  /\ exists c',
       otp_tokens (request_password_change_otp stub_sha256 root_admin 1061 7
                     "65a1b2c3d4e5f60718293a4d" (Ok true) otp_db_1000).2 = Some c'
       /\ (length (List.filter (otp_filter root_email) c') <= 1)%nat.
Proof.
  split; [reflexivity|]. split; [reflexivity|].
  destruct (otp_issue_rate_limit_one_minute stub_sha256 root_admin 1061 7
              "65a1b2c3d4e5f60718293a4d" (Ok true) otp_db_1000 [challenge_1000]
              eq_refl eq_refl) as [_ H].
  change (existsb (recent_challenge (dict_get root_admin "email") 1061 (minutes 1))
            [challenge_1000]) with false in H.
  cbv iota in H. destruct H as (c' & H1 & _ & H3 & _).
  exists c'. by split.
Defined.

(** C7, as stated, fails where the setting is not its default: with
    [OTP_RATE_LIMIT_MINUTES=5], a challenge created two minutes ago lies
    within the configured window, and a new code is issued all the same. *)
Lemma otp_rate_limit_setting_not_read :
  let window := minutes (OTP_RATE_LIMIT_MINUTES five_minute_settings) in
  let r := request_password_change_otp stub_sha256 root_admin 1120 7
             "65a1b2c3d4e5f60718293a4d" (Ok true) otp_db_1000 in
  existsb (recent_challenge root_email 1120 window) [challenge_1000] = true
  /\ r.1 = Ok "OTP sent to root@lh.io.in. Please check your email. OTP expires in 10 minutes."
  /\ r.1 <> Raise (HTTPException 429
                     "Please wait 1 minute before requesting another OTP").
Proof. split; [reflexivity|]. split; [reflexivity|]. by vm_compute. Qed.

Lemma coll_delete_many_sublist (f : dict -> bool) (c : collection) :
  coll_delete_many f c `sublist_of` c.
Proof.
  unfold coll_delete_many. induction c as [|d c IH]; simpl; [done|].
  destruct (f d); simpl; [by apply sublist_cons|by apply sublist_skip].
Qed.

(** Issuance keeps the store in the state verification relies on, the driver
    generating an [_id] that is not in the collection. *)
Lemma request_password_change_otp_preserves_ok sha256_hexdigest
  current_super_admin now rand oid send_otp_email db c :
  otp_tokens db = Some c ->
  truthy (dict_get current_super_admin "email") = true ->
  otp_store_ok c ->
  Some (POid oid) ∉ doc_id <$> c ->
  exists c',
    otp_tokens (request_password_change_otp sha256_hexdigest current_super_admin
                  now rand oid send_otp_email db).2 = Some c'
    /\ otp_store_ok c'.
Proof.
  intros Hc Hem Hok Hoid.
  rewrite (request_password_change_otp_eq _ _ _ _ _ _ _ c Hc Hem).
  set (email := dict_get current_super_admin "email").
  destruct (existsb _ c); [by exists c|].
  assert (forall f, otp_tokens (modify_docs db OtpTokens f) = Some (f c)) as Hmod.
  { intros f. unfold modify_docs. simpl. by rewrite Hc. }
  set (fresh := new_challenge sha256_hexdigest email now rand oid).
  assert (<["_id" := POid oid]> (delete "_id" fresh) = fresh) as Hfresh.
  { subst fresh. unfold new_challenge. by rewrite insert_delete_eq, insert_insert_eq. }
  pose proof (otp_filter_new_challenge sha256_hexdigest email now rand oid) as Hf.
  fold fresh in Hf.
  set (rest := coll_delete_many (otp_filter email) c).
  assert (Forall (fun x => otp_filter email x = false) rest) as Hrest.
  { subst rest. unfold coll_delete_many. apply Forall_forall.
    intros x Hx. apply list_elem_of_In, List.filter_In in Hx as [_ Hx].
    by apply negb_true_iff. }
  assert (coll_delete_one (otp_filter email) (rest ++ [fresh]) = rest) as Hdel.
  { rewrite coll_delete_one_split; [by rewrite app_nil_r|done|done]. }
  destruct Hok as (Hshape & Hids & Hkeys).
  pose proof (coll_delete_many_sublist (otp_filter email) c) as Hsub.
  fold rest in Hsub.
  assert (otp_store_ok rest) as Hok_rest.
  { split; [|split].
    - rewrite Forall_forall in Hshape |- *. intros x Hx.
      apply Hshape. by eapply elem_of_sublist.
    - eapply sublist_NoDup; [exact Hids|]. by apply fmap_sublist.
    - eapply sublist_NoDup; [exact Hkeys|]. by apply fmap_sublist. }
  assert (otp_store_ok (rest ++ [fresh])) as Hok_ins.
  { destruct Hok_rest as (Hs & Hi & Hk). split; [|split].
    - apply Forall_app. split; [done|]. by repeat constructor.
    - rewrite fmap_app. apply NoDup_app. split; [done|].
      split; [|apply NoDup_singleton].
      intros x Hx Hx'. apply list_elem_of_singleton in Hx'. subst x.
      apply Hoid. change (doc_id fresh) with (Some (POid oid)) in Hx.
      eapply elem_of_sublist; [exact Hx|]. by apply fmap_sublist.
    - rewrite fmap_app. apply NoDup_app. split; [done|].
      split; [|apply NoDup_singleton].
      intros x Hx Hx'. apply list_elem_of_singleton in Hx'. subst x.
      apply list_elem_of_fmap in Hx as (d & Hd & Hin).
      rewrite Forall_forall in Hrest. specialize (Hrest d Hin).
      apply not_true_iff_false in Hrest. apply Hrest.
      apply otp_filter_true. rewrite <- Hd. by apply otp_filter_true. }
  destruct send_otp_email as [[]|e]; cbn [fst snd]; rewrite Hmod;
    unfold coll_insert_one; fold email; fold fresh; rewrite Hfresh; fold rest;
    rewrite ?Hdel; eauto.
Qed.

(** ** Authentication and roles *)

(** A payload [verify_token] accepts has a [type], so is not empty. *)
Lemma verify_token_payload settings now token token_type payload :
  verify_token settings now token token_type = Ok (Some payload) ->
  jwt_decode now token (SECRET_KEY settings) [ALGORITHM settings] = Ok payload
  /\ payload !! "type" = Some (PStr token_type).
Proof.
  rewrite verify_token_cases.
  destruct (jwt_decode _ _ _ _) as [p|e].
  - destruct (bool_decide _) eqn:Hty; [|done]. intros [= ->]. split; [done|].
    apply bool_decide_eq_true in Hty. unfold dict_get in Hty.
    by destruct (payload !! "type") as [v|]; simpl in Hty; subst.
  - destruct e; try done. by match goal with c : jwt_exc |- _ => destruct c end.
Qed.

(** What a token decodes to does not depend on when it is decoded. *)
Lemma jwt_decode_time now now' token key algs payload payload' :
  jwt_decode now token key algs = Ok payload ->
  jwt_decode now' token key algs = Ok payload' ->
  payload' = payload.
Proof.
  unfold jwt_decode. destruct token as [k alg claims|]; [|done].
  destruct (negb _); [done|]. destruct (negb _); [done|].
  destruct (claims !! "exp") as [[]|]; try done.
  - do 2 destruct (Z.leb _ _); try done. by intros [= <-] [= <-].
  - by intros [= <-] [= <-].
Qed.

Lemma partition_of_role_truthy role h :
  partition_of_role role = Some h -> truthy role = true.
Proof.
  unfold partition_of_role. repeat case_bool_decide; subst; simpl; done.
Qed.

(** [get_current_user] past the checks on the token: it reads the account in
    the partition of the role and looks at [isActive] as it is now. *)
Lemma get_current_user_run settings now tok db payload h oid :
  token_truthy tok = true ->
  verify_token settings now tok "access" = Ok (Some payload) ->
  truthy (dict_get payload "user_id") = true ->
  partition_of_role (dict_get payload "role") = Some h ->
  get_collection db h = Some h ->
  ObjectId (dict_get payload "user_id") = Ok oid ->
  get_current_user settings now (Some tok) db
  = match coll_find_one (field_eq "_id" oid) (docs_of db h) with
    | None => (Raise (AuthenticationError "User not found"), db)
    | Some account =>
        if truthy (dict_get_default account "isActive" (PBool false))
        then (Ok (<["role" := dict_get payload "role"]> account), db)
        else (Raise (AuthenticationError "Account is not active"), db)
    end.
Proof.
  intros Htok Hver Huid Hpart Hcoll Hoid.
  pose proof (partition_of_role_truthy _ _ Hpart) as Hrole.
  destruct (verify_token_payload _ _ _ _ _ Hver) as [_ Hty].
  unfold get_current_user. rewrite Htok. simpl.
  unfold mbind, DB_bind, lift. rewrite Hver.
  rewrite bool_decide_eq_false_2 by (intros ->; by rewrite lookup_empty in Hty).
  rewrite Huid, Hrole. simpl.
  unfold partition_of_role in Hpart.
  assert ((if bool_decide (dict_get payload "role" = PStr "ADMIN")
              || bool_decide (dict_get payload "role" = PStr "SUPER_ADMIN")
           then gets get_users_collection
           else if bool_decide (dict_get payload "role" = PStr "SUPERVISOR")
           then gets get_supervisors_collection
           else if bool_decide (dict_get payload "role" = PStr "GUARD")
           then gets get_guards_collection
           else raise (AuthenticationError "Invalid user role")) db
          = (Ok (Some h), db)) as ->.
  { destruct (_ || _); [|destruct (bool_decide _); [|destruct (bool_decide _)]];
      try done; injection Hpart as <-; unfold gets;
      unfold get_users_collection, get_supervisors_collection,
        get_guards_collection; by rewrite Hcoll. }
  rewrite Hoid. simpl. unfold find_one.
  destruct (coll_find_one _ _) as [account|]; [|done].
  destruct (truthy (dict_get_default account "isActive" (PBool false)));
    reflexivity.
Qed.

(** When [get_current_user] returns a user, it went through all of that. *)
Lemma get_current_user_inv settings now token db current_user db1 :
  get_current_user settings now token db = (Ok current_user, db1) ->
  exists tok payload h oid account,
    token = Some tok
    /\ token_truthy tok = true
    /\ verify_token settings now tok "access" = Ok (Some payload)
    /\ truthy (dict_get payload "user_id") = true
    /\ partition_of_role (dict_get payload "role") = Some h
    /\ get_collection db h = Some h
    /\ ObjectId (dict_get payload "user_id") = Ok oid
    /\ coll_find_one (field_eq "_id" oid) (docs_of db h) = Some account
    /\ truthy (dict_get_default account "isActive" (PBool false)) = true
    /\ current_user = <["role" := dict_get payload "role"]> account
    /\ db1 = db.
Proof.
  unfold get_current_user.
  destruct token as [tok|]; [|done].
  destruct (token_truthy tok) eqn:Htok; [|done]. simpl.
  unfold mbind, DB_bind, lift.
  destruct (verify_token settings now tok "access") as [[payload|]|e] eqn:Hver;
    [|done|done].
  destruct (bool_decide (payload = ∅)); [done|].
  destruct (truthy (dict_get payload "user_id")) eqn:Huid; [|done].
  destruct (truthy (dict_get payload "role")) eqn:Hrole; [|done]. simpl.
  intros H.
  assert (exists h, partition_of_role (dict_get payload "role") = Some h
                    /\ get_collection db h = Some h) as (h & Hpart & Hcoll).
  { unfold partition_of_role.
    destruct (_ || _); [|destruct (bool_decide _); [|destruct (bool_decide _)]];
      [exists Users|exists Supervisors|exists Guards|done];
      (split; [done|]);
      unfold gets, get_users_collection, get_supervisors_collection,
        get_guards_collection, get_collection in H |- *;
      destruct db as [[?|] [?|] [?|] ?]; simpl in *; done. }
  assert ((if bool_decide (dict_get payload "role" = PStr "ADMIN")
              || bool_decide (dict_get payload "role" = PStr "SUPER_ADMIN")
           then gets get_users_collection
           else if bool_decide (dict_get payload "role" = PStr "SUPERVISOR")
           then gets get_supervisors_collection
           else if bool_decide (dict_get payload "role" = PStr "GUARD")
           then gets get_guards_collection
           else raise (AuthenticationError "Invalid user role")) db
          = (Ok (Some h), db)) as Hsel.
  { unfold partition_of_role in Hpart.
    destruct (_ || _); [|destruct (bool_decide _); [|destruct (bool_decide _)]];
      try done; injection Hpart as <-; unfold gets;
      unfold get_users_collection, get_supervisors_collection,
        get_guards_collection; by rewrite Hcoll. }
  rewrite Hsel in H. clear Hsel.
  destruct (ObjectId (dict_get payload "user_id")) as [oid|e] eqn:Hoid; [|done].
  simpl in H. unfold find_one in H.
  destruct (coll_find_one (field_eq "_id" oid) (docs_of db h)) as [account|]
    eqn:Hfind; [|done].
  destruct (truthy (dict_get_default account "isActive" (PBool false))) eqn:Hact;
    [|done].
  injection H as <- <-.
  by exists tok, payload, h, oid, account.
Qed.

(** With a token whose signature does not verify, what reaches the caller
    of [get_current_user] is the [AttributeError] of [verify_token], not a
    401. *)
Lemma get_current_user_forged_token settings now db :
  SECRET_KEY settings <> "not-the-server-key" ->
  ALGORITHM settings = "HS256" ->
  get_current_user settings now (Some forged_token) db
  = (Raise (AttributeError no_JWTError), db).
Proof.
  intros Hkey Halg. unfold get_current_user, forged_token. simpl token_truthy.
  cbn [negb]. unfold mbind, DB_bind, lift.
  rewrite (verify_token_decode_error _ _ _ _ (JwtError InvalidSignatureError));
    [done| |done].
  unfold jwt_decode. rewrite Halg.
  rewrite bool_decide_eq_true_2 by set_solver.
  by rewrite bool_decide_eq_false_2.
Qed.




Lemma protected_refused settings role_checker now token db e db1 :
  get_current_user settings now token db = (Raise e, db1) ->
  protected settings role_checker now token db = (Raise e, db1).
Proof. intros H. unfold protected, mbind, DB_bind. by rewrite H. Qed.



(** ** Deactivation *)

Lemma docs_of_modify_docs db h f :
  get_collection db h = Some h ->
  docs_of (modify_docs db h f) h = f (docs_of db h).
Proof.
  unfold get_collection, docs_of, modify_docs.
  destruct h, db as [[?|] [?|] [?|] [?|]]; simpl; done.
Qed.

Lemma get_collection_modify_docs db h h' f :
  get_collection (modify_docs db h f) h' = get_collection db h'.
Proof.
  unfold get_collection, modify_docs.
  destruct h, h', db as [[?|] [?|] [?|] [?|]]; simpl; done.
Qed.

Lemma coll_find_one_update_one (f : dict -> bool) upd (c : collection) d :
  coll_find_one f c = Some d -> f (upd d) = true ->
  coll_find_one f (coll_update_one f upd c) = Some (upd d).
Proof.
  intros Hfind Hupd.
  destruct (coll_find_one_split _ _ _ Hfind) as (l1 & l2 & -> & Hd & Hl1).
  rewrite coll_update_one_split, coll_find_one_app by done.
  unfold coll_find_one. simpl. by rewrite Hupd.
Qed.

(** C6. [get_current_user] reads the account again on every call and
    looks at its [isActive] as it is then. Take a token with which a
    protected call went through, and deactivate the account it resolved to,
    in the partition of its role: the next call with the same token, still
    valid and not expired, is refused with 401 "Account is not active",
    whatever role the operation asks for. *)
Theorem deactivated_account_is_refused (settings : Settings) (now now' : Z)
  (token : Token) (db db1 : Database) (current_user payload' : dict)
  (role_checker : dict -> result dict) :
  get_current_user settings now (Some token) db = (Ok current_user, db1) ->
  verify_token settings now' token "access" = Ok (Some payload') ->
  exists h _id,
    partition_of_role (dict_get current_user "role") = Some h
    /\ current_user !! "_id" = Some _id
    /\ let db' := (deactivate h _id db).2 in
       get_current_user settings now' (Some token) db'
         = (Raise (AuthenticationError "Account is not active"), db')
       /\ protected settings role_checker now' (Some token) db'
         = (Raise (AuthenticationError "Account is not active"), db').
Proof.
  intros Hauth Hver'.
  destruct (get_current_user_inv _ _ _ _ _ _ Hauth)
    as (tok & payload & h & oid & account & [= <-] & Htok & Hver & Huid & Hpart
        & Hcoll & Hoid & Hfind & _ & -> & _).
  assert (account !! "_id" = Some oid) as Hacc.
  { destruct (coll_find_one_split _ _ _ Hfind) as (_ & _ & _ & Hf & _).
    by apply field_eq_true. }
  exists h, oid.
  split; [by unfold dict_get; rewrite lookup_insert_eq|].
  split; [by rewrite lookup_insert_ne|].
  intros db'.
  assert (payload' = payload) as ->.
  { destruct (verify_token_payload _ _ _ _ _ Hver) as [Hd _].
    destruct (verify_token_payload _ _ _ _ _ Hver') as [Hd' _].
    by eapply jwt_decode_time. }
  set (upd := op_set [("isActive", PBool false)]).
  assert (db' = modify_docs db h (coll_update_one (field_eq "_id" oid) upd))
    as Hdb' by done.
  assert (get_current_user settings now' (Some token) db'
          = (Raise (AuthenticationError "Account is not active"), db')) as Hrefused.
  { rewrite (get_current_user_run _ _ _ _ payload h oid); try done.
    2: { by rewrite Hdb', get_collection_modify_docs. }
    rewrite Hdb', docs_of_modify_docs by done.
    rewrite (coll_find_one_update_one _ _ _ account Hfind).
    - subst upd. unfold op_set, dict_get_default. simpl.
      by rewrite lookup_insert_eq.
    - apply field_eq_true. subst upd. unfold op_set. simpl.
      by rewrite lookup_insert_ne. }
  split; [exact Hrefused|]. by apply protected_refused.
Qed.

(** The supervisor of [accounts_db], deactivated between two calls. *)
Lemma deactivated_account_is_refused_witness :
  let db' := (deactivate Supervisors (POid "65a1b2c3d4e5f60718293a4e") accounts_db).2 in
  get_current_user default_settings 1001 (Some supervisor_token) accounts_db
    = (Ok (<["role" := PStr "SUPERVISOR"]> supervisor_account), accounts_db)
  /\ (exists payload,
        verify_token default_settings 1500 supervisor_token "access"
        = Ok (Some payload))
  /\ protected default_settings get_current_supervisor 1500
       (Some supervisor_token) db'
     = (Raise (AuthenticationError "Account is not active"), db').
Proof.
  intros db'.
  assert (get_current_user default_settings 1001 (Some supervisor_token) accounts_db
          = (Ok (<["role" := PStr "SUPERVISOR"]> supervisor_account), accounts_db))
    as Hauth by (vm_compute; reflexivity).
  pose proof (verify_token_fresh_access default_settings 1000 1500
                {[ "user_id" := PStr "65a1b2c3d4e5f60718293a4e";
                   "email" := PStr "sup@lh.io.in";
                   "phone" := PNone;
                   "role" := PStr "SUPERVISOR" ]} eq_refl) as Hver.
  split; [exact Hauth|]. split; [by eexists|].
  destruct (deactivated_account_is_refused default_settings 1001 1500
              supervisor_token accounts_db accounts_db _ _
              get_current_supervisor Hauth Hver)
    as (h & _id & Hh & Hid & _ & Hrefused).
  assert (h = Supervisors) as -> by (by injection Hh as <-).
  assert (_id = POid "65a1b2c3d4e5f60718293a4e") as ->
    by (by injection Hid as <-).
  exact Hrefused.
Defined.

(** ** Login *)

(** The search of [login] through the partitions. *)
Lemma find_user_eq (username : string) (db : Database) :
  find_user Users Supervisors Guards username db =
  match coll_find_one (contact_filter username) (docs_of db Users) with
  | Some account =>
      (Ok (account, dict_get_default account "role" (PStr "ADMIN")), db)
  | None =>
      match coll_find_one (contact_filter username) (docs_of db Supervisors) with
      | Some account => (Ok (account, PStr "SUPERVISOR"), db)
      | None =>
          match coll_find_one (contact_filter username) (docs_of db Guards) with
          | Some account => (Ok (account, PStr "GUARD"), db)
          | None =>
              (Raise (HTTPException 500
                 "Database query failed: 401: Invalid email/phone or password"),
               db)
          end
      end
  end.
Proof.
  unfold find_user, db_try, mbind, DB_bind, find_one.
  destruct (coll_find_one _ (docs_of db Users)); [done|].
  destruct (coll_find_one _ (docs_of db Supervisors)); [done|].
  destruct (coll_find_one _ (docs_of db Guards)); [done|].
  vm_compute. reflexivity.
Qed.

Lemma contact_filter_true username d :
  contact_filter username d = true <->
  d !! "email" = Some (PStr username) \/ d !! "phone" = Some (PStr username).
Proof. unfold contact_filter. by rewrite orb_true_iff, !field_eq_true. Qed.

Lemma contact_filter_false username d :
  contact_filter username d = false <->
  d !! "email" <> Some (PStr username) /\ d !! "phone" <> Some (PStr username).
Proof. unfold contact_filter. by rewrite orb_false_iff, !field_eq_false. Qed.

(** C4. [login] looks the identifier up in the users partition (admins and
    super admins) first, then among the supervisors, then among the guards,
    and takes the first document whose [email] or [phone] is the identifier.
    An account of the users partition carries the role stored in it (ADMIN
    when none is stored); a supervisor or a guard has the role of its
    partition. An address present in two partitions resolves to the account
    of the partition searched first. *)
Theorem identity_resolution_order (db : Database) (username : string) :
  let found := find_user Users Supervisors Guards username db in
  let first_in := fun h => coll_find_one (contact_filter username) (docs_of db h) in
  match first_in Users with
  | Some account =>
      found = (Ok (account, dict_get_default account "role" (PStr "ADMIN")), db)
  | None =>
      match first_in Supervisors with
      | Some account => found = (Ok (account, PStr "SUPERVISOR"), db)
      | None =>
          match first_in Guards with
          | Some account => found = (Ok (account, PStr "GUARD"), db)
          | None => exists detail, found = (Raise (HTTPException 500 detail), db)
          end
      end
  end
  /\ forall h account, first_in h = Some account ->
       (account !! "email" = Some (PStr username)
        \/ account !! "phone" = Some (PStr username))
       /\ exists before after,
            docs_of db h = (before ++ account :: after)%list
            /\ Forall (fun d => d !! "email" <> Some (PStr username)
                                /\ d !! "phone" <> Some (PStr username)) before.
Proof.
  intros found first_in. subst found first_in. cbv beta. split.
  - rewrite find_user_eq.
    destruct (coll_find_one _ (docs_of db Users)); [done|].
    destruct (coll_find_one _ (docs_of db Supervisors)); [done|].
    destruct (coll_find_one _ (docs_of db Guards)); [done|]. by eexists.
  - intros h account Hfind.
    destruct (coll_find_one_split _ _ _ Hfind) as (l1 & l2 & Heq & Hacc & Hl1).
    split; [by apply contact_filter_true|].
    exists l1, l2. split; [done|].
    eapply Forall_impl; [exact Hl1|]. intros d Hd. by apply contact_filter_false.
Qed.

(** The address sup@lh.io.in is that of an admin and of a supervisor: the
    admin is found. *)
Lemma identity_resolution_order_witness :
  coll_find_one (contact_filter "sup@lh.io.in") (docs_of shared_contact_db Supervisors)
    = Some supervisor_account
  /\ exists account,
       find_user Users Supervisors Guards "sup@lh.io.in" shared_contact_db
         = (Ok (account, PStr "ADMIN"), shared_contact_db)
       /\ account !! "_id" = Some (POid "65a1b2c3d4e5f60718293a4f")
       /\ account !! "email" = Some (PStr "sup@lh.io.in").
Proof.
  split; [vm_compute; reflexivity|].
  destruct (identity_resolution_order shared_contact_db "sup@lh.io.in") as [H Hfirst].
  destruct (coll_find_one (contact_filter "sup@lh.io.in")
              (docs_of shared_contact_db Users)) as [account|] eqn:Hfind;
    [|vm_compute in Hfind; discriminate].
  exists account.
  assert (Some account = Some (<["email" := PStr "sup@lh.io.in"]>
             (<["_id" := POid "65a1b2c3d4e5f60718293a4f"]>
                (<["role" := PStr "ADMIN"]> root_admin)))) as Hacc
    by (rewrite <- Hfind; vm_compute; reflexivity).
  injection Hacc as ->.
  split; [exact H|]. split; vm_compute; reflexivity.
Defined.

Lemma available_collections db us ss gs :
  users db = Some us -> supervisors db = Some ss -> guards db = Some gs ->
  get_users_collection db = Some Users
  /\ get_supervisors_collection db = Some Supervisors
  /\ get_guards_collection db = Some Guards.
Proof.
  unfold get_users_collection, get_supervisors_collection, get_guards_collection,
    get_collection. by intros -> -> ->.
Qed.

(** [login] when no partition has the identifier: the 401 raised inside the
    [try] of the search is caught by its [except Exception] and leaves as a
    500. *)
Lemma login_not_found settings B username password now db us ss gs e :
  users db = Some us -> supervisors db = Some ss -> guards db = Some gs ->
  find_user Users Supervisors Guards username db = (Raise e, db) ->
  is_HTTPException e = true ->
  login settings B username password now db = (Raise e, db).
Proof.
  intros Hu Hs Hg Hfind He.
  destruct (available_collections _ _ _ _ Hu Hs Hg) as (Hcu & Hcs & Hcg).
  unfold login, db_try, mbind at 1, DB_bind at 1, gets.
  rewrite Hcu. unfold mbind at 1, DB_bind at 1. rewrite Hcs.
  unfold mbind at 1, DB_bind at 1. rewrite Hcg.
  unfold mbind at 1, DB_bind at 1. rewrite Hfind.
  unfold handle, except_HTTPException. by rewrite He.
Qed.

(** [login] once the search has found an account with a password hash:
    the password first, then the active flag, then the update of
    [lastLogin] in the collection the role selects, the token and the
    response. *)
Lemma login_found settings B username password now db us ss gs account role h
  valid :
  users db = Some us -> supervisors db = Some ss -> guards db = Some gs ->
  find_user Users Supervisors Guards username db = (Ok (account, role), db) ->
  dict_get account "passwordHash" = PStr h -> h <> "" ->
  verify_password B password h = Ok valid ->
  login settings B username password now db =
  if negb valid then
    (Raise (HTTPException 401 "Invalid email/phone or password"), db)
  else if negb (truthy (dict_get_default account "isActive" (PBool false))) then
    (Raise (HTTPException 401
              "Account not activated. Please contact the administrator."), db)
  else
    match account !! "_id" with
    | None => (Raise (HTTPException 500 "Token creation failed: '_id'"), db)
    | Some _id =>
        let updated := role_collection Users Supervisors Guards role in
        let db' := match updated with
                   | Ok collection =>
                       modify_docs db collection
                         (coll_update_one (field_eq "_id" _id)
                            (op_set [("lastLogin", PTime now)]))
                   | Raise _ => db
                   end in
        let last_login := match updated with
                          | Ok _ => PTime now
                          | Raise _ => dict_get account "lastLogin"
                          end in
        match account !! "name" with
        | None =>
            (Raise (HTTPException 500
                      "Internal server error during login: 'name'"), db')
        | Some name =>
            (Ok {| access_token :=
                     create_access_token settings now
                       {[ "user_id" := PStr (str_pyval _id);
                          "email" := dict_get account "email";
                          "phone" := dict_get account "phone";
                          "role" := role ]};
                   token_type := "bearer";
                   user := {[ "id" := PStr (str_pyval _id);
                              "email" := dict_get account "email";
                              "phone" := dict_get account "phone";
                              "name" := name;
                              "role" := role;
                              "areaCity" := dict_get account "areaCity";
                              "isActive" := dict_get account "isActive";
                              "lastLogin" := last_login ]} |}, db')
        end
    end.
Proof.
  intros Hu Hs Hg Hfind Hhash Hne Hvalid.
  destruct (available_collections _ _ _ _ Hu Hs Hg) as (Hcu & Hcs & Hcg).
  unfold login, db_try, mbind at 1, DB_bind at 1, gets.
  rewrite Hcu. unfold mbind at 1, DB_bind at 1. rewrite Hcs.
  unfold mbind at 1, DB_bind at 1. rewrite Hcg.
  unfold mbind at 1, DB_bind at 1. rewrite Hfind. cbn [fst snd].
  assert (truthy (dict_get account "passwordHash") = true) as Htr.
  { rewrite Hhash. simpl. by rewrite bool_decide_eq_false_2. }
  rewrite Htr, Hhash.
  cbn [negb as_str]. unfold mbind at 1, DB_bind at 1, lift at 1.
  unfold mbind at 1, DB_bind at 1, lift at 1.
  rewrite Hvalid. destruct valid; cbn [negb].
  2: { unfold mbind at 1, DB_bind at 1, lift at 1.
       by destruct (verify_password_returns B [] h) as [b ->]. }
  destruct (truthy (dict_get_default account "isActive" (PBool false))) eqn:Hact;
    [|reflexivity].
  cbn [negb].
  assert (exists act, account !! "isActive" = Some act) as [act Hisact].
  { unfold dict_get_default in Hact. destruct (account !! "isActive"); [by eexists|done]. }
  unfold db_catch, mbind, DB_bind, lift, update_one, dict_item, try_except,
    dict_get.
  destruct (role_collection Users Supervisors Guards role) as [collection|e];
    destruct (account !! "_id") as [_id|] eqn:Hid; cbn [fst snd mret DB_ret].
  - rewrite !lookup_insert_ne, lookup_insert_eq, Hid, Hisact by done.
    cbn [default]. by destruct (account !! "name").
  - rewrite Hid. reflexivity.
  - rewrite Hid, Hisact. cbn [default]. by destruct (account !! "name").
  - rewrite Hid. reflexivity.
Qed.

(** A login that succeeds found an account, with a password hash the
    password verifies against. *)
Lemma login_inv settings B username password now db resp db' :
  login settings B username password now db = (Ok resp, db') ->
  exists us ss gs account role h,
    users db = Some us /\ supervisors db = Some ss /\ guards db = Some gs
    /\ find_user Users Supervisors Guards username db = (Ok (account, role), db)
    /\ dict_get account "passwordHash" = PStr h /\ h <> ""
    /\ verify_password B password h = Ok true.
Proof.
  intros Hlogin.
  destruct (users db) as [us|] eqn:Hu; cycle 1.
  { revert Hlogin. unfold login, db_try, mbind, DB_bind, gets,
      get_users_collection, get_supervisors_collection, get_guards_collection,
      get_collection. rewrite Hu. simpl.
    by destruct (supervisors db), (guards db). }
  destruct (supervisors db) as [ss|] eqn:Hs; cycle 1.
  { revert Hlogin. unfold login, db_try, mbind, DB_bind, gets,
      get_users_collection, get_supervisors_collection, get_guards_collection,
      get_collection. rewrite Hu, Hs. simpl. by destruct (guards db). }
  destruct (guards db) as [gs|] eqn:Hg; cycle 1.
  { revert Hlogin. unfold login, db_try, mbind, DB_bind, gets,
      get_users_collection, get_supervisors_collection, get_guards_collection,
      get_collection. by rewrite Hu, Hs, Hg. }
  exists us, ss, gs.
  destruct (find_user Users Supervisors Guards username db) as [[[account role]|e] db1]
    eqn:Hfind.
  2: { pose proof (find_user_eq username db) as Heq. rewrite Hfind in Heq.
       repeat (destruct (coll_find_one _ _); [done|]).
       injection Heq as -> ->.
       by rewrite (login_not_found _ _ _ _ _ _ us ss gs _ Hu Hs Hg Hfind) in Hlogin. }
  assert (db1 = db) as ->.
  { pose proof (find_user_eq username db) as Heq. rewrite Hfind in Heq.
    repeat (destruct (coll_find_one _ _); [by injection Heq|]). by injection Heq. }
  exists account, role.
  destruct (dict_get account "passwordHash") as [|b|n|h|t|o] eqn:Hhash.
  4: { destruct (decide (h = "")) as [->|Hne].
       - exfalso. revert Hlogin.
         destruct (available_collections _ _ _ _ Hu Hs Hg) as (Hcu & Hcs & Hcg).
         unfold login, db_try, mbind at 1, DB_bind at 1, gets.
         rewrite Hcu. unfold mbind at 1, DB_bind at 1. rewrite Hcs.
         unfold mbind at 1, DB_bind at 1. rewrite Hcg.
         unfold mbind at 1, DB_bind at 1. rewrite Hfind. cbn [fst snd].
         by rewrite Hhash.
       - exists h. repeat (split; [done|]).
         destruct (verify_password_returns B password h) as [valid Hvalid].
         rewrite (login_found _ _ _ _ _ _ us ss gs account role h valid) in Hlogin
           by done.
         by destruct valid. }
  all: exfalso; revert Hlogin;
    destruct (available_collections _ _ _ _ Hu Hs Hg) as (Hcu & Hcs & Hcg);
    unfold login, db_try, mbind at 1, DB_bind at 1, gets;
    rewrite Hcu; unfold mbind at 1, DB_bind at 1; rewrite Hcs;
    unfold mbind at 1, DB_bind at 1; rewrite Hcg;
    unfold mbind at 1, DB_bind at 1; rewrite Hfind; cbn [fst snd];
    rewrite Hhash; simpl; try done.
  - by destruct b.
  - by destruct (Z.eqb n 0).
Qed.

(** What the update of [lastLogin] changes in a collection: nothing but that
    field, and only in a document with the [_id] of the account. *)
Lemma update_lastLogin_frame (c : collection) (_id v : pyval) :
  Forall2 (fun d d' => delete "lastLogin" d' = delete "lastLogin" d
                       /\ (d' <> d -> d !! "_id" = Some _id))
    c (coll_update_one (field_eq "_id" _id) (op_set [("lastLogin", v)]) c).
Proof.
  induction c as [|d c IH]; simpl; [constructor|].
  destruct (field_eq "_id" _id d) eqn:Hd.
  - constructor.
    + split; [by rewrite delete_insert_eq|]. intros _. by apply field_eq_true.
    + apply Forall2_same_length_lookup. split; [done|].
      intros i x y Hx Hy. rewrite Hx in Hy. injection Hy as <-. by split.
  - constructor; [by split|done].
Qed.

Lemma frame_refl (c : collection) (_id : pyval) :
  Forall2 (fun d d' => delete "lastLogin" d' = delete "lastLogin" d
                       /\ (d' <> d -> d !! "_id" = Some _id)) c c.
Proof. induction c; constructor; [by split|done]. Qed.

Lemma docs_of_update_one db h h' f upd :
  docs_of (modify_docs db h (coll_update_one f upd)) h'
  = if decide (h' = h) then coll_update_one f upd (docs_of db h') else docs_of db h'.
Proof.
  unfold docs_of, modify_docs.
  destruct h, h', db as [[?|] [?|] [?|] [?|]]; simpl; done.
Qed.

Lemma role_collection_ok us ss gs role h :
  role_collection us ss gs role = Ok h ->
  role = PStr "ADMIN" \/ role = PStr "SUPERVISOR" \/ role = PStr "GUARD".
Proof.
  unfold role_collection. repeat case_bool_decide; try done; auto.
Qed.

(** C9. A login that succeeds leaves every collection in place and every
    document as it was, up to the field [lastLogin] of documents with the
    [_id] of the account; and it changes the store only when the role
    resolved is ADMIN, SUPERVISOR or GUARD. For SUPER_ADMIN the lookup
    [{"ADMIN": ..., "SUPERVISOR": ..., "GUARD": ...}[role]] raises [KeyError],
    the [except] around the update swallows it, the store is unchanged, the
    [lastLogin] of the response is the stored one, and the response carries
    a token for the role. *)
Theorem login_updates_lastLogin_only (settings : Settings) (B : CryptBackend)
  (username : string) (password : pystr) (now : Z) (db : Database)
  (resp : LoginResponse) (db' : Database) :
  login settings B username password now db = (Ok resp, db') ->
  exists account role _id,
    find_user Users Supervisors Guards username db = (Ok (account, role), db)
    /\ account !! "_id" = Some _id
    /\ access_token resp
       = create_access_token settings now
           {[ "user_id" := PStr (str_pyval _id);
              "email" := dict_get account "email";
              "phone" := dict_get account "phone";
              "role" := role ]}
    /\ user resp !! "role" = Some role
    /\ (forall h,
          get_collection db' h = get_collection db h
          /\ Forall2 (fun d d' => delete "lastLogin" d' = delete "lastLogin" d
                                  /\ (d' <> d -> d !! "_id" = Some _id))
               (docs_of db h) (docs_of db' h))
    /\ (db' <> db ->
        role = PStr "ADMIN" \/ role = PStr "SUPERVISOR" \/ role = PStr "GUARD")
    /\ (role = PStr "SUPER_ADMIN" ->
        role_collection Users Supervisors Guards role
          = Raise (KeyError "SUPER_ADMIN")
        /\ db' = db
        /\ user resp !! "lastLogin" = Some (dict_get account "lastLogin")).
Proof.
  intros Hlogin.
  destruct (login_inv _ _ _ _ _ _ _ _ Hlogin)
    as (us & ss & gs & account & role & h & Hu & Hs & Hg & Hfind & Hhash & Hne
        & Hvalid).
  rewrite (login_found _ _ _ _ _ _ us ss gs account role h true) in Hlogin by done.
  cbn [negb] in Hlogin.
  destruct (negb (truthy (dict_get_default account "isActive" (PBool false))));
    [done|].
  destruct (account !! "_id") as [_id|] eqn:Hid; [|done].
  cbv zeta in Hlogin.
  destruct (account !! "name") as [name|]; [|done].
  injection Hlogin as <- <-.
  exists account, role, _id. split; [done|]. split; [done|].
  split; [done|]. split; [by simplify_map_eq|].
  destruct (role_collection Users Supervisors Guards role) as [collection|e]
    eqn:Hcoll.
  - split; [|split].
    + intros h'. split; [apply get_collection_modify_docs|].
      rewrite docs_of_update_one.
      destruct (decide (h' = collection)); [apply update_lastLogin_frame|].
      apply frame_refl.
    + intros _. by eapply role_collection_ok.
    + intros ->. by vm_compute in Hcoll.
  - split; [|split].
    + intros h'. split; [done|]. apply frame_refl.
    + done.
    + intros ->. split; [by vm_compute in Hcoll; injection Hcoll as <-|].
      split; [done|]. by simplify_map_eq.
Qed.

(** A SUPER_ADMIN whose credentials are in order is logged in, with a token,
    and the store is as it was. *)
Lemma login_super_admin_succeeds settings B username password now db us ss gs
  account h _id name :
  users db = Some us -> supervisors db = Some ss -> guards db = Some gs ->
  find_user Users Supervisors Guards username db
    = (Ok (account, PStr "SUPER_ADMIN"), db) ->
  dict_get account "passwordHash" = PStr h -> h <> "" ->
  verify_password B password h = Ok true ->
  truthy (dict_get_default account "isActive" (PBool false)) = true ->
  account !! "_id" = Some _id -> account !! "name" = Some name ->
  exists resp,
    login settings B username password now db = (Ok resp, db)
    /\ access_token resp
       = create_access_token settings now
           {[ "user_id" := PStr (str_pyval _id);
              "email" := dict_get account "email";
              "phone" := dict_get account "phone";
              "role" := PStr "SUPER_ADMIN" ]}.
Proof.
  intros Hu Hs Hg Hfind Hhash Hne Hvalid Hact Hid Hname.
  rewrite (login_found _ _ _ _ _ _ us ss gs account _ h true) by done.
  cbn [negb]. rewrite Hact, Hid, Hname. cbn [negb].
  by eexists.
Qed.

(** The super admin of [accounts_db] logs in. *)
Lemma login_updates_lastLogin_only_witness :
  exists resp,
    login default_settings passlib_backend "root@lh.io.in" test_password 1000
      accounts_db = (Ok resp, accounts_db)
    /\ user resp !! "role" = Some (PStr "SUPER_ADMIN").
Proof.
  assert (find_user Users Supervisors Guards "root@lh.io.in" accounts_db
          = (Ok (root_admin, PStr "SUPER_ADMIN"), accounts_db)) as Hfind
    by (vm_compute; reflexivity).
  destruct (login_super_admin_succeeds default_settings passlib_backend
              "root@lh.io.in" test_password 1000 accounts_db _ _ _ root_admin
              "$2b$12$N9qo8uLOickgx2ZMRZoMyeTest@123"
              (POid "65a1b2c3d4e5f60718293a4b") (PStr "Root")
              eq_refl eq_refl eq_refl Hfind eq_refl)
    as (resp & Hlogin & _); [done|by vm_compute..|].
  destruct (login_updates_lastLogin_only _ _ _ _ _ _ _ _ Hlogin)
    as (account & role & _id & Hfind' & _ & _ & Hrole & _ & _ & _).
  rewrite Hfind in Hfind'. injection Hfind' as _ <-.
  by exists resp.
Defined.

(** C10. [login] verifies the password before it looks at [isActive]: for
    an account that is not active, the right password is answered with 401
    "Account not activated...", a wrong one with 401 "Invalid email/phone or
    password". That second message is the one [login] raises for an
    identifier no partition has, but there it is raised inside the [try] of
    the search, whose [except Exception] catches it: the caller gets 500
    "Database query failed: 401: Invalid email/phone or password". *)
Theorem login_error_messages (settings : Settings) (B : CryptBackend)
  (username : string) (password : pystr) (now : Z) (db : Database)
  (us ss gs : collection) :
  users db = Some us -> supervisors db = Some ss -> guards db = Some gs ->
  let answer := login settings B username password now db in
  match find_user Users Supervisors Guards username db with
  | (Ok (account, role), _) =>
      forall h,
        dict_get account "passwordHash" = PStr h -> h <> "" ->
        truthy (dict_get_default account "isActive" (PBool false)) = false ->
        (verify_password B password h = Ok true ->
         answer = (Raise (HTTPException 401
                     "Account not activated. Please contact the administrator."),
                   db))
        /\ (verify_password B password h = Ok false ->
            answer = (Raise (HTTPException 401 "Invalid email/phone or password"),
                      db))
  | (Raise _, _) =>
      answer = (Raise (HTTPException 500
                  "Database query failed: 401: Invalid email/phone or password"),
                db)
  end.
Proof.
  intros Hu Hs Hg answer. subst answer.
  destruct (find_user Users Supervisors Guards username db)
    as [[[account role]|e] db1] eqn:Hfind.
  - assert (db1 = db) as ->.
    { pose proof (find_user_eq username db) as Heq. rewrite Hfind in Heq.
      repeat (destruct (coll_find_one _ _); [by injection Heq|]).
      by injection Heq. }
    intros h Hhash Hne Hact. split; intros Hvalid;
      rewrite (login_found _ _ _ _ _ _ us ss gs account role h _ Hu Hs Hg Hfind
                 Hhash Hne Hvalid); cbn [negb]; [by rewrite Hact|done].
  - pose proof (find_user_eq username db) as Heq. rewrite Hfind in Heq.
    repeat (destruct (coll_find_one _ _); [done|]).
    injection Heq as -> ->.
    by apply (login_not_found _ _ _ _ _ _ us ss gs _ Hu Hs Hg Hfind).
Qed.

(** An address no partition has, and the inactive admin of [accounts_db]
    with the right password and with a wrong one. *)
Lemma login_error_messages_witness :
  login default_settings passlib_backend "nobody@lh.io.in" test_password 1000
    accounts_db
  = (Raise (HTTPException 500
       "Database query failed: 401: Invalid email/phone or password"),
     accounts_db)
  /\ login default_settings passlib_backend "off@lh.io.in" test_password 1000
       accounts_db
     = (Raise (HTTPException 401
          "Account not activated. Please contact the administrator."),
        accounts_db)
  /\ login default_settings passlib_backend "off@lh.io.in" a71 1000 accounts_db
     = (Raise (HTTPException 401 "Invalid email/phone or password"), accounts_db).
Proof.
  assert (forall username password,
            let answer := login default_settings passlib_backend username
                            password 1000 accounts_db in
            match find_user Users Supervisors Guards username accounts_db with
            | (Ok (account, role), _) =>
                forall h,
                  dict_get account "passwordHash" = PStr h -> h <> "" ->
                  truthy (dict_get_default account "isActive" (PBool false)) = false ->
                  (verify_password passlib_backend password h = Ok true ->
                   answer = (Raise (HTTPException 401
                      "Account not activated. Please contact the administrator."),
                             accounts_db))
                  /\ (verify_password passlib_backend password h = Ok false ->
                      answer = (Raise (HTTPException 401
                                  "Invalid email/phone or password"), accounts_db))
            | (Raise _, _) =>
                answer = (Raise (HTTPException 500
                  "Database query failed: 401: Invalid email/phone or password"),
                          accounts_db)
            end) as H.
  { intros username password.
    exact (login_error_messages default_settings passlib_backend username
             password 1000 accounts_db _ _ _ eq_refl eq_refl eq_refl). }
  split; [exact (H "nobody@lh.io.in" test_password)|].
  split.
  - apply (H "off@lh.io.in" test_password
             "$2b$12$N9qo8uLOickgx2ZMRZoMyeTest@123");
      [reflexivity|done|reflexivity|vm_compute; reflexivity].
  - apply (H "off@lh.io.in" a71 "$2b$12$N9qo8uLOickgx2ZMRZoMyeTest@123");
      [reflexivity|done|reflexivity|vm_compute; reflexivity].
Defined.

(** * Further properties *)

(** ** Token lifetime *)


(** X2. A refresh token is accepted as such at every time before
    [now + REFRESH_TOKEN_EXPIRE_DAYS], with the user id it was issued for,
    and answered with [None] from that time on. *)
Theorem refresh_token_lifetime (settings : Settings) (now now' : Z)
  (user_id : string) :
  let expire := now + days (REFRESH_TOKEN_EXPIRE_DAYS settings) in
  verify_token settings now' (create_refresh_token settings now user_id) "refresh"
  = if Z.ltb now' expire
    then Ok (Some {[ "user_id" := PStr user_id;
                     "type" := PStr "refresh";
                     "exp" := PInt expire ]})
    else Ok None.
Proof.
  intros expire. rewrite verify_token_cases. unfold create_refresh_token, jwt_encode.
  rewrite jwt_decode_own. fold expire.
  assert (wire_claims {[ "user_id" := PStr user_id; "type" := PStr "refresh";
                         "exp" := PTime expire ]}
          = {[ "user_id" := PStr user_id; "type" := PStr "refresh";
               "exp" := PInt expire ]}) as ->.
  { unfold wire_claims. by rewrite !fmap_insert, map_fmap_singleton. }
  simplify_map_eq /=.
  destruct (Z.leb_spec expire now'), (Z.ltb_spec now' expire); try lia; [done|].
  unfold dict_get. by simplify_map_eq.
Qed.


(** ** One-time codes: the code *)

Lemma pretty_N_char_digit (x : N) : is_decimal_digit (pretty_N_char x) = true.
Proof. unfold pretty_N_char. by repeat case_match. Qed.

Lemma pretty_N_go_digits (x : N) (s : string) :
  string_forallb is_decimal_digit s = true ->
  string_forallb is_decimal_digit (pretty_N_go x s) = true.
Proof.
  revert s. induction (N.lt_wf_0 x) as [x _ IH]. intros s Hs.
  destruct (decide (x = 0)%N) as [->|Hx]; [by rewrite pretty_N_go_0|].
  rewrite pretty_N_go_step by lia. apply IH.
  - apply N.div_lt; lia.
  - simpl. by rewrite pretty_N_char_digit, Hs.
Qed.

Lemma pretty_N_go_length (k : nat) (x : N) (s : string) :
  (x < 10 ^ N.of_nat k)%N ->
  (String.length (pretty_N_go x s) <= k + String.length s)%nat.
Proof.
  revert x s. induction k as [|k IH]; intros x s Hx.
  - assert (x = 0%N) as -> by (simpl in Hx; lia). rewrite pretty_N_go_0. lia.
  - destruct (decide (x = 0)%N) as [->|Hx0]; [rewrite pretty_N_go_0; lia|].
    rewrite pretty_N_go_step by lia.
    etrans; [apply IH|simpl; lia].
    rewrite Nat2N.inj_succ, N.pow_succ_r' in Hx.
    apply N.Div0.div_lt_upper_bound. lia.
Qed.

Lemma pretty_N_go_nonempty (x : N) (s : string) :
  (0 < x)%N -> (1 <= String.length (pretty_N_go x s))%nat.
Proof.
  revert s. induction (N.lt_wf_0 x) as [x _ IH]. intros s Hx.
  rewrite pretty_N_go_step by done.
  destruct (decide (x `div` 10 = 0)%N) as [->|Hd].
  - rewrite pretty_N_go_0. simpl. lia.
  - apply IH; [apply N.div_lt; lia|by apply N.neq_0_lt_0].
Qed.

Lemma pretty_Z_digits (r : Z) :
  0 <= r < 1000000 ->
  string_forallb is_decimal_digit (pretty r) = true
  /\ (1 <= String.length (pretty r) <= 6)%nat.
Proof.
  intros Hr. destruct r as [|p|p]; [split; [reflexivity|simpl; lia]| |lia].
  unfold pretty, pretty_Z, pretty, pretty_positive, pretty, pretty_N.
  rewrite decide_False by done. split.
  - by apply pretty_N_go_digits.
  - split; [apply pretty_N_go_nonempty; lia|].
    pose proof (pretty_N_go_length 6 (N.pos p) "") as H. simpl in H.
    apply H. lia.
Qed.

Lemma string_forallb_app f (s t : string) :
  string_forallb f (s +:+ t) = string_forallb f s && string_forallb f t.
Proof. induction s as [|a s IH]; simpl; [done|]. by rewrite IH, andb_assoc. Qed.

Lemma string_length_app (s t : string) :
  String.length (s +:+ t) = (String.length s + String.length t)%nat.
Proof. induction s as [|a s IH]; simpl; [done|]. by rewrite IH. Qed.

Lemma zeros_spec (n : nat) :
  String.length (zeros n) = n /\ string_forallb is_decimal_digit (zeros n) = true.
Proof.
  induction n as [|n [IH1 IH2]]; [done|]. split.
  - change (zeros (S n)) with (String ascii_zero (zeros n)).
    cbn [String.length]. by rewrite IH1.
  - change (zeros (S n)) with (String ascii_zero (zeros n)).
    cbn [string_forallb]. by rewrite IH2.
Qed.

(** X4. For every number [secrets.randbelow(1000000)] can return, the code is
    six characters long, all of them decimal digits, and ends with the
    decimal writing of the number: small numbers are padded with zeros on
    the left, never cut. *)
Theorem generate_otp_six_digits (r : Z) :
  0 <= r < 1000000 ->
  String.length (generate_otp r) = 6%nat
  /\ string_forallb is_decimal_digit (generate_otp r) = true
  /\ exists padding, generate_otp r = padding +:+ pretty r
                     /\ string_forallb (fun a => bool_decide (a = ascii_zero)) padding = true.
Proof.
  intros Hr. destruct (pretty_Z_digits r Hr) as (Hdig & Hlen1 & Hlen6).
  unfold generate_otp. cbv zeta.
  destruct (zeros_spec (6 - String.length (pretty r))) as [Hzl Hzd].
  split; [|split].
  - rewrite string_length_app, Hzl. lia.
  - by rewrite string_forallb_app, Hzd, Hdig.
  - eexists. split; [done|].
    generalize (6 - String.length (pretty r))%nat. intros n.
    induction n as [|n IH]; [done|].
    change (zeros (S n)) with (String ascii_zero (zeros n)).
    cbn [string_forallb]. by rewrite IH.
Qed.

(** The number 42 is written 000042. *)
Lemma generate_otp_six_digits_witness :
  0 <= 42 < 1000000
  /\ String.length (generate_otp 42) = 6%nat
  /\ generate_otp 42 = "000042".
Proof.
  split; [lia|]. split; [|reflexivity].
  apply (generate_otp_six_digits 42). lia.
Defined.

(** ** Passwords: hashing *)

Lemma _hash_with_raw_bcrypt_cases B password salt :
  _hash_with_raw_bcrypt B password salt =
  match (_ ← import_bcrypt B;
         password_bytes ← encode_utf8 password;
         bcrypt_hashpw B (truncate_72 password_bytes) salt) with
  | Ok h => Ok h
  | Raise e => Raise (ValueError ("Raw bcrypt hashing failed: " +:+ str_exn e))
  end.
Proof. unfold _hash_with_raw_bcrypt, try_except. by destruct (_ ≫= _). Qed.

(** X5. Whatever passlib and bcrypt do, [hash_password] returns a hash or raises
    [ValueError], with a message that starts "Password hashing failed: ";
    no other exception leaves it. When it is the raw bcrypt path that
    failed, the message goes on with "Raw bcrypt hashing failed: ". *)
Theorem hash_password_raises_ValueError (B : CryptBackend) (password : pystr)
  (salt : string) :
  (exists h, hash_password B password salt = Ok h)
  \/ (exists e, hash_password B password salt
                = Raise (ValueError ("Password hashing failed: "
                                     +:+ "Raw bcrypt hashing failed: " +:+ str_exn e))).
Proof.
  unfold hash_password.
  assert (forall r : result string,
            r = _hash_with_raw_bcrypt B password salt ->
            (exists h, try_except r
               [except_Exception (fun e => Raise (ValueError
                  ("Password hashing failed: " +:+ str_exn e)))] = Ok h)
            \/ (exists e, try_except r
               [except_Exception (fun e => Raise (ValueError
                  ("Password hashing failed: " +:+ str_exn e)))]
                = Raise (ValueError ("Password hashing failed: "
                           +:+ "Raw bcrypt hashing failed: " +:+ str_exn e))))
    as Hraw.
  { intros r ->. rewrite _hash_with_raw_bcrypt_cases.
    destruct (_ ≫= _) as [h|e]; [left; by exists h|right; by exists e]. }
  destruct (use_raw_bcrypt B); [by apply Hraw|].
  destruct (encode_utf8 password) as [encoded|e] eqn:Henc; simpl.
  - destruct (pwd_context_hash B _ salt) as [h|e]; simpl.
    + left. by exists h.
    + by apply Hraw.
  - by apply Hraw.
Qed.

(** ** Passwords: the raw bcrypt path *)

(** X6. Where hashing and verifying both go through raw bcrypt (the module runs
    without passlib, or passlib raises on every call), a hash verifies the
    password it was made from, however long the password and whatever bcrypt
    does with it, as long as [checkpw] recognises what [hashpw] returns. *)
Theorem raw_path_hash_then_verify (B : CryptBackend) (password : pystr)
  (salt h : string) :
  (use_raw_bcrypt B = true
   \/ forall (secret : pystr) (s : string),
        raises (pwd_context_hash B secret s) = true
        /\ raises (pwd_context_verify B secret s) = true) ->
  (forall bs h', bcrypt_hashpw B bs salt = Ok h' -> bcrypt_checkpw B bs h' = Ok true) ->
  hash_password B password salt = Ok h ->
  verify_password B password h = Ok true.
Proof.
  intros Hpath Hbcrypt Hhash.
  assert (_hash_with_raw_bcrypt B password salt = Ok h) as Hraw.
  { unfold hash_password in Hhash.
    destruct (use_raw_bcrypt B) eqn:Huse.
    - unfold try_except in Hhash at 1.
      by destruct (_hash_with_raw_bcrypt B password salt).
    - destruct Hpath as [?|Hpass]; [done|].
      assert (forall s, try_except (pwd_context_hash B s salt)
                [except_Exception (fun _ => _hash_with_raw_bcrypt B password salt)]
              = _hash_with_raw_bcrypt B password salt) as Hfall.
      { intros s. destruct (Hpass s salt) as [Hr _].
        by destruct (pwd_context_hash B s salt). }
      destruct (encode_utf8 password) as [encoded|e]; simpl in Hhash.
      + rewrite Hfall in Hhash.
        by destruct (_hash_with_raw_bcrypt B password salt).
      + by destruct (_hash_with_raw_bcrypt B password salt). }
  rewrite _hash_with_raw_bcrypt_cases in Hraw.
  assert (raw_bcrypt_attempt B password h = Ok true) as Hattempt.
  { unfold raw_bcrypt_attempt.
    destruct (import_bcrypt B) as [[]|]; [|done]. simpl in *.
    destruct (encode_utf8 password) as [bs|]; [|done]. simpl in *.
    apply Hbcrypt. by destruct (bcrypt_hashpw B (truncate_72 bs) salt) as [h'|]; simplify_eq. }
  assert (_verify_with_raw_bcrypt B password h = Ok true) as Hver
    by by rewrite _verify_with_raw_bcrypt_attempt, Hattempt.
  unfold verify_password.
  destruct (use_raw_bcrypt B); simpl; [by rewrite Hver|].
  destruct Hpath as [?|Hpass]; [done|].
  destruct (Hpass password h) as [_ Hr].
  destruct (pwd_context_verify B password h); [done|]. simpl. by rewrite Hver.
Qed.

(** The password whose 72nd byte is half a character, without passlib. *)
Lemma raw_path_hash_then_verify_witness :
  exists h,
    hash_password raw_bcrypt_backend split_password a_salt = Ok h
    /\ verify_password raw_bcrypt_backend split_password h = Ok true.
Proof.
  destruct (hash_password raw_bcrypt_backend split_password a_salt) as [h|e] eqn:Hh;
    [|vm_compute in Hh; discriminate].
  exists h. split; [done|].
  apply (raw_path_hash_then_verify raw_bcrypt_backend split_password a_salt h);
    [by left| |done].
  intros bs h' Hhash. simpl in *.
  rewrite (ideal_checkpw_hashpw _ _ _ _ Hhash). by rewrite bool_decide_eq_true_2.
Defined.

(** X7. With bcrypt as an ideal hash and no passlib, a hash accepts exactly the
    passwords whose first 72 bytes in UTF-8 are those of the password hashed:
    what comes after the 72nd byte is ignored, and a password that differs
    before it is rejected. *)
Theorem raw_bcrypt_seventy_two_bytes (password password' : pystr)
  (salt : string) (bs bs' : list Byte.byte) :
  bcrypt_salt_ok salt = true ->
  encode_utf8 password = Ok bs ->
  encode_utf8 password' = Ok bs' ->
  exists h,
    hash_password raw_bcrypt_backend password salt = Ok h
    /\ verify_password raw_bcrypt_backend password' h
       = Ok (bool_decide (take 72 bs' = take 72 bs)).
Proof.
  intros Hsalt Henc Henc'.
  destruct (ideal_hashpw (truncate_72 bs) salt) as [h|] eqn:Hh;
    [|by unfold ideal_hashpw in Hh; rewrite Hsalt in Hh].
  exists h. split.
  - unfold hash_password, _hash_with_raw_bcrypt. simpl.
    by rewrite Henc; simpl; rewrite Hh.
  - unfold verify_password. simpl.
    rewrite _verify_with_raw_bcrypt_attempt. unfold raw_bcrypt_attempt. simpl.
    rewrite Henc'. simpl. rewrite (ideal_checkpw_hashpw _ _ _ _ Hh).
    by rewrite !truncate_72_take.
Qed.

(** Eighty letters a hashed; eighty-one letters a and seventy-two letters a
    both verify, seventy-one do not. *)
Lemma raw_bcrypt_seventy_two_bytes_witness :
  exists h,
    hash_password raw_bcrypt_backend (repeat 97%N 80) a_salt = Ok h
    /\ verify_password raw_bcrypt_backend (repeat 97%N 81) h = Ok true
    /\ verify_password raw_bcrypt_backend (repeat 97%N 72) h = Ok true
    /\ verify_password raw_bcrypt_backend a71 h = Ok false.
Proof.
  destruct (raw_bcrypt_seventy_two_bytes (repeat 97%N 80) (repeat 97%N 81) a_salt
              (repeat Byte.x61 80) (repeat Byte.x61 81) eq_refl eq_refl eq_refl)
    as (h & Hh & H81).
  destruct (raw_bcrypt_seventy_two_bytes (repeat 97%N 80) (repeat 97%N 72) a_salt
              (repeat Byte.x61 80) (repeat Byte.x61 72) eq_refl eq_refl eq_refl)
    as (h2 & Hh2 & H72).
  destruct (raw_bcrypt_seventy_two_bytes (repeat 97%N 80) a71 a_salt
              (repeat Byte.x61 80) (repeat Byte.x61 71) eq_refl eq_refl eq_refl)
    as (h3 & Hh3 & H71).
  rewrite Hh in Hh2, Hh3. injection Hh2 as <-. injection Hh3 as <-.
  exists h. split; [done|]. split; [|split].
  - rewrite H81. reflexivity.
  - rewrite H72. reflexivity.
  - rewrite H71. reflexivity.
Defined.

(** ** Authentication: what it reads and what it raises *)

(** The outcomes of [get_current_user], path by path. *)
Lemma get_current_user_read_only_aux (settings : Settings) (now : Z)
  (token : option Token) (db : Database) :
  let r := get_current_user settings now token db in
  r.2 = db
  /\ match r.1 with
     | Ok _ => True
     | Raise (HTTPException status_code _) =>
         status_code = 401
         \/ (status_code = 503
             /\ exists h, (h = Users \/ h = Supervisors \/ h = Guards)
                          /\ get_collection db h = None)
     | Raise e => e = AttributeError no_JWTError
     end.
Proof.
  unfold get_current_user.
  destruct token as [tok|]; [|by split; [|left]].
  destruct (token_truthy tok); [|by split; [|left]]. simpl.
  unfold mbind, DB_bind, lift.
  rewrite verify_token_cases.
  destruct (jwt_decode now tok (SECRET_KEY settings) [ALGORITHM settings])
    as [payload|e]; cycle 1.
  { destruct e; try by split.
    match goal with c : jwt_exc |- _ => destruct c end; try by split.
    by split; [|left]. }
  destruct (bool_decide (dict_get payload "type" = PStr "access"));
    [|by split; [|left]].
  destruct (bool_decide (payload = ∅)); [by split; [|left]|].
  destruct (negb (truthy (dict_get payload "user_id"))
            || negb (truthy (dict_get payload "role"))); [by split; [|left]|].
  assert (forall h, h = Users \/ h = Supervisors \/ h = Guards ->
            let r := (match get_collection db h with
                      | Some collection =>
                          lift (try_except (ObjectId (dict_get payload "user_id"))
                            [except_Exception (fun _ =>
                               Raise (AuthenticationError "Invalid user ID format"))])
                          ≫= fun user_object_id =>
                               find_one collection (field_eq "_id" user_object_id)
                               ≫= fun user =>
                                    match user with
                                    | Some user =>
                                        if negb (truthy (dict_get_default user
                                                   "isActive" (PBool false)))
                                        then raise (AuthenticationError
                                                      "Account is not active")
                                        else mret (<["role" := dict_get payload "role"]> user)
                                    | None => raise (AuthenticationError "User not found")
                                    end
                      | None => raise (HTTPException HTTP_503_SERVICE_UNAVAILABLE
                                         "Database not available")
                      end) db in
            r.2 = db
            /\ match r.1 with
               | Ok _ => True
               | Raise (HTTPException status_code _) =>
                   status_code = 401
                   \/ (status_code = 503
                       /\ exists h, (h = Users \/ h = Supervisors \/ h = Guards)
                                    /\ get_collection db h = None)
               | Raise e => e = AttributeError no_JWTError
               end) as Hrest.
  { intros h Hh. destruct (get_collection db h) as [collection|] eqn:Hcoll; cycle 1.
    { split; [done|]. right. split; [done|]. by exists h. }
    unfold mbind, DB_bind, lift, find_one.
    destruct (ObjectId (dict_get payload "user_id")) as [oid|e]; simpl;
      [|by split; [|left]].
    destruct (coll_find_one _ _) as [user|]; [|by split; [|left]].
    destruct (negb _); by split; [|try left]. }
  unfold gets, get_users_collection, get_supervisors_collection,
    get_guards_collection.
  destruct (bool_decide (dict_get payload "role" = PStr "ADMIN")
            || bool_decide (dict_get payload "role" = PStr "SUPER_ADMIN")).
  { apply (Hrest Users). by left. }
  destruct (bool_decide (dict_get payload "role" = PStr "SUPERVISOR")).
  { apply (Hrest Supervisors). by right; left. }
  destruct (bool_decide (dict_get payload "role" = PStr "GUARD")).
  { apply (Hrest Guards). by right; right. }
  by split; [|left].
Qed.

(** X8. [get_current_user] never writes: the database is the same after the
    call, whatever the token. What it raises is a 401, a 503 (only when the
    partition of the role is not available), or the [AttributeError] that
    [verify_token] lets through. *)
Theorem get_current_user_read_only (settings : Settings) (now : Z)
  (token : option Token) (db : Database) :
  let r := get_current_user settings now token db in
  r.2 = db
  /\ match r.1 with
     | Ok _ => True
     | Raise (HTTPException status_code _) =>
         status_code = 401
         \/ (status_code = 503
             /\ exists h, (h = Users \/ h = Supervisors \/ h = Guards)
                          /\ get_collection db h = None)
     | Raise e => e = AttributeError no_JWTError
     end.
Proof. apply get_current_user_read_only_aux. Qed.

(** X9. The role [get_current_user] returns is the role of the token; the role
    stored in the account is not looked at. Whatever is written into the
    [role] field of the account after a call that went through, the next
    call with the same token returns the same user, with the same role. *)
Theorem get_current_user_ignores_stored_role (settings : Settings) (now : Z)
  (token : Token) (db db1 : Database) (current_user : dict) (stored : pyval) :
  get_current_user settings now (Some token) db = (Ok current_user, db1) ->
  exists h _id,
    partition_of_role (dict_get current_user "role") = Some h
    /\ current_user !! "_id" = Some _id
    /\ let db' := (update_one h (field_eq "_id" _id)
                     (op_set [("role", stored)]) db).2 in
       get_current_user settings now (Some token) db' = (Ok current_user, db').
Proof.
  intros Hauth.
  destruct (get_current_user_inv _ _ _ _ _ _ Hauth)
    as (tok & payload & h & oid & account & [= <-] & Htok & Hver & Huid & Hpart
        & Hcoll & Hoid & Hfind & Hact & -> & _).
  assert (account !! "_id" = Some oid) as Hacc.
  { destruct (coll_find_one_split _ _ _ Hfind) as (_ & _ & _ & Hf & _).
    by apply field_eq_true. }
  exists h, oid.
  split; [by unfold dict_get; rewrite lookup_insert_eq|].
  split; [by rewrite lookup_insert_ne|].
  intros db'.
  set (upd := op_set [("role", stored)]).
  assert (db' = modify_docs db h (coll_update_one (field_eq "_id" oid) upd))
    as Hdb' by done.
  rewrite (get_current_user_run _ _ _ _ payload h oid); try done.
  2: { by rewrite Hdb', get_collection_modify_docs. }
  rewrite Hdb', docs_of_modify_docs by done.
  rewrite (coll_find_one_update_one _ _ _ account Hfind).
  2: { apply field_eq_true. subst upd. unfold op_set. simpl.
       by rewrite lookup_insert_ne. }
  assert (dict_get_default (upd account) "isActive" (PBool false)
          = dict_get_default account "isActive" (PBool false)) as ->.
  { subst upd. unfold op_set, dict_get_default. simpl. by rewrite lookup_insert_ne. }
  rewrite Hact. subst upd. unfold op_set. simpl. by rewrite insert_insert_eq.
Qed.

(** The supervisor of [accounts_db] keeps the role of its token when the
    stored role is set to GUARD. *)
Lemma get_current_user_ignores_stored_role_witness :
  let db' := (update_one Supervisors
                (field_eq "_id" (POid "65a1b2c3d4e5f60718293a4e"))
                (op_set [("role", PStr "GUARD")]) accounts_db).2 in
  get_current_user default_settings 1001 (Some supervisor_token) accounts_db
    = (Ok (<["role" := PStr "SUPERVISOR"]> supervisor_account), accounts_db)
  /\ get_current_user default_settings 1001 (Some supervisor_token) db'
     = (Ok (<["role" := PStr "SUPERVISOR"]> supervisor_account), db').
Proof.
  intros db'.
  assert (get_current_user default_settings 1001 (Some supervisor_token) accounts_db
          = (Ok (<["role" := PStr "SUPERVISOR"]> supervisor_account), accounts_db))
    as Hauth by (vm_compute; reflexivity).
  split; [exact Hauth|].
  destruct (get_current_user_ignores_stored_role default_settings 1001
              supervisor_token accounts_db accounts_db _ (PStr "GUARD") Hauth)
    as (h & _id & Hh & Hid & H).
  assert (h = Supervisors) as -> by (by injection Hh as <-).
  assert (_id = POid "65a1b2c3d4e5f60718293a4e") as ->
    by (by injection Hid as <-).
  exact H.
Defined.

(** X10. [get_current_user_optional] never answers with an HTTP error and never
    writes: it returns the user when [get_current_user] returns one, [None]
    when [get_current_user] raises an HTTP error (no token, expired token,
    unknown or inactive account, partition not available); the only thing it
    lets through is the [AttributeError] of [verify_token]. *)
Theorem get_current_user_optional_outcomes (settings : Settings) (now : Z)
  (token : option Token) (db : Database) :
  let r := get_current_user_optional settings now token db in
  r.2 = db
  /\ match (get_current_user settings now token db).1 with
     | Ok current_user => r.1 = Ok (Some current_user)
     | Raise (HTTPException _ _) => r.1 = Ok None
     | Raise e => r.1 = Raise e /\ e = AttributeError no_JWTError
     end.
Proof.
  intros r. subst r.
  destruct (get_current_user_read_only_aux settings now token db) as [Hdb Hout].
  unfold get_current_user_optional.
  destruct token as [tok|]; [|split; reflexivity].
  destruct (token_truthy tok) eqn:Htok; cbn [negb].
  2: { split; [reflexivity|]. unfold get_current_user. rewrite Htok. reflexivity. }
  unfold db_try, mbind, DB_bind, mret, DB_ret.
  destruct (get_current_user settings now (Some tok) db) as [[u|e] db1];
    cbn [fst snd] in *; subst db1; [split; reflexivity|].
  destruct e; try discriminate Hout; [split; reflexivity|].
  injection Hout as ->. split; [reflexivity|]. split; reflexivity.
Qed.

(** ** Revocation of refresh tokens *)

Lemma coll_update_many_id (f : dict -> bool) upd (c : collection) :
  Forall (fun d => f d = false) c -> coll_update_many f upd c = c.
Proof.
  unfold coll_update_many. induction 1 as [|d c Hd _ IH]; [done|].
  rewrite fmap_cons, Hd. by f_equal.
Qed.

(** X11. After [revoke_user_tokens] no refresh token of the user is left
    unrevoked; the tokens that were unrevoked get [revoked = True] and the
    time of the call, nothing else in them changes; the tokens of other
    users and the tokens already revoked are as they were, and in the same
    places. Revoking again changes nothing. Without a database the answer is
    [False]. *)
Theorem revoke_user_tokens_revokes_all (c : collection) (user_id : string)
  (now now' : Z) :
  revoke_user_tokens None user_id now = (false, None)
  /\ exists c',
       revoke_user_tokens (Some c) user_id now = (true, Some c')
       /\ Forall (fun d => unrevoked_of user_id d = false) c'
       /\ Forall2 (fun d d' =>
                     if unrevoked_of user_id d
                     then d' = <["updatedAt" := PTime now]>
                                 (<["revoked" := PBool true]> d)
                     else d' = d) c c'
       /\ revoke_user_tokens (Some c') user_id now' = (true, Some c').
Proof.
  split; [done|]. eexists. split; [done|].
  set (upd := op_set [("revoked", PBool true); ("updatedAt", PTime now)]).
  assert (Forall (fun d => unrevoked_of user_id d = false)
            (coll_update_many (unrevoked_of user_id) upd c)) as Hnone.
  { unfold coll_update_many. apply Forall_fmap, Forall_forall. intros d _. simpl.
    destruct (unrevoked_of user_id d) eqn:Hd; [|done].
    subst upd. unfold op_set, unrevoked_of. simpl.
    apply andb_false_iff. right. apply field_eq_false.
    rewrite lookup_insert_ne by done. by rewrite lookup_insert_eq. }
  split; [done|]. split.
  - unfold coll_update_many. apply Forall2_fmap_r, Forall2_same_length_lookup.
    split; [done|]. intros i d d' Hd Hd'. rewrite Hd in Hd'. injection Hd' as <-.
    unfold compose. destruct (unrevoked_of user_id d); reflexivity.
  - unfold revoke_user_tokens. by rewrite coll_update_many_id.
Qed.

(** ** One-time codes: issuance and verification together *)

(** The collection after a request that was not refused and whose mail was
    sent: what was there for other addresses, then the new challenge. *)
Lemma request_password_change_otp_sent sha256_hexdigest current_super_admin now
  rand oid db c :
  otp_tokens db = Some c ->
  truthy (dict_get current_super_admin "email") = true ->
  let email := dict_get current_super_admin "email" in
  existsb (recent_challenge email now (minutes 1)) c = false ->
  request_password_change_otp sha256_hexdigest current_super_admin now rand oid
    (Ok true) db
  = (Ok ("OTP sent to " +:+ str_pyval email
         +:+ ". Please check your email. OTP expires in 10 minutes."),
     modify_docs db OtpTokens (fun c =>
       (coll_delete_many (otp_filter email) c
        ++ [new_challenge sha256_hexdigest email now rand oid])%list)).
Proof.
  intros Hc Hem email Hrecent.
  rewrite (request_password_change_otp_eq _ _ _ _ _ _ _ c Hc Hem).
  fold email. by rewrite Hrecent.
Qed.

Lemma coll_delete_many_none (f : dict -> bool) (c : collection) :
  Forall (fun x => f x = false) (coll_delete_many f c).
Proof.
  unfold coll_delete_many. apply Forall_forall.
  intros x Hx. apply list_elem_of_In, List.filter_In in Hx as [_ Hx].
  by apply negb_true_iff.
Qed.

Lemma coll_delete_many_fresh_id (f : dict -> bool) (c : collection) (i : pyval) :
  Some i ∉ doc_id <$> c ->
  Forall (fun x => field_eq "_id" i x = false) (coll_delete_many f c).
Proof.
  intros Hfresh. apply Forall_forall. intros x Hx.
  apply field_eq_false. intros Hxi. apply Hfresh.
  change (Some i) with (doc_id x) || rewrite <- Hxi.
  apply list_elem_of_fmap_2.
  eapply elem_of_sublist; [exact Hx|apply coll_delete_many_sublist].
Qed.

(** Verification when the challenge of the address is the last document of
    the collection and the documents before it are neither challenges of the
    address nor carry its [_id]. *)
Lemma verify_otp_record_last sha256_hexdigest email request_otp now db l1 ch
  i e a h :
  otp_tokens db = Some (l1 ++ [ch])%list ->
  Forall (fun x => otp_filter email x = false) l1 ->
  Forall (fun x => field_eq "_id" i x = false) l1 ->
  otp_filter email ch = true ->
  ch !! "_id" = Some i -> ch !! "expiresAt" = Some (PTime e) ->
  ch !! "attempts" = Some (PInt a) -> ch !! "otpHash" = Some (PStr h) ->
  verify_otp_record sha256_hexdigest OtpTokens email request_otp now db
  = if Z.ltb e now then
      (Raise (HTTPException 400 "OTP has expired. Please request a new OTP."),
       modify_docs db OtpTokens (fun _ => l1))
    else if Z.leb 3 a then
      (Raise (HTTPException 429
                "Maximum OTP attempts exceeded. Please request a new OTP."),
       modify_docs db OtpTokens (fun _ => l1))
    else if bool_decide (sha256_hexdigest request_otp = h) then
      (Ok (), modify_docs db OtpTokens (fun _ => l1))
    else
      (Raise (HTTPException 400 "Invalid OTP. Please check and try again."),
       modify_docs db OtpTokens (fun _ =>
         (l1 ++ [<["attempts" := PInt (a + 1)]> ch])%list)).
Proof.
  intros Hc Hl1 Hid1 Hch Hi He Ha Hh.
  assert (docs_of db OtpTokens = (l1 ++ [ch])%list) as Hdocs
    by by (unfold docs_of; rewrite Hc).
  assert (coll_find_one (otp_filter email) (docs_of db OtpTokens) = Some ch) as Hfind.
  { rewrite Hdocs, coll_find_one_app by done. unfold coll_find_one. simpl.
    by rewrite Hch. }
  rewrite (verify_otp_record_found _ _ _ _ _ _ ch i e a (PStr h)) by done.
  assert (field_eq "_id" i ch = true) as Hidch by by apply field_eq_true.
  assert (forall f g, f (l1 ++ [ch])%list = g (l1 ++ [ch])%list ->
            modify_docs db OtpTokens f = modify_docs db OtpTokens g) as Hmod.
  { intros f g Hfg. unfold modify_docs. rewrite Hc. simpl. by rewrite Hfg. }
  assert (bool_decide (PStr (sha256_hexdigest request_otp) = PStr h)
          = bool_decide (sha256_hexdigest request_otp = h)) as Hbd.
  { apply bool_decide_ext. split; [by intros [= ->]|by intros ->]. }
  unfold verify_otp. rewrite Hbd.
  destruct (Z.ltb e now); [|destruct (Z.leb 3 a);
    [|destruct (bool_decide (sha256_hexdigest request_otp = h))]];
    cbn [negb]; f_equal; apply Hmod;
    rewrite ?coll_delete_one_split, ?coll_update_one_split by done;
    rewrite ?app_nil_r; try done.
  by unfold op_inc; rewrite Ha.
Qed.

Lemma otp_tokens_modify_docs db c f :
  otp_tokens db = Some c ->
  otp_tokens (modify_docs db OtpTokens f) = Some (f c).
Proof. intros Hc. unfold modify_docs. simpl. by rewrite Hc. Qed.

Lemma modify_docs_twice db h f g :
  modify_docs (modify_docs db h f) h g = modify_docs db h (g ∘ f).
Proof.
  unfold modify_docs.
  destruct h, db as [[?|] [?|] [?|] [?|]]; simpl; done.
Qed.

Lemma docs_of_otp_tokens db c :
  otp_tokens db = Some c -> docs_of db OtpTokens = c.
Proof. intros Hc. unfold docs_of. by rewrite Hc. Qed.

(** The fields of a new challenge that verification reads. *)
Lemma new_challenge_fields sha256_hexdigest email now rand oid :
  let ch := new_challenge sha256_hexdigest email now rand oid in
  ch !! "_id" = Some (POid oid)
  /\ ch !! "expiresAt" = Some (PTime (now + minutes 10))
  /\ ch !! "attempts" = Some (PInt 0)
  /\ ch !! "otpHash" = Some (PStr (sha256_hexdigest (generate_otp rand)))
  /\ ch !! "createdAt" = Some (PTime now).
Proof. unfold new_challenge, hash_otp. repeat split; by simplify_map_eq. Qed.

(** X12. A code that has just been issued and mailed is accepted when it is
    presented within ten minutes, whatever else the collection held; the
    challenge is consumed by that, so that presenting the code a second time
    is answered with "No OTP found". *)
Theorem issued_otp_accepted_once sha256_hexdigest current_super_admin now rand
  oid db c now' now'' code :
  otp_tokens db = Some c ->
  truthy (dict_get current_super_admin "email") = true ->
  let email := dict_get current_super_admin "email" in
  existsb (recent_challenge email now (minutes 1)) c = false ->
  Some (POid oid) ∉ doc_id <$> c ->
  now' <= now + minutes 10 ->
  let issued := request_password_change_otp sha256_hexdigest current_super_admin
                  now rand oid (Ok true) db in
  let first := verify_otp_record sha256_hexdigest OtpTokens email
                 (generate_otp rand) now' issued.2 in
  let second := verify_otp_record sha256_hexdigest OtpTokens email code now''
                  first.2 in
  first.1 = Ok ()
  /\ challenge_of email first.2 = None
  /\ second = (Raise (HTTPException 400 "No OTP found. Please request an OTP first."),
               first.2).
Proof.
  intros Hc Hem email Hrecent Hfresh Hnow' issued first second.
  subst issued first second.
  rewrite (request_password_change_otp_sent _ _ _ _ _ _ c) by done.
  fold email. cbn [snd].
  pose proof (otp_tokens_modify_docs db c (fun c =>
    (coll_delete_many (otp_filter email) c
     ++ [new_challenge sha256_hexdigest email now rand oid])%list) Hc) as Hc1.
  destruct (new_challenge_fields sha256_hexdigest email now rand oid)
    as (Hi & He & Ha & Hh & _).
  rewrite (verify_otp_record_last _ _ _ _ _ _ _ _ _ _ _ Hc1
             (coll_delete_many_none _ _)
             (coll_delete_many_fresh_id _ _ _ Hfresh)
             (otp_filter_new_challenge _ _ _ _ _) Hi He Ha Hh).
  replace (Z.ltb (now + minutes 10) now') with false by (symmetry; apply Z.ltb_ge; lia).
  rewrite bool_decide_eq_true_2 by done. cbn [Z.leb fst snd].
  rewrite modify_docs_twice.
  assert (challenge_of email
            (modify_docs db OtpTokens
               ((fun _ => coll_delete_many (otp_filter email) c) ∘
                (fun c0 => (coll_delete_many (otp_filter email) c0
                  ++ [new_challenge sha256_hexdigest email now rand oid])%list)))
          = None) as Hgone.
  { unfold challenge_of.
    rewrite (docs_of_otp_tokens _ _ (otp_tokens_modify_docs db c _ Hc)).
    apply coll_find_one_none, coll_delete_many_none. }
  split; [done|]. split; [done|].
  by apply verify_otp_record_not_found.
Qed.

Lemma issued_otp_accepted_once_witness :
  let email := root_email in
  let db := otp_db_1000 in
  let issued := request_password_change_otp stub_sha256 root_admin 2000 123456
                  "65f000000000000000000002" (Ok true) db in
  let first := verify_otp_record stub_sha256 OtpTokens email
                 (generate_otp 123456) 2600 issued.2 in
  let second := verify_otp_record stub_sha256 OtpTokens email
                  (generate_otp 123456) 2601 first.2 in
  first.1 = Ok ()
  /\ challenge_of email first.2 = None
  /\ second = (Raise (HTTPException 400 "No OTP found. Please request an OTP first."),
               first.2).
Proof.
  apply (issued_otp_accepted_once stub_sha256 root_admin 2000 123456
           "65f000000000000000000002" otp_db_1000 [challenge_1000] 2600 2601
           (generate_otp 123456)).
  - reflexivity.
  - reflexivity.
  - vm_compute. reflexivity.
  - vm_compute. intros H. apply list_elem_of_singleton in H. discriminate H.
  - vm_compute. discriminate.
Defined.

(** A wrong code presented in time against a challenge that is the last
    document of the collection, with fewer than three failures: refusal, and
    the failure is counted on the challenge, which is otherwise as it was. *)
Lemma verify_otp_record_wrong sha256_hexdigest email code now db l1 ch i e a h :
  otp_tokens db = Some (l1 ++ [ch])%list ->
  Forall (fun x => otp_filter email x = false) l1 ->
  Forall (fun x => field_eq "_id" i x = false) l1 ->
  otp_filter email ch = true ->
  ch !! "_id" = Some i -> ch !! "expiresAt" = Some (PTime e) ->
  ch !! "attempts" = Some (PInt a) -> ch !! "otpHash" = Some (PStr h) ->
  now <= e -> a < 3 -> sha256_hexdigest code <> h ->
  exists ch' db',
    verify_otp_record sha256_hexdigest OtpTokens email code now db
    = (Raise (HTTPException 400 "Invalid OTP. Please check and try again."), db')
    /\ otp_tokens db' = Some (l1 ++ [ch'])%list
    /\ otp_filter email ch' = true
    /\ ch' !! "_id" = Some i /\ ch' !! "expiresAt" = Some (PTime e)
    /\ ch' !! "attempts" = Some (PInt (a + 1)) /\ ch' !! "otpHash" = Some (PStr h).
Proof.
  intros Hc Hl1 Hid1 Hch Hi He Ha Hh Hnow Hlt Hneq.
  rewrite (verify_otp_record_last _ _ _ _ _ _ _ _ _ _ _ Hc Hl1 Hid1 Hch Hi He Ha Hh).
  replace (Z.ltb e now) with false by (symmetry; apply Z.ltb_ge; lia).
  replace (Z.leb 3 a) with false by (symmetry; apply Z.leb_gt; lia).
  rewrite bool_decide_eq_false_2 by done.
  eexists _, _. split; [reflexivity|].
  split; [by rewrite (otp_tokens_modify_docs _ _ _ Hc)|].
  unfold otp_filter, field_eq in *.
  rewrite lookup_insert_eq, !lookup_insert_ne by done. done.
Qed.

(** X13. After three wrong codes the challenge is locked. Whatever three
    codes other than the issued one are presented in time, each is answered
    with "Invalid OTP"; the issued code presented after them is refused with
    429, in time though it is, and the challenge is removed by that. *)
Theorem three_wrong_codes_lock_the_challenge sha256_hexdigest
  current_super_admin now rand oid db c w1 t1 w2 t2 w3 t3 t4 :
  otp_tokens db = Some c ->
  truthy (dict_get current_super_admin "email") = true ->
  let email := dict_get current_super_admin "email" in
  existsb (recent_challenge email now (minutes 1)) c = false ->
  Some (POid oid) ∉ doc_id <$> c ->
  Forall (fun w => sha256_hexdigest w <> sha256_hexdigest (generate_otp rand))
    [w1; w2; w3] ->
  Forall (fun t => t <= now + minutes 10) [t1; t2; t3; t4] ->
  let issued := request_password_change_otp sha256_hexdigest current_super_admin
                  now rand oid (Ok true) db in
  let r := present_codes sha256_hexdigest email
             [(w1, t1); (w2, t2); (w3, t3); (generate_otp rand, t4)] issued.2 in
  let invalid := Raise (HTTPException 400 "Invalid OTP. Please check and try again.") in
  r.1 = [invalid; invalid; invalid;
         Raise (HTTPException 429
                  "Maximum OTP attempts exceeded. Please request a new OTP.")]
  /\ challenge_of email r.2 = None.
Proof.
  intros Hc Hem email Hrecent Hfresh Hw Ht issued r invalid.
  subst issued r invalid.
  apply Forall_cons in Hw as [Hw1 Hw]. apply Forall_cons in Hw as [Hw2 Hw].
  apply Forall_cons in Hw as [Hw3 _].
  apply Forall_cons in Ht as [Ht1 Ht]. apply Forall_cons in Ht as [Ht2 Ht].
  apply Forall_cons in Ht as [Ht3 Ht]. apply Forall_cons in Ht as [Ht4 _].
  rewrite (request_password_change_otp_sent _ _ _ _ _ _ c) by done.
  fold email. cbn [snd].
  pose proof (otp_tokens_modify_docs db c (fun c =>
    (coll_delete_many (otp_filter email) c
     ++ [new_challenge sha256_hexdigest email now rand oid])%list) Hc) as Hc0.
  cbv beta in Hc0.
  destruct (new_challenge_fields sha256_hexdigest email now rand oid)
    as (Hi & He & Ha & Hh & _).
  pose proof (coll_delete_many_none (otp_filter email) c) as Hl1.
  pose proof (coll_delete_many_fresh_id (otp_filter email) c _ Hfresh) as Hid1.
  pose proof (otp_filter_new_challenge sha256_hexdigest email now rand oid) as Hch.
  revert Hc0 Hi He Ha Hh Hl1 Hid1 Hch.
  generalize (modify_docs db OtpTokens (fun c =>
    (coll_delete_many (otp_filter email) c
     ++ [new_challenge sha256_hexdigest email now rand oid])%list)).
  generalize (new_challenge sha256_hexdigest email now rand oid).
  generalize (coll_delete_many (otp_filter email) c).
  intros l1 ch0 db0 Hc0 Hi0 He0 Ha0 Hh0 Hl1 Hid1 Hch0.
  destruct (verify_otp_record_wrong _ _ w1 t1 _ _ _ _ _ _ _ Hc0 Hl1 Hid1 Hch0
              Hi0 He0 Ha0 Hh0 Ht1 ltac:(lia) Hw1)
    as (ch1 & db1 & Hv1 & Hc1 & Hch1 & Hi1 & He1 & Ha1 & Hh1).
  destruct (verify_otp_record_wrong _ _ w2 t2 _ _ _ _ _ _ _ Hc1 Hl1 Hid1 Hch1
              Hi1 He1 Ha1 Hh1 Ht2 ltac:(lia) Hw2)
    as (ch2 & db2 & Hv2 & Hc2 & Hch2 & Hi2 & He2 & Ha2 & Hh2).
  destruct (verify_otp_record_wrong _ _ w3 t3 _ _ _ _ _ _ _ Hc2 Hl1 Hid1 Hch2
              Hi2 He2 Ha2 Hh2 Ht3 ltac:(lia) Hw3)
    as (ch3 & db3 & Hv3 & Hc3 & Hch3 & Hi3 & He3 & Ha3 & Hh3).
  pose proof (verify_otp_record_last sha256_hexdigest email (generate_otp rand)
                t4 _ _ _ _ _ _ _ Hc3 Hl1 Hid1 Hch3 Hi3 He3 Ha3 Hh3) as Hv4.
  replace (Z.ltb (now + minutes 10) t4) with false in Hv4
    by (symmetry; apply Z.ltb_ge; lia).
  change (Z.leb 3 (0 + 1 + 1 + 1)) with true in Hv4.
  unfold present_codes. rewrite Hv1. cbn [fst snd]. rewrite Hv2. cbn [fst snd].
  rewrite Hv3. cbn [fst snd]. rewrite Hv4. cbn [fst snd].
  split; [done|].
  unfold challenge_of.
  rewrite (docs_of_otp_tokens _ _ (otp_tokens_modify_docs db3 _ _ Hc3)).
  by apply coll_find_one_none.
Qed.

Lemma three_wrong_codes_lock_the_challenge_witness :
  let issued := request_password_change_otp stub_sha256 root_admin 2000 123456
                  "65f000000000000000000002" (Ok true) otp_db_1000 in
  let r := present_codes stub_sha256 root_email
             [("000000", 2010); ("111111", 2020); ("222222", 2030);
              (generate_otp 123456, 2040)] issued.2 in
  let invalid := Raise (HTTPException 400 "Invalid OTP. Please check and try again.") in
  r.1 = [invalid; invalid; invalid;
         Raise (HTTPException 429
                  "Maximum OTP attempts exceeded. Please request a new OTP.")]
  /\ challenge_of root_email r.2 = None.
Proof.
  apply (three_wrong_codes_lock_the_challenge stub_sha256 root_admin 2000 123456
           "65f000000000000000000002" otp_db_1000 [challenge_1000]
           "000000" 2010 "111111" 2020 "222222" 2030 2040).
  - reflexivity.
  - reflexivity.
  - vm_compute. reflexivity.
  - vm_compute. intros H. apply list_elem_of_singleton in H. discriminate H.
  - vm_compute. repeat constructor; discriminate.
  - vm_compute. repeat constructor; discriminate.
Defined.

(** [verify_otp_record] writes to the collection of challenges only. *)
Lemma verify_otp_record_frame sha256_hexdigest email request_otp now db :
  let r := verify_otp_record sha256_hexdigest OtpTokens email request_otp now db in
  users r.2 = users db /\ supervisors r.2 = supervisors db
  /\ guards r.2 = guards db.
Proof.
  unfold verify_otp_record, mbind, DB_bind, find_one, lift, delete_one,
    update_one, raise, dict_item, now_gt, int_ge. cbn zeta.
  destruct (coll_find_one _ _) as [d|]; [|done]. cbn [fst snd].
  repeat (match goal with
          | |- context [match ?x with _ => _ end] => destruct x eqn:?
          end; cbn [fst snd]; try done).
Qed.

(** Handlers that do not use the database leave it as the body left it. *)
Lemma db_try_snd {A : Type} (body : DB A) (clauses : list (clause A)) db :
  (db_try body clauses db).2 = (body db).2.
Proof. unfold db_try. by destruct (body db) as [[] ?]. Qed.

(** X14. The password of the super admin is written only after the
    one-time code has passed: whenever [change_super_admin_password] leaves
    the collection of users different from what it was, the verification of
    the presented code against the database of the call succeeded.  The
    collections of supervisors and guards are never written. *)
Theorem password_changes_only_after_otp sha256_hexdigest B request_otp
  request_newPassword current_super_admin now salt db :
  let r := change_super_admin_password sha256_hexdigest B request_otp
             request_newPassword current_super_admin now salt db in
  supervisors r.2 = supervisors db /\ guards r.2 = guards db
  /\ (users r.2 <> users db ->
      (verify_otp_record sha256_hexdigest OtpTokens
         (dict_get current_super_admin "email") request_otp now db).1 = Ok ()).
Proof.
  pose proof (verify_otp_record_frame sha256_hexdigest
                (dict_get current_super_admin "email") request_otp now db) as Hf.
  cbn zeta in Hf. destruct Hf as (Hu & Hs & Hg).
  cbn zeta. unfold change_super_admin_password. rewrite db_try_snd.
  unfold mbind, DB_bind, gets,
    get_users_collection, get_otp_tokens_collection, get_collection, raise.
  cbn [fst snd].
  destruct (users db) as [us|] eqn:Hus; [|by rewrite ?Hus].
  destruct (otp_tokens db) as [c|] eqn:Hc; [|by rewrite ?Hus].
  cbn -[verify_otp_record hash_password dict_item update_one].
  destruct (truthy (dict_get current_super_admin "email")); cbn [negb];
    [|by rewrite ?Hus].
  unfold mbind, DB_bind.
  destruct (verify_otp_record sha256_hexdigest OtpTokens
              (dict_get current_super_admin "email") request_otp now db)
    as [[[]|e] db'] eqn:Hv; cbn [fst snd] in *.
  - split; [|split; [|done]].
    + unfold lift, update_one, mret, DB_ret.
      destruct (hash_password B request_newPassword salt); cbn [fst snd]; [|done].
      destruct (dict_item current_super_admin "_id"); cbn [fst snd]; done.
    + unfold lift, update_one, mret, DB_ret.
      destruct (hash_password B request_newPassword salt); cbn [fst snd]; [|done].
      destruct (dict_item current_super_admin "_id"); cbn [fst snd]; done.
  - rewrite Hs, Hg, Hu. done.
Qed.

(** X15. Within a minute of a request that was served, every further
    request for the same address is refused with 429, whatever the outcome of
    the mail would have been, and leaves the database as it is: the code
    that was mailed stays the valid one. *)
Theorem second_request_within_a_minute sha256_hexdigest current_super_admin now
  rand oid db c now' rand' oid' send_otp_email :
  otp_tokens db = Some c ->
  truthy (dict_get current_super_admin "email") = true ->
  let email := dict_get current_super_admin "email" in
  existsb (recent_challenge email now (minutes 1)) c = false ->
  now' <= now + minutes 1 ->
  let issued := request_password_change_otp sha256_hexdigest current_super_admin
                  now rand oid (Ok true) db in
  request_password_change_otp sha256_hexdigest current_super_admin now' rand'
    oid' send_otp_email issued.2
  = (Raise (HTTPException 429 "Please wait 1 minute before requesting another OTP"),
     issued.2).
Proof.
  intros Hc Hem email Hrecent Hnow' issued. subst issued.
  rewrite (request_password_change_otp_sent _ _ _ _ _ _ c) by done.
  fold email. cbn [snd].
  rewrite (request_password_change_otp_eq _ _ _ _ _ _ _ _
             (otp_tokens_modify_docs db c _ Hc) Hem).
  fold email. rewrite existsb_app. 
  assert (recent_challenge email now' (minutes 1)
            (new_challenge sha256_hexdigest email now rand oid) = true) as Hnew.
  { unfold recent_challenge. rewrite otp_filter_new_challenge.
    destruct (new_challenge_fields sha256_hexdigest email now rand oid)
      as (_ & _ & _ & _ & Hcr).
    unfold field_gte. rewrite Hcr. apply Z.leb_le. lia. }
  cbn [existsb]. rewrite Hnew. by rewrite orb_true_r.
Qed.

Lemma second_request_within_a_minute_witness :
  let issued := request_password_change_otp stub_sha256 root_admin 2000 123456
                  "65f000000000000000000002" (Ok true) otp_db_1000 in
  request_password_change_otp stub_sha256 root_admin 2060 654321
    "65f000000000000000000003" (Ok true) issued.2
  = (Raise (HTTPException 429 "Please wait 1 minute before requesting another OTP"),
     issued.2).
Proof.
  apply (second_request_within_a_minute stub_sha256 root_admin 2000 123456
           "65f000000000000000000002" otp_db_1000 [challenge_1000] 2060 654321
           "65f000000000000000000003" (Ok true)).
  - reflexivity.
  - reflexivity.
  - vm_compute. reflexivity.
  - vm_compute. discriminate.
Defined.

(** X16. When the mail could not be sent, the request is answered with 500
    and no challenge at all is left for the address: the new one is removed
    again, and the one that was on file before the request, valid or not,
    has been removed before. *)
Theorem unsent_mail_leaves_no_challenge sha256_hexdigest current_super_admin now
  rand oid db c :
  otp_tokens db = Some c ->
  truthy (dict_get current_super_admin "email") = true ->
  let email := dict_get current_super_admin "email" in
  existsb (recent_challenge email now (minutes 1)) c = false ->
  let r := request_password_change_otp sha256_hexdigest current_super_admin now
             rand oid (Ok false) db in
  r.1 = Raise (HTTPException 500 "Failed to send OTP email. Please try again.")
  /\ otp_tokens r.2 = Some (coll_delete_many (otp_filter email) c)
  /\ challenge_of email r.2 = None.
Proof.
  intros Hc Hem email Hrecent r. subst r.
  rewrite (request_password_change_otp_eq _ _ _ _ _ _ _ c Hc Hem).
  fold email. rewrite Hrecent. cbn [fst snd].
  split; [done|].
  assert (otp_tokens
            (modify_docs db OtpTokens (fun c0 =>
               coll_delete_one (otp_filter email)
                 (coll_insert_one oid
                    (delete "_id" (new_challenge sha256_hexdigest email now rand oid))
                    (coll_delete_many (otp_filter email) c0))))
          = Some (coll_delete_many (otp_filter email) c)) as Hstore.
  { rewrite (otp_tokens_modify_docs db c _ Hc). f_equal.
    change (coll_insert_one oid
              (delete "_id" (new_challenge sha256_hexdigest email now rand oid))
              (coll_delete_many (otp_filter email) c))
      with (coll_delete_many (otp_filter email) c
            ++ [new_challenge sha256_hexdigest email now rand oid])%list.
    rewrite coll_delete_one_split;
      [by rewrite app_nil_r|apply coll_delete_many_none
      |apply otp_filter_new_challenge]. }
  split; [done|].
  unfold challenge_of. rewrite (docs_of_otp_tokens _ _ Hstore).
  apply coll_find_one_none, coll_delete_many_none.
Qed.

Lemma unsent_mail_leaves_no_challenge_witness :
  let r := request_password_change_otp stub_sha256 root_admin 1100 123456
             "65f000000000000000000002" (Ok false) otp_db_1000 in
  r.1 = Raise (HTTPException 500 "Failed to send OTP email. Please try again.")
  /\ otp_tokens r.2 = Some (coll_delete_many (otp_filter root_email) [challenge_1000])
  /\ challenge_of root_email r.2 = None.
Proof.
  apply (unsent_mail_leaves_no_challenge stub_sha256 root_admin 1100 123456
           "65f000000000000000000002" otp_db_1000 [challenge_1000]).
  - reflexivity.
  - reflexivity.
  - vm_compute. reflexivity.
Defined.

(** ** Login and authentication together *)

Lemma wire_claims_lookup_role claims k role h :
  claims !! k = Some role -> partition_of_role role = Some h ->
  dict_get (wire_claims claims) k = role.
Proof.
  intros Hk Hpart. unfold dict_get, wire_claims. rewrite lookup_fmap, Hk.
  unfold partition_of_role in Hpart.
  repeat case_bool_decide; subst; simpl in *; done.
Qed.

Lemma partition_of_role_collection role h :
  partition_of_role role = Some h ->
  role = PStr "SUPER_ADMIN" /\ h = Users
  \/ role_collection Users Supervisors Guards role = Ok h.
Proof.
  unfold partition_of_role, role_collection.
  repeat case_bool_decide; subst; simpl; intros [= <-]; auto.
Qed.

Lemma get_collection_some db h c : get_collection db h = Some c -> c = h.
Proof.
  unfold get_collection.
  destruct h, db as [[?|] [?|] [?|] [?|]]; simpl; congruence.
Qed.

(** X17. The token a login returns authenticates its holder until it
    expires. When the account carries an [ObjectId] and is the document with
    that [_id] in the partition [get_current_user] reads for the role of the
    login, [get_current_user] on the returned access token, at any time
    before the expiry, returns that account with the role of the login (its
    [lastLogin] is the one the login wrote), and changes nothing. *)
Theorem login_token_authenticates (settings : Settings) (B : CryptBackend)
  (username : string) (password : pystr) (now now' : Z) (db db' : Database)
  (resp : LoginResponse) (account : dict) (role : pyval) (o : string)
  (h : handle_t) :
  login settings B username password now db = (Ok resp, db') ->
  find_user Users Supervisors Guards username db = (Ok (account, role), db) ->
  account !! "_id" = Some (POid o) ->
  ObjectId (PStr o) = Ok (POid o) ->
  partition_of_role role = Some h ->
  coll_find_one (field_eq "_id" (POid o)) (docs_of db h) = Some account ->
  now' < now + minutes (ACCESS_TOKEN_EXPIRE_MINUTES settings) ->
  exists current_user,
    get_current_user settings now' (Some (access_token resp)) db'
      = (Ok current_user, db')
    /\ delete "lastLogin" current_user
       = delete "lastLogin" (<["role" := role]> account).
Proof.
  intros Hlogin Hfind Hid Hoid Hpart Hdoc Hnow'.
  destruct (login_inv _ _ _ _ _ _ _ _ Hlogin)
    as (us & ss & gs & account0 & role0 & hs & Hu & Hs & Hg & Hfind0 & Hhash & Hne
        & Hvalid).
  rewrite Hfind in Hfind0. injection Hfind0 as <- <-.
  rewrite (login_found _ _ _ _ _ _ us ss gs account role hs true) in Hlogin by done.
  cbn [negb] in Hlogin.
  destruct (truthy (dict_get_default account "isActive" (PBool false))) eqn:Hact;
    [|done].
  cbn [negb] in Hlogin. rewrite Hid in Hlogin. cbv zeta in Hlogin.
  destruct (account !! "name") as [name|]; [|done].
  injection Hlogin as <- <-. cbn [access_token str_pyval].
  set (data := ({[ "user_id" := PStr o; "email" := dict_get account "email";
                   "phone" := dict_get account "phone"; "role" := role ]} : dict)).
  pose proof (verify_token_fresh_access settings now now' data Hnow') as Hver.
  set (payload := wire_claims _) in Hver.
  assert (dict_get payload "user_id" = PStr o) as Huid.
  { unfold dict_get, payload, wire_claims, data. rewrite lookup_fmap.
    by simplify_map_eq. }
  assert (dict_get payload "role" = role) as Hrole.
  { apply (wire_claims_lookup_role _ _ _ h); [|done].
    unfold data. by simplify_map_eq. }
  assert (o <> "") as Ho by (intros ->; done).
  destruct (available_collections _ _ _ _ Hu Hs Hg) as (Hcu & Hcs & Hcg).
  assert (get_collection db h = Some h) as Hcoll.
  { unfold get_users_collection, get_supervisors_collection,
      get_guards_collection in *.
    destruct (partition_of_role_collection _ _ Hpart) as [[_ ->]|Hrc]; [done|].
    unfold role_collection in Hrc.
    repeat case_bool_decide; try done; by injection Hrc as <-. }
  set (db' := match role_collection Users Supervisors Guards role with
              | Ok collection =>
                  modify_docs db collection
                    (coll_update_one (field_eq "_id" (POid o))
                       (op_set [("lastLogin", PTime now)]))
              | Raise _ => db
              end).
  assert (get_collection db' h = Some h) as Hcoll'.
  { unfold db'. destruct (role_collection _ _ _ _); [|done].
    by rewrite get_collection_modify_docs. }
  rewrite (get_current_user_run settings now' _ db' payload h (POid o));
    [|done|done|by rewrite Huid; simpl; rewrite bool_decide_eq_false_2
     |by rewrite Hrole|done|by rewrite Huid].
  rewrite Hrole.
  destruct (partition_of_role_collection _ _ Hpart) as [[-> ->]|Hrc].
  - subst db'. simpl. rewrite Hdoc, Hact. by eexists.
  - subst db'. rewrite Hrc. rewrite docs_of_update_one.
    rewrite decide_True by done.
    rewrite (coll_find_one_update_one _ _ _ account Hdoc).
    2: { apply field_eq_true. unfold op_set. simpl. by simplify_map_eq. }
    assert (truthy (dict_get_default
              (op_set [("lastLogin", PTime now)] account) "isActive" (PBool false))
            = true) as ->.
    { unfold op_set, dict_get_default. simpl. by rewrite lookup_insert_ne. }
    eexists. split; [done|].
    unfold op_set. simpl.
    rewrite (insert_insert_ne account) by done.
    by rewrite delete_insert_eq.
Qed.

(** The supervisor of [accounts_db] logs in at second 1000 and presents the
    token at second 1500. *)
Lemma login_token_authenticates_witness :
  exists resp db' current_user,
    login default_settings passlib_backend "sup@lh.io.in" test_password 1000
      accounts_db = (Ok resp, db')
    /\ get_current_user default_settings 1500 (Some (access_token resp)) db'
       = (Ok current_user, db')
    /\ delete "lastLogin" current_user
       = delete "lastLogin" (<["role" := PStr "SUPERVISOR"]> supervisor_account).
Proof.
  assert (find_user Users Supervisors Guards "sup@lh.io.in" accounts_db
          = (Ok (supervisor_account, PStr "SUPERVISOR"), accounts_db)) as Hfind
    by (vm_compute; reflexivity).
  assert (exists resp db',
            login default_settings passlib_backend "sup@lh.io.in" test_password
              1000 accounts_db = (Ok resp, db')) as (resp & db' & Hlogin).
  { rewrite (login_found default_settings passlib_backend "sup@lh.io.in"
               test_password 1000 accounts_db _ _ _ supervisor_account
               (PStr "SUPERVISOR") "$2b$12$N9qo8uLOickgx2ZMRZoMyeTest@123" true
               eq_refl eq_refl eq_refl Hfind eq_refl);
      [|done|by vm_compute].
    eexists _, _. reflexivity. }
  destruct (login_token_authenticates default_settings passlib_backend
              "sup@lh.io.in" test_password 1000 1500 accounts_db db' resp
              supervisor_account (PStr "SUPERVISOR") "65a1b2c3d4e5f60718293a4e"
              Supervisors Hlogin Hfind)
    as (current_user & Hcur & Hdel);
    [reflexivity|by vm_compute|reflexivity|by vm_compute|by vm_compute|].
  by exists resp, db', current_user.
Defined.

(** X18. [login] writes to the database only on behalf of a caller whose
    credentials are in order: if the database after the call differs from
    the one before, the identifier was found, the password verified against
    the stored hash, the account was active and the role resolved is ADMIN,
    SUPERVISOR or GUARD.  A login that is refused for its credentials leaves
    no trace in the collections. *)
Theorem login_writes_only_when_authenticated (settings : Settings)
  (B : CryptBackend) (username : string) (password : pystr) (now : Z)
  (db : Database) :
  (login settings B username password now db).2 <> db ->
  exists account role h,
    find_user Users Supervisors Guards username db = (Ok (account, role), db)
    /\ dict_get account "passwordHash" = PStr h
    /\ verify_password B password h = Ok true
    /\ truthy (dict_get_default account "isActive" (PBool false)) = true
    /\ (role = PStr "ADMIN" \/ role = PStr "SUPERVISOR" \/ role = PStr "GUARD").
Proof.
  unfold login. rewrite db_try_snd.
  unfold mbind at 1, DB_bind at 1, gets at 1.
  unfold mbind at 1, DB_bind at 1, gets at 1.
  unfold mbind at 1, DB_bind at 1, gets at 1. cbn [fst snd].
  unfold get_users_collection, get_supervisors_collection,
    get_guards_collection, get_collection.
  destruct (users db) as [us|]; [|done].
  destruct (supervisors db) as [ss|]; [|done].
  destruct (guards db) as [gs|]; [|done].
  cbn [mbind option_bind option_ret mret].
  unfold mbind at 1, DB_bind at 1.
  pose proof (find_user_eq username db) as Hfind.
  destruct (find_user Users Supervisors Guards username db) as [[[account role]|e] db0]
    eqn:Hfu.
  2: { assert (db0 = db) as ->; [|done].
       repeat (destruct (coll_find_one _ _) in Hfind); congruence. }
  assert (db0 = db) as ->.
  { repeat (destruct (coll_find_one _ _) in Hfind); congruence. }
  cbn [fst snd].
  destruct (truthy (dict_get account "passwordHash")) eqn:Htr; cbn [negb]; [|done].
  unfold mbind at 1, DB_bind at 1, lift at 1.
  destruct (dict_get account "passwordHash") as [| | |h| |] eqn:Hhash;
    cbn [as_str fst snd]; try done.
  unfold mbind at 1, DB_bind at 1, lift at 1.
  destruct (verify_password_returns B password h) as [valid Hvalid].
  rewrite Hvalid. cbn [fst snd]. destruct valid; cbn [negb].
  2: { unfold mbind at 1, DB_bind at 1, lift at 1.
       by destruct (verify_password_returns B [] h) as [b ->]. }
  destruct (truthy (dict_get_default account "isActive" (PBool false))) eqn:Hact;
    cbn [negb]; [|done].
  intros Hchanged. exists account, role, h.
  split; [done|]. split; [done|]. split; [done|]. split; [done|].
  destruct (role_collection Users Supervisors Guards role) as [collection|e]
    eqn:Hcoll; [by eapply role_collection_ok|].
  exfalso. apply Hchanged.
  unfold db_catch, mbind, DB_bind, lift, try_except, dict_item.
  cbn [fst snd mret DB_ret].
  repeat (match goal with
          | |- context [match ?x with _ => _ end] => destruct x eqn:?
          end; cbn [fst snd]; try done).
Qed.

(** The login of the supervisor of [accounts_db] writes its [lastLogin]. *)
Lemma login_writes_only_when_authenticated_witness :
  exists account role h,
    find_user Users Supervisors Guards "sup@lh.io.in" accounts_db
      = (Ok (account, role), accounts_db)
    /\ dict_get account "passwordHash" = PStr h
    /\ verify_password passlib_backend test_password h = Ok true
    /\ truthy (dict_get_default account "isActive" (PBool false)) = true
    /\ (role = PStr "ADMIN" \/ role = PStr "SUPERVISOR" \/ role = PStr "GUARD").
Proof.
  apply (login_writes_only_when_authenticated default_settings passlib_backend
           "sup@lh.io.in" test_password 1000 accounts_db).
  intros H.
  apply (f_equal (fun db => head (docs_of db Supervisors)
                            ≫= fun d => d !! "lastLogin")) in H.
  vm_compute in H. discriminate H.
Defined.

(** ** The management of accounts *)

Lemma field_eq_nonempty k v (d : dict) : field_eq k v d = true -> d <> ∅.
Proof. intros H%field_eq_true ->. by rewrite lookup_empty in H. Qed.

Lemma field_eq_dict_get k v (d : dict) :
  field_eq k v d = true -> dict_get d k = v.
Proof. intros H%field_eq_true. unfold dict_get. by rewrite H. Qed.

Lemma coll_find_one_found (f : dict -> bool) (c : collection) d :
  coll_find_one f c = Some d -> f d = true.
Proof.
  intros H. by destruct (coll_find_one_split _ _ _ H) as (? & ? & _ & ? & _).
Qed.

Lemma coll_find_one_none_inv (f : dict -> bool) (c : collection) :
  coll_find_one f c = None -> Forall (fun x => f x = false) c.
Proof.
  unfold coll_find_one. induction c as [|x c IH]; simpl; [constructor|].
  destruct (f x) eqn:Hx; [done|]. intros H. constructor; auto.
Qed.

Lemma users_modify_docs db c f :
  users db = Some c -> users (modify_docs db Users f) = Some (f c).
Proof. intros Hc. unfold modify_docs. simpl. by rewrite Hc. Qed.

Lemma docs_of_users db c : users db = Some c -> docs_of db Users = c.
Proof. intros Hc. unfold docs_of. by rewrite Hc. Qed.

(** The outcomes of [add_state_admin]: a refusal, which leaves the database
    as it was, or one new document at the end of the collection of users, for
    a state that had no admin and contacts no user had. *)
Lemma add_state_admin_cases strip B admin_data current_super_admin now salt oid
  db r :
  add_state_admin strip B admin_data current_super_admin now salt oid db = r ->
  (exists e, r = (Raise e, db))
  \/ (exists c h doc resp,
        users db = Some c
        /\ r = (Ok resp, modify_docs db Users (fun c => (c ++ [doc])%list))
        /\ hash_password B (req_password admin_data) salt = Ok h
        /\ coll_find_one (all_fields [("role", PStr "ADMIN");
                                      ("state", PStr (req_state admin_data))]) c
           = None
        /\ (forall e, and_strip strip (req_email admin_data) = Some e ->
              Forall (fun d => field_eq "email" (PStr e) d = false) c)
        /\ (forall p, and_strip strip (req_phone admin_data) = Some p ->
              Forall (fun d => field_eq "phone" (PStr p) d = false) c)
        /\ (and_strip strip (req_email admin_data) <> None
            \/ and_strip strip (req_phone admin_data) <> None)
        /\ doc !! "_id" = Some (POid oid)
        /\ doc !! "role" = Some (PStr "ADMIN")
        /\ doc !! "state" = Some (PStr (req_state admin_data))
        /\ doc !! "isActive" = Some (PBool true)
        /\ doc !! "passwordHash" = Some (PStr h)
        /\ doc !! "name" = Some (PStr (req_name admin_data))
        /\ doc !! "email" = PStr <$> and_strip strip (req_email admin_data)
        /\ doc !! "phone" = PStr <$> and_strip strip (req_phone admin_data)
        /\ admin resp !! "id" = Some (PStr oid)).
Proof.
  intros Hr. unfold add_state_admin, db_try in Hr.
  unfold mbind at 1, DB_bind at 1, gets at 1 in Hr.
  unfold get_users_collection, get_collection in Hr.
  destruct (users db) as [c|] eqn:Hc; cbn [mbind option_bind] in Hr;
    [|left; subst r; by eexists].
  unfold mbind at 1, DB_bind at 1, lift at 1 in Hr.
  destruct (dict_item current_super_admin "_id") as [_id|e0]; cbn [fst snd] in Hr;
    [|left; subst r; destruct e0; by eexists].
  set (has_email := and_strip strip (req_email admin_data)) in *.
  set (has_phone := and_strip strip (req_phone admin_data)) in *.
  destruct (bool_decide (has_email = None) && bool_decide (has_phone = None))
    eqn:Hcontact; [left; subst r; by eexists|].
  unfold mbind at 1, DB_bind at 1, find_one at 1 in Hr.
  rewrite (docs_of_users _ _ Hc) in Hr.
  destruct (coll_find_one _ c) as [existing_admin|] eqn:Hadmin.
  { assert (existing_admin <> ∅) as Hne.
    { apply coll_find_one_found in Hadmin. unfold all_fields in Hadmin.
      simpl in Hadmin. apply andb_true_iff in Hadmin as [H _].
      by eapply field_eq_nonempty. }
    cbn [doc_truthy] in Hr. rewrite bool_decide_eq_false_2 in Hr by done.
    left. subst r. by eexists. }
  cbn [doc_truthy] in Hr.
  set (or_conditions :=
         (match has_email with Some e => [("email", PStr e)] | None => [] end
          ++ match has_phone with Some p => [("phone", PStr p)] | None => [] end)%list)
    in *.
  assert (forall d, or_fields or_conditions d
                    = match has_email with
                      | Some e => field_eq "email" (PStr e) d | None => false
                      end
                      || match has_phone with
                         | Some p => field_eq "phone" (PStr p) d | None => false
                         end) as Hor.
  { intros d. unfold or_fields, or_conditions.
    destruct has_email, has_phone; simpl; by rewrite ?orb_false_r. }
  unfold mbind at 1, DB_bind at 1 in Hr.
  assert (or_conditions <> []) as Hconds.
  { unfold or_conditions. destruct has_email, has_phone; done. }
  destruct (coll_find_one (or_fields or_conditions) c) as [u|] eqn:Huser.
  { left. pose proof (coll_find_one_found _ _ _ Huser) as Hu. rewrite Hor in Hu.
    destruct or_conditions as [|cond conds] eqn:Hoc; [done|].
    unfold mbind at 1, DB_bind at 1, find_one at 1 in Hr.
    rewrite (docs_of_users _ _ Hc), Huser in Hr.
    assert (u <> ∅) as Hne.
    { apply orb_true_iff in Hu as [Hu|Hu];
        [destruct has_email|destruct has_phone]; try done;
        by eapply field_eq_nonempty. }
    rewrite (bool_decide_eq_false_2 (u = ∅)) in Hr by done. cbn [negb] in Hr.
    destruct has_email as [e|], has_phone as [p|]; simpl in Hu;
      rewrite ?orb_false_r in Hu.
    - destruct (bool_decide (dict_get u "email" = PStr e)) eqn:He;
        [subst r; by eexists|].
      apply bool_decide_eq_false in He.
      destruct (field_eq "email" (PStr e) u) eqn:Hfe;
        [by apply field_eq_dict_get in Hfe|].
      simpl in Hu. rewrite (field_eq_dict_get _ _ _ Hu) in Hr.
      rewrite bool_decide_eq_true_2 in Hr by done. subst r. by eexists.
    - rewrite (field_eq_dict_get _ _ _ Hu) in Hr.
      rewrite bool_decide_eq_true_2 in Hr by done. subst r. by eexists.
    - rewrite (field_eq_dict_get _ _ _ Hu) in Hr.
      rewrite bool_decide_eq_true_2 in Hr by done. subst r. by eexists.
    - done. }
  destruct or_conditions as [|cond conds] eqn:Hoc; [done|].
  unfold mbind at 1, DB_bind at 1, find_one at 1 in Hr.
  rewrite (docs_of_users _ _ Hc), Huser in Hr.
  unfold mret at 1, DB_ret at 1 in Hr.
  unfold mbind at 1, DB_bind at 1, lift at 1 in Hr.
  destruct (hash_password B (req_password admin_data) salt) as [h|e0] eqn:Hhash;
    cbn [fst snd] in Hr.
  2: { left. subst r. destruct e0; by eexists. }
  unfold mbind, DB_bind, insert_one, mret, DB_ret, coll_insert_one in Hr.
  cbn [fst snd] in Hr.
  right.
  pose proof (coll_find_one_none_inv _ _ Huser) as Hnone.
  eexists c, h, _, _. split; [done|].
  split; [symmetry; exact Hr|]. split; [done|]. split; [done|].
  split.
  { intros e He. eapply Forall_impl; [exact Hnone|]. intros d Hd. cbv beta in Hd.
    rewrite Hor in Hd. apply orb_false_iff in Hd as [Hd _].
    by rewrite He in Hd. }
  split.
  { intros p Hp. eapply Forall_impl; [exact Hnone|]. intros d Hd. cbv beta in Hd.
    rewrite Hor in Hd. apply orb_false_iff in Hd as [_ Hd].
    by rewrite Hp in Hd. }
  split.
  { destruct has_email, has_phone; try (by left); by right. }
  destruct has_email as [e|], has_phone as [p|]; cbn [fmap option_fmap option_map];
    repeat split; by simplify_map_eq.
Qed.

Lemma modify_docs_users_frame db f :
  supervisors (modify_docs db Users f) = supervisors db
  /\ guards (modify_docs db Users f) = guards db
  /\ otp_tokens (modify_docs db Users f) = otp_tokens db.
Proof. done. Qed.

(** X19. A request [add_state_admin] refuses writes nothing, and a request
    it serves adds exactly one document, at the end of the collection of
    users: an active ADMIN of the state asked for, under the [_id] the
    response names.  Supervisors, guards and one-time codes are not written. *)
Theorem add_state_admin_adds_one_document (strip : string -> string)
  (B : CryptBackend) (admin_data : SuperAdminAddAdminRequest)
  (current_super_admin : dict) (now : Z) (salt oid : string) (db : Database) :
  let r := add_state_admin strip B admin_data current_super_admin now salt oid db in
  match r.1 with
  | Raise _ => r.2 = db
  | Ok resp =>
      exists c doc,
        users db = Some c /\ users r.2 = Some (c ++ [doc])%list
        /\ supervisors r.2 = supervisors db /\ guards r.2 = guards db
        /\ otp_tokens r.2 = otp_tokens db
        /\ doc !! "role" = Some (PStr "ADMIN")
        /\ doc !! "state" = Some (PStr (req_state admin_data))
        /\ doc !! "isActive" = Some (PBool true)
        /\ doc !! "_id" = Some (POid oid)
        /\ admin resp !! "id" = Some (PStr oid)
  end.
Proof.
  cbn zeta.
  destruct (add_state_admin_cases strip B admin_data current_super_admin now salt
              oid db _ eq_refl)
    as [[e ->]|(c & h & doc & resp & Hc & -> & _ & _ & _ & _ & _ & Hid & Hrole
                & Hstate & Hact & _ & _ & _ & _ & Hresp)]; [done|].
  cbn [fst snd]. exists c, doc.
  rewrite (users_modify_docs _ _ _ Hc). by repeat split.
Qed.

Lemma admins_of_state_app state (c1 c2 : collection) :
  admins_of_state state (c1 ++ c2) = (admins_of_state state c1 ++ admins_of_state state c2)%list.
Proof. unfold admins_of_state. apply List.filter_app. Qed.

Lemma admins_of_state_none state (c : collection) :
  coll_find_one (all_fields [("role", PStr "ADMIN"); ("state", PStr state)]) c = None ->
  admins_of_state state c = [].
Proof.
  intros H%coll_find_one_none_inv. unfold admins_of_state.
  induction H as [|d c Hd _ IH]; cbn [List.filter]; [done|]. by rewrite Hd.
Qed.

(** X20. [add_state_admin] keeps the rule of one admin per state: when no
    state has two admins in the collection of users, none has after the
    call, whatever the request was and however it was answered. *)
Theorem add_state_admin_keeps_one_admin_per_state (strip : string -> string)
  (B : CryptBackend) (admin_data : SuperAdminAddAdminRequest)
  (current_super_admin : dict) (now : Z) (salt oid : string) (db : Database) :
  one_admin_per_state db ->
  one_admin_per_state
    (add_state_admin strip B admin_data current_super_admin now salt oid db).2.
Proof.
  intros Hinv.
  destruct (add_state_admin_cases strip B admin_data current_super_admin now salt
              oid db _ eq_refl)
    as [[e ->]|(c & h & doc & resp & Hc & -> & _ & Hnone & _ & _ & _ & _ & Hrole
                & Hstate & _)]; [done|].
  cbn [snd]. intros state. specialize (Hinv state).
  rewrite (docs_of_users _ _ (users_modify_docs _ _ _ Hc)).
  rewrite (docs_of_users _ _ Hc) in Hinv.
  rewrite admins_of_state_app, length_app.
  destruct (decide (state = req_state admin_data)) as [->|Hne].
  - rewrite (admins_of_state_none _ _ Hnone). unfold admins_of_state.
    cbn [List.filter length].
    destruct (all_fields _ doc); simpl; lia.
  - assert (admins_of_state state [doc] = []) as ->; [|simpl; lia].
    unfold admins_of_state, all_fields, field_eq. simpl.
    rewrite Hstate, Hrole.
    rewrite (bool_decide_eq_false_2 (Some (PStr (req_state admin_data))
                                     = Some (PStr state))) by congruence.
    by rewrite andb_false_r.
Qed.

Lemma add_state_admin_keeps_one_admin_per_state_witness :
  one_admin_per_state
    (add_state_admin (fun s => s) passlib_backend haryana_request root_admin 5000
       a_salt a_new_id accounts_db).2.
Proof.
  apply (add_state_admin_keeps_one_admin_per_state (fun s => s) passlib_backend
           haryana_request root_admin 5000 a_salt a_new_id accounts_db).
  intros state. vm_compute. lia.
Defined.

(** [add_state_admin] for a state that has an admin. *)
Lemma add_state_admin_existing strip B admin_data current_super_admin now salt oid
  db c i d :
  users db = Some c ->
  current_super_admin !! "_id" = Some i ->
  and_strip strip (req_email admin_data) <> None
  \/ and_strip strip (req_phone admin_data) <> None ->
  coll_find_one (all_fields [("role", PStr "ADMIN");
                             ("state", PStr (req_state admin_data))]) c = Some d ->
  add_state_admin strip B admin_data current_super_admin now salt oid db
  = (Raise (HTTPException 400
              ("Admin already exists for state '" +:+ req_state admin_data
               +:+ "'. Only one admin per state is allowed.")), db).
Proof.
  intros Hc Hi Hcontact Hfind.
  unfold add_state_admin, db_try.
  unfold mbind at 1, DB_bind at 1, gets at 1.
  unfold get_users_collection, get_collection.
  rewrite Hc. cbn [mbind option_bind].
  unfold mbind at 1, DB_bind at 1, lift at 1, dict_item.
  rewrite Hi. cbn [fst snd].
  assert (bool_decide (and_strip strip (req_email admin_data) = None)
          && bool_decide (and_strip strip (req_phone admin_data) = None) = false)
    as ->.
  { apply andb_false_iff.
    destruct Hcontact; [left|right]; by apply bool_decide_eq_false_2. }
  unfold mbind at 1, DB_bind at 1, find_one at 1.
  rewrite (docs_of_users _ _ Hc), Hfind. cbn [doc_truthy].
  assert (d <> ∅) as Hne.
  { apply coll_find_one_found in Hfind. unfold all_fields in Hfind.
    simpl in Hfind. apply andb_true_iff in Hfind as [H _].
    by eapply field_eq_nonempty. }
  by rewrite bool_decide_eq_false_2.
Qed.

(** X21. A state gets one admin. After [add_state_admin] has added an admin
    for a state, every further request for that state, from a super admin
    with an [_id] and with a contact given, is answered with 400 "Admin
    already exists for state ..." and writes nothing. *)
Theorem add_state_admin_second_for_state_refused (strip : string -> string)
  (B : CryptBackend) (admin_data admin_data' : SuperAdminAddAdminRequest)
  (current_super_admin current_super_admin' : dict) (now now' : Z)
  (salt salt' oid oid' : string) (db db1 : Database) (resp : AddAdminResponse)
  (i : pyval) :
  add_state_admin strip B admin_data current_super_admin now salt oid db
    = (Ok resp, db1) ->
  req_state admin_data' = req_state admin_data ->
  current_super_admin' !! "_id" = Some i ->
  and_strip strip (req_email admin_data') <> None
  \/ and_strip strip (req_phone admin_data') <> None ->
  add_state_admin strip B admin_data' current_super_admin' now' salt' oid' db1
  = (Raise (HTTPException 400
              ("Admin already exists for state '" +:+ req_state admin_data
               +:+ "'. Only one admin per state is allowed.")), db1).
Proof.
  intros Hadd Hstate Hi Hcontact.
  destruct (add_state_admin_cases _ _ _ _ _ _ _ _ _ Hadd)
    as [[e [=]]|(c & h & doc & resp0 & Hc & [= -> ->] & _ & Hnone & _ & _ & _ & _
                 & Hrole & Hdstate & _)].
  rewrite <- Hstate.
  apply (add_state_admin_existing _ _ _ _ _ _ _ _ (c ++ [doc])%list i doc);
    [exact (users_modify_docs db c (fun c => (c ++ [doc])%list) Hc)|done|done|].
  rewrite Hstate, coll_find_one_app by by apply coll_find_one_none_inv.
  unfold coll_find_one, all_fields, field_eq. simpl.
  rewrite Hrole, Hdstate. by rewrite !bool_decide_eq_true_2.
Qed.

(** A second admin for Haryana is asked for in [accounts_db]. *)
Lemma add_state_admin_second_for_state_refused_witness :
  let db1 := (add_state_admin (fun s => s) passlib_backend haryana_request
                root_admin 5000 a_salt a_new_id accounts_db).2 in
  add_state_admin (fun s => s) passlib_backend
    {| req_name := "Another Admin"; req_email := None;
       req_phone := Some "9876543210"; req_password := test_password;
       req_state := "Haryana" |}
    root_admin 6000 a_salt "65f000000000000000000005" db1
  = (Raise (HTTPException 400
              "Admin already exists for state 'Haryana'. Only one admin per state is allowed."),
     db1).
Proof.
  assert (raises (add_state_admin (fun s => s) passlib_backend haryana_request
                    root_admin 5000 a_salt a_new_id accounts_db).1 = false) as Hok
    by (vm_compute; reflexivity).
  destruct (add_state_admin (fun s => s) passlib_backend haryana_request
              root_admin 5000 a_salt a_new_id accounts_db) as [[resp|e] db1] eqn:Hadd;
    [|discriminate Hok].
  cbn [snd].
  apply (add_state_admin_second_for_state_refused (fun s => s) passlib_backend
           haryana_request _ root_admin root_admin 5000 6000 a_salt a_salt
           a_new_id "65f000000000000000000005" accounts_db db1 resp
           (POid "65a1b2c3d4e5f60718293a4b") Hadd).
  - reflexivity.
  - reflexivity.
  - right. vm_compute. discriminate.
Defined.

(** X22. The admin [add_state_admin] has added can log in. With the stripped
    address of the request and its password, [login] on the database the
    call left succeeds and answers for the new account, as an ADMIN, provided
    the password verifies against its hash (a property of the backend) and
    no user had the address as a phone number. *)
Theorem added_admin_can_log_in (strip : string -> string) (B : CryptBackend)
  (settings : Settings) (admin_data : SuperAdminAddAdminRequest)
  (current_super_admin : dict) (now now' : Z) (salt oid e h : string)
  (db db1 : Database) (resp : AddAdminResponse) :
  add_state_admin strip B admin_data current_super_admin now salt oid db
    = (Ok resp, db1) ->
  and_strip strip (req_email admin_data) = Some e ->
  hash_password B (req_password admin_data) salt = Ok h ->
  h <> "" -> verify_password B (req_password admin_data) h = Ok true ->
  Forall (fun d => field_eq "phone" (PStr e) d = false) (docs_of db Users) ->
  supervisors db <> None -> guards db <> None ->
  exists resp' db2,
    login settings B e (req_password admin_data) now' db1 = (Ok resp', db2)
    /\ user resp' !! "id" = Some (PStr oid)
    /\ user resp' !! "role" = Some (PStr "ADMIN")
    /\ user resp' !! "email" = Some (PStr e).
Proof.
  intros Hadd He Hhash Hne Hver Hphone Hs Hg.
  destruct (add_state_admin_cases _ _ _ _ _ _ _ _ _ Hadd)
    as [[e0 [=]]|(c & h0 & doc & resp0 & Hc & [= -> ->] & Hhash0 & _ & Hemail & _
                  & _ & Hid & Hrole & _ & Hact & Hpw & Hname & Hdemail & _)].
  rewrite Hhash in Hhash0. injection Hhash0 as <-.
  rewrite He in Hdemail. cbn [fmap option_fmap option_map] in Hdemail.
  rewrite (docs_of_users _ _ Hc) in Hphone.
  assert (exists ss, supervisors db = Some ss) as [ss Hss]
    by (destruct (supervisors db); [by eexists|done]).
  assert (exists gs, guards db = Some gs) as [gs Hgs]
    by (destruct (guards db); [by eexists|done]).
  set (db1 := modify_docs db Users (fun c => (c ++ [doc])%list)).
  assert (users db1 = Some (c ++ [doc])%list) as Hu1
    by exact (users_modify_docs db c (fun c => (c ++ [doc])%list) Hc).
  assert (find_user Users Supervisors Guards e db1
          = (Ok (doc, PStr "ADMIN"), db1)) as Hfind.
  { rewrite find_user_eq, (docs_of_users _ _ Hu1).
    rewrite coll_find_one_app.
    - unfold coll_find_one. simpl.
      assert (contact_filter e doc = true) as -> by (apply contact_filter_true; auto).
      unfold dict_get_default. by rewrite Hrole.
    - specialize (Hemail e He).
      apply Forall_forall. intros d Hd.
      unfold contact_filter.
      rewrite (proj1 (Forall_forall _ _) Hemail d Hd).
      by rewrite (proj1 (Forall_forall _ _) Hphone d Hd). }
  assert (dict_get doc "passwordHash" = PStr h) as Hdpw
    by by (unfold dict_get; rewrite Hpw).
  pose proof (login_found settings B e (req_password admin_data) now' db1
                (c ++ [doc])%list ss gs doc (PStr "ADMIN") h true Hu1 Hss Hgs Hfind
                Hdpw Hne Hver) as Hlogin.
  cbn [negb] in Hlogin. unfold dict_get_default at 1 in Hlogin.
  rewrite Hact in Hlogin. cbn [default id truthy negb] in Hlogin.
  rewrite Hid, Hname in Hlogin. cbv zeta in Hlogin.
  eexists _, _. split; [exact Hlogin|]. cbn [user].
  unfold dict_get. rewrite Hdemail. cbn [default str_pyval].
  repeat split; by simplify_map_eq.
Qed.

(** The admin of Haryana added to [accounts_db] logs in. *)
Lemma added_admin_can_log_in_witness :
  exists resp' db2,
    login default_settings passlib_backend "admin.hr@lh.io.in" test_password 5500
      (add_state_admin (fun s => s) passlib_backend haryana_request root_admin
         5000 a_salt a_new_id accounts_db).2
    = (Ok resp', db2)
    /\ user resp' !! "id" = Some (PStr a_new_id)
    /\ user resp' !! "role" = Some (PStr "ADMIN")
    /\ user resp' !! "email" = Some (PStr "admin.hr@lh.io.in").
Proof.
  assert (raises (add_state_admin (fun s => s) passlib_backend haryana_request
                    root_admin 5000 a_salt a_new_id accounts_db).1 = false) as Hok
    by (vm_compute; reflexivity).
  destruct (add_state_admin (fun s => s) passlib_backend haryana_request
              root_admin 5000 a_salt a_new_id accounts_db) as [[resp|e] db1] eqn:Hadd;
    [|discriminate Hok].
  cbn [snd].
  apply (added_admin_can_log_in (fun s => s) passlib_backend default_settings
           haryana_request root_admin 5000 5500 a_salt a_new_id
           "admin.hr@lh.io.in" "$2b$12$N9qo8uLOickgx2ZMRZoMyeTest@123"
           accounts_db db1 resp Hadd).
  - reflexivity.
  - vm_compute. reflexivity.
  - discriminate.
  - vm_compute. reflexivity.
  - vm_compute. repeat constructor.
  - discriminate.
  - discriminate.
Defined.

Lemma modify_docs_users_undo db c f g :
  users db = Some c -> g (f c) = c ->
  modify_docs (modify_docs db Users f) Users g = db.
Proof.
  intros Hc Hgf. unfold modify_docs. destruct db as [us ss gs os].
  simpl in *. subst us. simpl. by rewrite Hgf.
Qed.

(** X23. [delete_state_admin] undoes [add_state_admin]. Called with a name
    and an area that strip to the name and the state of the request, on the
    database the addition left, it finds the new admin, removes it and
    answers with its [_id]; the database is then the one before the
    addition. The [_id] of the new document is one no user had. *)
Theorem delete_state_admin_undoes_add (strip : string -> string)
  (B : CryptBackend) (admin_data : SuperAdminAddAdminRequest)
  (current_super_admin current_super_admin' : dict) (now : Z)
  (salt oid name area : string) (db db1 : Database) (resp : AddAdminResponse) :
  add_state_admin strip B admin_data current_super_admin now salt oid db
    = (Ok resp, db1) ->
  Some (POid oid) ∉ doc_id <$> docs_of db Users ->
  strip name = req_name admin_data ->
  strip area = req_state admin_data ->
  exists out,
    delete_state_admin strip name area current_super_admin' db1 = (Ok out, db)
    /\ out !! "admin_id" = Some (PStr oid)
    /\ out !! "state" = Some (PStr (req_state admin_data)).
Proof.
  intros Hadd Hfresh Hname Harea.
  destruct (add_state_admin_cases _ _ _ _ _ _ _ _ _ Hadd)
    as [[e0 [=]]|(c & h0 & doc & resp0 & Hc & [= -> ->] & _ & Hnone & _ & _
                  & _ & Hid & Hrole & Hstate & _ & _ & Hdname & _)].
  rewrite (docs_of_users _ _ Hc) in Hfresh.
  set (db1 := modify_docs db Users (fun c => (c ++ [doc])%list)).
  change (mkDatabase ((fun c => (c ++ [doc])%list) <$> users db) (supervisors db)
            (guards db) (otp_tokens db)) with db1.
  assert (users db1 = Some (c ++ [doc])%list) as Hu1
    by exact (users_modify_docs db c (fun c => (c ++ [doc])%list) Hc).
  assert (all_fields [("role", PStr "ADMIN"); ("name", PStr (req_name admin_data));
                      ("state", PStr (req_state admin_data))] doc = true) as Hdoc.
  { unfold all_fields, field_eq. simpl. rewrite Hrole, Hstate, Hdname.
    by rewrite !bool_decide_eq_true_2. }
  assert (coll_find_one
            (all_fields [("role", PStr "ADMIN"); ("name", PStr (req_name admin_data));
                         ("state", PStr (req_state admin_data))]) (c ++ [doc])
          = Some doc) as Hfind.
  { rewrite coll_find_one_app.
    - unfold coll_find_one. cbn [List.find]. by rewrite Hdoc.
    - apply coll_find_one_none_inv in Hnone.
      eapply Forall_impl; [exact Hnone|]. intros d Hd. cbv beta in Hd.
      unfold all_fields in *. simpl in *.
      destruct (field_eq "role" (PStr "ADMIN") d); [|done].
      simpl in *. rewrite andb_true_r in Hd. rewrite Hd. by rewrite andb_false_r. }
  assert (doc <> ∅) as Hne by (intros ->; by rewrite lookup_empty in Hid).
  assert (Forall (fun x => field_eq "_id" (POid oid) x = false) c) as Hids.
  { apply Forall_forall. intros x Hx. apply field_eq_false. intros Hxi.
    apply Hfresh. rewrite <- Hxi. by apply list_elem_of_fmap_2. }
  eexists. split.
  { unfold delete_state_admin, db_try.
    unfold mbind at 1, DB_bind at 1, gets at 1. cbv beta.
    assert (get_users_collection db1 = Some Users) as ->
      by (unfold get_users_collection, get_collection; by rewrite Hu1).
    rewrite Hname, Harea.
    unfold mbind at 1, DB_bind at 1, find_one at 1.
    rewrite (docs_of_users _ _ Hu1), Hfind.
    rewrite (bool_decide_eq_false_2 (doc = ∅)) by done. cbn [negb].
    unfold mbind at 1, DB_bind at 1, lift at 1, dict_item. rewrite Hid.
    cbn [fst snd].
    unfold mbind at 1, DB_bind at 1, delete_one_count at 1.
    rewrite (docs_of_users _ _ Hu1).
    assert (existsb (field_eq "_id" (POid oid)) (c ++ [doc]) = true) as ->.
    { rewrite existsb_app. simpl.
      rewrite (proj2 (field_eq_true "_id" (POid oid) doc) Hid).
      by rewrite orb_true_r. }
    cbn [Z.eqb]. unfold mret, DB_ret, db1.
    rewrite (modify_docs_users_undo db c); [reflexivity| done |].
    rewrite coll_delete_one_split; [by rewrite app_nil_r|done|].
    by apply field_eq_true. }
  unfold dict_get_default. rewrite Hstate. cbn [default str_pyval].
  split; by simplify_map_eq.
Qed.

(** The admin of Haryana added to [accounts_db] is deleted again. *)
Lemma delete_state_admin_undoes_add_witness :
  exists out,
    delete_state_admin (fun s => s) "State Admin" "Haryana" root_admin
      (add_state_admin (fun s => s) passlib_backend haryana_request root_admin
         5000 a_salt a_new_id accounts_db).2
    = (Ok out, accounts_db)
    /\ out !! "admin_id" = Some (PStr a_new_id)
    /\ out !! "state" = Some (PStr "Haryana").
Proof.
  assert (raises (add_state_admin (fun s => s) passlib_backend haryana_request
                    root_admin 5000 a_salt a_new_id accounts_db).1 = false) as Hok
    by (vm_compute; reflexivity).
  destruct (add_state_admin (fun s => s) passlib_backend haryana_request
              root_admin 5000 a_salt a_new_id accounts_db) as [[resp|e] db1] eqn:Hadd;
    [|discriminate Hok].
  cbn [snd].
  apply (delete_state_admin_undoes_add (fun s => s) passlib_backend
           haryana_request root_admin root_admin 5000 a_salt a_new_id
           "State Admin" "Haryana" accounts_db db1 resp Hadd).
  - vm_compute. intros H.
    repeat (apply elem_of_cons in H as [H|H]; [discriminate H|]).
    by apply elem_of_nil in H.
  - reflexivity.
  - reflexivity.
Defined.

(** ** The password of another account *)

Lemma all_fields_one k v (d : dict) : all_fields [(k, v)] d = field_eq k v d.
Proof. unfold all_fields. simpl. by rewrite andb_true_r. Qed.

(** One block of [change_user_password]. *)
Lemma change_password_in_eq collection k v new_password_hash now kind user_type db :
  change_password_in collection [(k, v)] new_password_hash now kind user_type db
  = match coll_find_one (field_eq k v) (docs_of db collection) with
    | Some user =>
        match user !! "_id" with
        | Some _id =>
            (Ok (Some kind),
             modify_docs db collection
               (coll_update_one (field_eq "_id" _id)
                  (new_password_update new_password_hash now)))
        | None => (Raise (KeyError "_id"), db)
        end
    | None => (Ok user_type, db)
    end.
Proof.
  unfold change_password_in, mbind, DB_bind, find_one.
  assert (coll_find_one (all_fields [(k, v)]) (docs_of db collection)
          = coll_find_one (field_eq k v) (docs_of db collection)) as ->.
  { unfold coll_find_one. induction (docs_of db collection) as [|d c IH];
      simpl; [done|]. by rewrite andb_true_r, IH. }
  destruct (coll_find_one _ _) as [user|] eqn:Hfind; [|done].
  assert (user <> ∅) as Hne
    by (apply coll_find_one_found in Hfind; by eapply field_eq_nonempty).
  rewrite bool_decide_eq_false_2 by done. cbn [negb].
  unfold lift, dict_item. by destruct (user !! "_id").
Qed.

Ltac served_leaf Hr :=
  unfold mret, DB_ret in Hr;
  apply (f_equal snd) in Hr; cbn [snd] in Hr; rewrite <- Hr;
  rewrite ?docs_of_update_one;
  repeat (rewrite decide_True by done || rewrite decide_False by done);
  repeat split; try done;
  [intros; by rewrite ?get_collection_modify_docs
  |intros [] ? ? ?; simplify_eq; eauto].

(** A call of [change_user_password] for an address that is served: the
    password was hashed, and each of the three collections is as
    [password_changed_in] says; nothing else is written. *)
Lemma change_user_password_served B request current_super_admin now salt db msg
  db1 e :
  change_user_password B request current_super_admin now salt db = (Ok msg, db1) ->
  userEmail request = Some e -> e <> "" ->
  exists h,
    hash_password B (newPassword request) salt = Ok h
    /\ (forall p, get_collection db1 p = get_collection db p)
    /\ get_collection db Users = Some Users
    /\ get_collection db Supervisors = Some Supervisors
    /\ get_collection db Guards = Some Guards
    /\ docs_of db1 Users = password_changed_in e h now (docs_of db Users)
    /\ docs_of db1 Supervisors = password_changed_in e h now (docs_of db Supervisors)
    /\ docs_of db1 Guards = password_changed_in e h now (docs_of db Guards)
    /\ docs_of db1 OtpTokens = docs_of db OtpTokens
    /\ (forall p d, coll_find_one (field_eq "email" (PStr e)) (docs_of db p) = Some d ->
         p <> OtpTokens -> is_Some (d !! "_id")).
Proof.
  intros Hr He Hne.
  unfold change_user_password, db_try in Hr.
  unfold mbind at 1, DB_bind at 1, gets at 1 in Hr.
  unfold mbind at 1, DB_bind at 1, gets at 1 in Hr.
  unfold mbind at 1, DB_bind at 1, gets at 1 in Hr.
  cbn [fst snd] in Hr.
  unfold get_users_collection, get_supervisors_collection,
    get_guards_collection in Hr.
  destruct (get_collection db Users) as [u|] eqn:Hu; [|done].
  destruct (get_collection db Supervisors) as [s|] eqn:Hs; [|done].
  destruct (get_collection db Guards) as [g|] eqn:Hg; [|done].
  apply get_collection_some in Hu as Hu'. apply get_collection_some in Hs as Hs'.
  apply get_collection_some in Hg as Hg'. subst u s g.
  unfold mbind at 1, DB_bind at 1, lift at 1 in Hr.
  destruct (hash_password B (newPassword request) salt) as [h|e0] eqn:Hhash;
    cbn [fst snd] in Hr; [|by destruct e0].
  rewrite He in Hr. cbn [opt_truthy opt_str] in Hr.
  unfold str_truthy in Hr. rewrite bool_decide_eq_false_2 in Hr by done.
  cbn [negb] in Hr.
  unfold mbind at 1, DB_bind at 1 in Hr. rewrite change_password_in_eq in Hr.
  unfold password_changed_in.
  exists h. split; [done|].
  destruct (coll_find_one (field_eq "email" (PStr e)) (docs_of db Users))
    as [a|] eqn:Hfa.
  - destruct (a !! "_id") as [ia|] eqn:Hia; [|done].
    unfold mbind at 1, DB_bind at 1 in Hr. rewrite change_password_in_eq in Hr.
    rewrite docs_of_update_one in Hr. rewrite decide_False in Hr by done.
    destruct (coll_find_one (field_eq "email" (PStr e)) (docs_of db Supervisors))
      as [b|] eqn:Hfb.
    + destruct (b !! "_id") as [ib|] eqn:Hib; [|done].
      unfold mbind at 1, DB_bind at 1 in Hr. rewrite change_password_in_eq in Hr.
      rewrite !docs_of_update_one in Hr. rewrite !decide_False in Hr by done.
      destruct (coll_find_one (field_eq "email" (PStr e)) (docs_of db Guards))
        as [d|] eqn:Hfd.
      * destruct (d !! "_id") as [id|] eqn:Hid; [|done].
        served_leaf Hr.
      * served_leaf Hr.
    + unfold mbind at 1, DB_bind at 1 in Hr. rewrite change_password_in_eq in Hr.
      rewrite !docs_of_update_one in Hr. rewrite !decide_False in Hr by done.
      destruct (coll_find_one (field_eq "email" (PStr e)) (docs_of db Guards))
        as [d|] eqn:Hfd.
      * destruct (d !! "_id") as [id|] eqn:Hid; [|done].
        served_leaf Hr.
      * served_leaf Hr.
  - unfold mbind at 1, DB_bind at 1 in Hr. rewrite change_password_in_eq in Hr.
    destruct (coll_find_one (field_eq "email" (PStr e)) (docs_of db Supervisors))
      as [b|] eqn:Hfb.
    + destruct (b !! "_id") as [ib|] eqn:Hib; [|done].
      unfold mbind at 1, DB_bind at 1 in Hr. rewrite change_password_in_eq in Hr.
      rewrite !docs_of_update_one in Hr. rewrite !decide_False in Hr by done.
      destruct (coll_find_one (field_eq "email" (PStr e)) (docs_of db Guards))
        as [d|] eqn:Hfd.
      * destruct (d !! "_id") as [id|] eqn:Hid; [|done].
        served_leaf Hr.
      * served_leaf Hr.
    + unfold mbind at 1, DB_bind at 1 in Hr. rewrite change_password_in_eq in Hr.
      destruct (coll_find_one (field_eq "email" (PStr e)) (docs_of db Guards))
        as [d|] eqn:Hfd.
      * destruct (d !! "_id") as [id|] eqn:Hid; [|done].
        served_leaf Hr.
      * done.
Qed.

Lemma new_password_update_eq h now (d : dict) :
  new_password_update h now d
  = <["updatedAt" := PTime now]> (<["passwordHash" := PStr h]> d).
Proof. done. Qed.

Lemma new_password_update_lookup h now (d : dict) k :
  k <> "passwordHash" -> k <> "updatedAt" ->
  new_password_update h now d !! k = d !! k.
Proof.
  intros H1 H2. rewrite new_password_update_eq. by rewrite !lookup_insert_ne.
Qed.

(** Without a document with the address, a collection is left as it is. *)
Lemma password_changed_in_none e h now (c : collection) :
  coll_find_one (field_eq "email" (PStr e)) c = None ->
  password_changed_in e h now c = c.
Proof. intros H. unfold password_changed_in. by rewrite H. Qed.

(** With unique [_id]s, the document that gets the update is the first one
    with the address. *)
Lemma password_changed_in_first e h now (c l1 l2 : collection) d i :
  c = (l1 ++ d :: l2)%list ->
  Forall (fun x => field_eq "email" (PStr e) x = false) l1 ->
  d !! "email" = Some (PStr e) -> d !! "_id" = Some i ->
  NoDup (doc_id <$> c) ->
  password_changed_in e h now c = (l1 ++ new_password_update h now d :: l2)%list.
Proof.
  intros -> Hl1 Hem Hid Hnd. unfold password_changed_in.
  rewrite coll_find_one_app by done.
  unfold coll_find_one. cbn [List.find].
  rewrite (proj2 (field_eq_true "email" (PStr e) d) Hem), Hid.
  apply coll_update_one_split; [by eapply unique_id_before|by apply field_eq_true].
Qed.

(** X24. [change_user_password] reaches every collection. When a call for
    an address is served, then in each of the collections of users,
    supervisors and guards the first document with that address is, after
    the call, the same document with the hash of the new password and the
    time of the call: not only the account a login would find. The [_id]s of
    the collection are taken to be unique. *)
Theorem change_user_password_reaches_every_collection (B : CryptBackend)
  (request : SuperAdminChangePasswordRequest) (current_super_admin : dict)
  (now : Z) (salt : string) (db db1 : Database) (msg e : string) (p : handle_t)
  (d : dict) :
  change_user_password B request current_super_admin now salt db = (Ok msg, db1) ->
  userEmail request = Some e -> e <> "" ->
  p <> OtpTokens ->
  NoDup (doc_id <$> docs_of db p) ->
  coll_find_one (field_eq "email" (PStr e)) (docs_of db p) = Some d ->
  exists h,
    hash_password B (newPassword request) salt = Ok h
    /\ coll_find_one (field_eq "email" (PStr e)) (docs_of db1 p)
       = Some (<["updatedAt" := PTime now]> (<["passwordHash" := PStr h]> d)).
Proof.
  intros Hr He Hne Hp Hnd Hfind.
  destruct (change_user_password_served _ _ _ _ _ _ _ _ _ Hr He Hne)
    as (h & Hhash & _ & _ & _ & _ & Hu & Hs & Hg & _ & Hids).
  exists h. split; [done|].
  destruct (Hids p d Hfind Hp) as [i Hi].
  destruct (coll_find_one_split _ _ _ Hfind) as (l1 & l2 & Hc & Hd & Hl1).
  apply field_eq_true in Hd.
  assert (docs_of db1 p = password_changed_in e h now (docs_of db p)) as ->
    by by destruct p.
  rewrite (password_changed_in_first e h now _ l1 l2 d i Hc Hl1 Hd Hi Hnd).
  rewrite coll_find_one_app by done.
  unfold coll_find_one. cbn [List.find].
  assert (field_eq "email" (PStr e) (new_password_update h now d) = true) as ->; [|done].
  apply field_eq_true. by rewrite new_password_update_lookup.
Qed.

(** The supervisor of [shared_contact_db], whose address an admin has too. *)
Lemma change_user_password_reaches_every_collection_witness :
  exists h,
    hash_password passlib_backend (newPassword sup_password_request) a_salt = Ok h
    /\ coll_find_one (field_eq "email" (PStr "sup@lh.io.in"))
         (docs_of (change_user_password passlib_backend sup_password_request
                     root_admin 7000 a_salt shared_contact_db).2 Supervisors)
       = Some (<["updatedAt" := PTime 7000]>
                 (<["passwordHash" := PStr h]> supervisor_account)).
Proof.
  assert (raises (change_user_password passlib_backend sup_password_request
                    root_admin 7000 a_salt shared_contact_db).1 = false) as Hok
    by (vm_compute; reflexivity).
  destruct (change_user_password passlib_backend sup_password_request
              root_admin 7000 a_salt shared_contact_db) as [[msg|e] db1] eqn:Hr;
    [|discriminate Hok].
  cbn [snd].
  apply (change_user_password_reaches_every_collection passlib_backend
           sup_password_request root_admin 7000 a_salt shared_contact_db db1 msg
           "sup@lh.io.in" Supervisors supervisor_account Hr).
  - reflexivity.
  - discriminate.
  - discriminate.
  - vm_compute. apply NoDup_singleton.
  - vm_compute. reflexivity.
Defined.

Lemma contact_filter_new_password_update e h now (d : dict) :
  contact_filter e (new_password_update h now d) = contact_filter e d.
Proof.
  unfold contact_filter, field_eq. by rewrite !new_password_update_lookup.
Qed.

(** What the search of [login] finds in a collection after the change. *)
Lemma contact_password_changed_none e h now (c : collection) :
  coll_find_one (contact_filter e) c = None ->
  coll_find_one (contact_filter e) (password_changed_in e h now c) = None.
Proof.
  intros Hnone. rewrite password_changed_in_none; [done|].
  apply coll_find_one_none. apply coll_find_one_none_inv in Hnone.
  eapply Forall_impl; [exact Hnone|]. intros d Hd. cbv beta in Hd.
  by apply orb_false_iff in Hd as [? _].
Qed.

Lemma contact_password_changed_some e h now (c : collection) a i :
  coll_find_one (contact_filter e) c = Some a ->
  a !! "email" = Some (PStr e) -> a !! "_id" = Some i ->
  NoDup (doc_id <$> c) ->
  coll_find_one (contact_filter e) (password_changed_in e h now c)
  = Some (new_password_update h now a).
Proof.
  intros Hfind Hem Hid Hnd.
  destruct (coll_find_one_split _ _ _ Hfind) as (l1 & l2 & Hc & Ha & Hl1).
  assert (Forall (fun x => field_eq "email" (PStr e) x = false) l1) as Hl1'.
  { eapply Forall_impl; [exact Hl1|]. intros d Hd. cbv beta in Hd.
    by apply orb_false_iff in Hd as [? _]. }
  rewrite (password_changed_in_first e h now c l1 l2 a i Hc Hl1' Hem Hid Hnd).
  rewrite coll_find_one_app by done.
  unfold coll_find_one. cbn [List.find].
  by rewrite contact_filter_new_password_update, Ha.
Qed.

Lemma get_collection_docs db h :
  get_collection db h = Some h ->
  exists c, match h with
            | Users => users db
            | Supervisors => supervisors db
            | Guards => guards db
            | OtpTokens => otp_tokens db
            end = Some c.
Proof.
  unfold get_collection.
  destruct h, db as [[?|] [?|] [?|] [?|]]; simpl; try done; by eexists.
Qed.

(** X25. After the super admin has changed the password of an account, the
    account logs in with the new password. When [change_user_password] has
    served a call for an address, and that address is the [email] of the
    active, named account [login] resolves it to, then [login] with the
    address and the new password succeeds on the database the call left,
    provided the password verifies against its hash (a property of the
    backend) and the [_id]s of each collection are unique. *)
Theorem changed_password_logs_in (settings : Settings) (B : CryptBackend)
  (request : SuperAdminChangePasswordRequest) (current_super_admin : dict)
  (now now' : Z) (salt : string) (db db1 : Database) (msg e h : string)
  (account : dict) (role name : pyval) :
  change_user_password B request current_super_admin now salt db = (Ok msg, db1) ->
  userEmail request = Some e -> e <> "" ->
  hash_password B (newPassword request) salt = Ok h ->
  h <> "" -> verify_password B (newPassword request) h = Ok true ->
  find_user Users Supervisors Guards e db = (Ok (account, role), db) ->
  account !! "email" = Some (PStr e) ->
  truthy (dict_get_default account "isActive" (PBool false)) = true ->
  account !! "name" = Some name ->
  (forall p, NoDup (doc_id <$> docs_of db p)) ->
  exists resp db2,
    login settings B e (newPassword request) now' db1 = (Ok resp, db2)
    /\ user resp !! "email" = Some (PStr e)
    /\ user resp !! "role" = Some role.
Proof.
  intros Hr He Hne Hhash Hhne Hver Hfind Hem Hact Hname Hnd.
  destruct (change_user_password_served _ _ _ _ _ _ _ _ _ Hr He Hne)
    as (h0 & Hhash0 & Hcoll & Hcu & Hcs & Hcg & Hu & Hs & Hg & _ & Hids).
  rewrite Hhash in Hhash0. injection Hhash0 as <-.
  assert (exists i, account !! "_id" = Some i
                    /\ find_user Users Supervisors Guards e db1
                       = (Ok (new_password_update h now account, role), db1))
    as (i & Hid & Hfind1).
  { rewrite find_user_eq in Hfind. rewrite find_user_eq, Hu, Hs, Hg.
    assert (forall p c, coll_find_one (contact_filter e) c = Some account ->
              c = docs_of db p -> p <> OtpTokens -> is_Some (account !! "_id"))
      as Hhas.
    { intros p c Hc -> Hp. apply (Hids p); [|done].
      destruct (coll_find_one_split _ _ _ Hc) as (l1 & l2 & -> & _ & Hl1).
      rewrite coll_find_one_app.
      - unfold coll_find_one. cbn [List.find].
        by rewrite (proj2 (field_eq_true "email" (PStr e) account) Hem).
      - eapply Forall_impl; [exact Hl1|]. intros d Hd. cbv beta in Hd.
        by apply orb_false_iff in Hd as [? _]. }
    destruct (coll_find_one (contact_filter e) (docs_of db Users)) as [a|] eqn:Ha.
    { injection Hfind as -> <-.
      destruct (Hhas Users _ Ha eq_refl) as [i Hi]; [done|].
      exists i. split; [done|].
      rewrite (contact_password_changed_some e h now _ account i Ha Hem Hi (Hnd Users)).
      unfold dict_get_default. by rewrite new_password_update_lookup. }
    rewrite (contact_password_changed_none e h now _ Ha).
    destruct (coll_find_one (contact_filter e) (docs_of db Supervisors))
      as [a|] eqn:Hb.
    { injection Hfind as -> <-.
      destruct (Hhas Supervisors _ Hb eq_refl) as [i Hi]; [done|].
      exists i. split; [done|].
      by rewrite (contact_password_changed_some e h now _ account i Hb Hem Hi
                    (Hnd Supervisors)). }
    rewrite (contact_password_changed_none e h now _ Hb).
    destruct (coll_find_one (contact_filter e) (docs_of db Guards)) as [a|] eqn:Hc;
      [|done].
    injection Hfind as -> <-.
    destruct (Hhas Guards _ Hc eq_refl) as [i Hi]; [done|].
    exists i. split; [done|].
    by rewrite (contact_password_changed_some e h now _ account i Hc Hem Hi (Hnd Guards)). }
  rewrite <- (Hcoll Users) in Hcu. rewrite <- (Hcoll Supervisors) in Hcs.
  rewrite <- (Hcoll Guards) in Hcg.
  destruct (get_collection_docs _ _ Hcu) as [us Hus].
  destruct (get_collection_docs _ _ Hcs) as [ss Hss].
  destruct (get_collection_docs _ _ Hcg) as [gs Hgs].
  assert (dict_get (new_password_update h now account) "passwordHash" = PStr h)
    as Hdpw.
  { unfold dict_get. rewrite new_password_update_eq. by simplify_map_eq. }
  pose proof (login_found settings B e (newPassword request) now' db1 us ss gs
                (new_password_update h now account) role h true Hus Hss Hgs Hfind1
                Hdpw Hhne Hver) as Hlogin.
  cbn [negb] in Hlogin. unfold dict_get_default at 1 in Hlogin.
  rewrite new_password_update_lookup in Hlogin by done.
  unfold dict_get_default in Hact. rewrite Hact in Hlogin. cbn [negb] in Hlogin.
  rewrite !new_password_update_lookup in Hlogin by done.
  rewrite Hid, Hname in Hlogin. cbv zeta in Hlogin.
  eexists _, _. split; [exact Hlogin|]. cbn [user].
  unfold dict_get. rewrite new_password_update_lookup by done. rewrite Hem.
  cbn [default]. split; by simplify_map_eq.
Qed.

(** The address of [shared_contact_db] that an admin and a supervisor have:
    [login] resolves it to the admin, who logs in with the new password. *)
Lemma changed_password_logs_in_witness :
  exists resp db2,
    login default_settings passlib_backend "sup@lh.io.in"
      (newPassword sup_password_request) 7100
      (change_user_password passlib_backend sup_password_request root_admin 7000
         a_salt shared_contact_db).2
    = (Ok resp, db2)
    /\ user resp !! "email" = Some (PStr "sup@lh.io.in")
    /\ user resp !! "role" = Some (PStr "ADMIN").
Proof.
  assert (raises (change_user_password passlib_backend sup_password_request
                    root_admin 7000 a_salt shared_contact_db).1 = false) as Hok
    by (vm_compute; reflexivity).
  destruct (change_user_password passlib_backend sup_password_request
              root_admin 7000 a_salt shared_contact_db) as [[msg|e] db1] eqn:Hr;
    [|discriminate Hok].
  cbn [snd].
  apply (changed_password_logs_in default_settings passlib_backend
           sup_password_request root_admin 7000 7100 a_salt shared_contact_db db1
           msg "sup@lh.io.in" "$2b$12$N9qo8uLOickgx2ZMRZoMyeNew@1234"
           (<["email" := PStr "sup@lh.io.in"]>
              (<["_id" := POid "65a1b2c3d4e5f60718293a4f"]>
                 (<["role" := PStr "ADMIN"]> root_admin)))
           (PStr "ADMIN") (PStr "Root") Hr).
  - reflexivity.
  - discriminate.
  - vm_compute. reflexivity.
  - discriminate.
  - vm_compute. reflexivity.
  - vm_compute. reflexivity.
  - vm_compute. reflexivity.
  - vm_compute. reflexivity.
  - vm_compute. reflexivity.
  - intros []; vm_compute;
      repeat (apply NoDup_cons_2;
              [let H := fresh in
               intros H;
               repeat (apply elem_of_cons in H as [H|H]; [discriminate H|]);
               by apply elem_of_nil in H|]);
      apply NoDup_nil_2.
Defined.

(** ** Maintenance of the database *)

Lemma coll_find_one_delete_many_keep (f g : dict -> bool) (c : collection) d :
  coll_find_one f c = Some d -> g d = false ->
  coll_find_one f (coll_delete_many g c) = Some d.
Proof.
  unfold coll_find_one, coll_delete_many. intros Hfind Hg.
  induction c as [|x c IH]; simpl in *; [done|].
  destruct (f x) eqn:Hfx.
  - injection Hfind as ->. rewrite Hg. simpl. by rewrite Hfx.
  - destruct (g x); simpl; [by apply IH|]. rewrite Hfx. by apply IH.
Qed.

(** The answer of [verify_otp_record] depends on the database through the
    challenge it finds only. *)
Lemma verify_otp_record_answer sha256_hexdigest email request_otp now db db' :
  challenge_of email db' = challenge_of email db ->
  (verify_otp_record sha256_hexdigest OtpTokens email request_otp now db').1
  = (verify_otp_record sha256_hexdigest OtpTokens email request_otp now db).1.
Proof.
  unfold challenge_of. intros Hch.
  unfold verify_otp_record, mbind, DB_bind, find_one, lift, delete_one,
    update_one, raise, dict_item, now_gt, int_ge.
  rewrite Hch.
  destruct (coll_find_one _ (docs_of db OtpTokens)) as [d|]; [|done].
  cbn [fst snd].
  repeat (match goal with
          | |- context [match ?x with _ => _ end] => destruct x eqn:?
          end; cbn [fst snd]; try done).
Qed.

(** X26. [cleanup_expired_tokens] removes what verification would call
    expired, and nothing a code can still be verified against. A challenge
    whose [expiresAt] is not before the time of the cleanup is still the
    challenge of its address afterwards, and every verification is answered
    as it would have been without the cleanup; and no document with an
    [expiresAt] before that time is left among the challenges. *)
Theorem cleanup_expired_tokens_keeps_valid_challenges
  (sha256_hexdigest : string -> string) (now : Z) (db : Database)
  (refresh_tokens : option collection) (email : pyval) (ch : dict) (e : Z) :
  challenge_of email db = Some ch ->
  ch !! "expiresAt" = Some (PTime e) ->
  now <= e ->
  let db' := (cleanup_expired_tokens now db refresh_tokens).1 in
  challenge_of email db' = Some ch
  /\ (forall request_otp t,
        (verify_otp_record sha256_hexdigest OtpTokens email request_otp t db').1
        = (verify_otp_record sha256_hexdigest OtpTokens email request_otp t db).1)
  /\ Forall (fun d => field_lt "expiresAt" now d = false) (docs_of db' OtpTokens).
Proof.
  intros Hch He Hnow db'.
  assert (challenge_of email db' = Some ch) as Hch'.
  { subst db'. unfold cleanup_expired_tokens, challenge_of in *.
    destruct (otp_tokens db) as [c|] eqn:Hc; [|done]. cbn [fst].
    rewrite (docs_of_otp_tokens _ _ (otp_tokens_modify_docs db c _ Hc)).
    rewrite (docs_of_otp_tokens _ _ Hc) in Hch.
    apply coll_find_one_delete_many_keep; [done|].
    unfold field_lt. rewrite He. apply Z.ltb_ge. lia. }
  split; [done|]. split.
  - intros request_otp t. apply verify_otp_record_answer. by rewrite Hch'.
  - subst db'. unfold cleanup_expired_tokens.
    destruct (otp_tokens db) as [c|] eqn:Hc; cbn [fst].
    + rewrite (docs_of_otp_tokens _ _ (otp_tokens_modify_docs db c _ Hc)).
      apply coll_delete_many_none.
    + unfold docs_of. by rewrite Hc.
Qed.

(** The challenge of second 1000, valid until second 1600, at second 1300. *)
Lemma cleanup_expired_tokens_keeps_valid_challenges_witness :
  let db' := (cleanup_expired_tokens 1300 otp_db_1000 (Some [])).1 in
  challenge_of root_email db' = Some challenge_1000
  /\ (forall request_otp t,
        (verify_otp_record stub_sha256 OtpTokens root_email request_otp t db').1
        = (verify_otp_record stub_sha256 OtpTokens root_email request_otp t
             otp_db_1000).1)
  /\ Forall (fun d => field_lt "expiresAt" 1300 d = false) (docs_of db' OtpTokens).
Proof.
  apply (cleanup_expired_tokens_keeps_valid_challenges stub_sha256 1300
           otp_db_1000 (Some []) root_email challenge_1000 1600).
  - vm_compute. reflexivity.
  - vm_compute. reflexivity.
  - lia.
Defined.

(** The outcomes of [create_default_super_admin]: nothing, or one new
    document with the role SUPER_ADMIN at the end of a collection of users
    that had none. *)
Lemma create_default_super_admin_cases B email password name now salt oid db r :
  create_default_super_admin B email password name now salt oid db = r ->
  r = (Ok (), db)
  \/ (exists c h doc,
        users db = Some c
        /\ r = (Ok (), modify_docs db Users (fun c => (c ++ [doc])%list))
        /\ email <> "" /\ hash_password B password salt = Ok h
        /\ coll_find_one (all_fields [("role", PStr "SUPER_ADMIN")]) c = None
        /\ doc = <["_id" := POid oid]>
                   ({[ "email" := PStr email;
                       "passwordHash" := PStr h;
                       "name" := PStr name;
                       "role" := PStr "SUPER_ADMIN";
                       "areaCity" := PNone;
                       "state" := PNone;
                       "isActive" := PBool true;
                       "isEmailVerified" := PBool true;
                       "createdAt" := PTime now;
                       "updatedAt" := PTime now ]} : dict)).
Proof.
  intros Hr. unfold create_default_super_admin in Hr.
  destruct (users db) as [c|] eqn:Hc; [|by left].
  unfold db_try, str_truthy in Hr.
  destruct (decide (email = "")) as [->|Hne]; [by left|].
  rewrite (bool_decide_eq_false_2 (email = "")) in Hr by done.
  cbn [negb orb] in Hr.
  destruct (bool_decide (password = [])); [by left|].
  unfold mbind at 1, DB_bind at 1, find_one at 1 in Hr.
  rewrite (docs_of_users _ _ Hc) in Hr.
  destruct (coll_find_one _ c) as [d|] eqn:Hfind.
  { assert (d <> ∅) as Hd.
    { apply coll_find_one_found in Hfind. rewrite all_fields_one in Hfind.
      by eapply field_eq_nonempty. }
    cbn [doc_truthy] in Hr. rewrite bool_decide_eq_false_2 in Hr by done.
    by left. }
  cbn [doc_truthy negb] in Hr.
  unfold mbind at 1, DB_bind at 1, lift at 1 in Hr.
  destruct (hash_password B password salt) as [h|e] eqn:Hhash; cbn [fst snd] in Hr;
    [|by left].
  right. exists c, h. eexists. split; [done|]. split; [by rewrite <- Hr|].
  by repeat split.
Qed.

(** X27. [create_default_super_admin] never raises and never makes a second
    super admin. It leaves a database that has a SUPER_ADMIN as it is; and
    after a call that has written, every further call, with whatever
    settings, writes nothing. *)
Theorem create_default_super_admin_once (B B' : CryptBackend)
  (email email' : string) (password password' : pystr) (name name' : string)
  (now now' : Z) (salt salt' oid oid' : string) (db : Database) :
  let r := create_default_super_admin B email password name now salt oid db in
  r.1 = Ok ()
  /\ (coll_find_one (all_fields [("role", PStr "SUPER_ADMIN")]) (docs_of db Users)
        <> None -> r.2 = db)
  /\ (r.2 <> db ->
      create_default_super_admin B' email' password' name' now' salt' oid' r.2
      = (Ok (), r.2)).
Proof.
  cbn zeta.
  destruct (create_default_super_admin_cases B email password name now salt oid db
              _ eq_refl)
    as [->|(c & h & doc & Hc & -> & _ & _ & Hnone & Hdoc)]; [done|].
  cbn [fst snd]. split; [done|]. split.
  { rewrite (docs_of_users _ _ Hc). by rewrite Hnone. }
  intros _.
  destruct (create_default_super_admin_cases B' email' password' name' now' salt'
              oid' (modify_docs db Users (fun c => (c ++ [doc])%list)) _ eq_refl)
    as [->|(c' & h' & doc' & Hc' & _ & _ & _ & Hnone' & _)]; [done|].
  exfalso.
  rewrite (users_modify_docs db c (fun c => (c ++ [doc])%list) Hc) in Hc'.
  injection Hc' as <-.
  apply coll_find_one_none_inv in Hnone'.
  apply Forall_app in Hnone' as [_ Hdoc'].
  rewrite Forall_singleton in Hdoc'.
  rewrite all_fields_one in Hdoc'.
  apply field_eq_false in Hdoc'. apply Hdoc'. subst doc. by simplify_map_eq.
Qed.

(** X28. The super admin [create_default_super_admin] has created can log
    in. After a call that has written, [login] with the configured address
    and password succeeds, as SUPER_ADMIN and without writing, provided the
    password verifies against its hash (a property of the backend) and no
    user had the address as its [email] or [phone] before. *)
Theorem default_super_admin_can_log_in (settings : Settings) (B : CryptBackend)
  (email : string) (password : pystr) (name : string) (now now' : Z)
  (salt oid h : string) (db : Database) :
  let db1 := (create_default_super_admin B email password name now salt oid db).2 in
  db1 <> db ->
  hash_password B password salt = Ok h ->
  h <> "" -> verify_password B password h = Ok true ->
  Forall (fun d => contact_filter email d = false) (docs_of db Users) ->
  supervisors db <> None -> guards db <> None ->
  exists resp,
    login settings B email password now' db1 = (Ok resp, db1)
    /\ user resp !! "id" = Some (PStr oid)
    /\ user resp !! "role" = Some (PStr "SUPER_ADMIN").
Proof.
  cbn zeta. intros Hwritten Hhash Hne Hver Hcontact Hs Hg.
  destruct (create_default_super_admin_cases B email password name now salt oid db
              _ eq_refl)
    as [Hsame|(c & h0 & doc & Hc & Hr & _ & Hhash0 & _ & Hdoc)].
  { by rewrite Hsame in Hwritten. }
  rewrite Hr. cbn [snd].
  rewrite Hhash in Hhash0. injection Hhash0 as <-.
  rewrite (docs_of_users _ _ Hc) in Hcontact.
  assert (exists ss, supervisors db = Some ss) as [ss Hss]
    by (destruct (supervisors db); [by eexists|done]).
  assert (exists gs, guards db = Some gs) as [gs Hgs]
    by (destruct (guards db); [by eexists|done]).
  set (db1 := modify_docs db Users (fun c => (c ++ [doc])%list)).
  assert (users db1 = Some (c ++ [doc])%list) as Hu1
    by exact (users_modify_docs db c (fun c => (c ++ [doc])%list) Hc).
  assert (doc !! "email" = Some (PStr email) /\ doc !! "role" = Some (PStr "SUPER_ADMIN")
          /\ doc !! "passwordHash" = Some (PStr h) /\ doc !! "isActive" = Some (PBool true)
          /\ doc !! "_id" = Some (POid oid) /\ doc !! "name" = Some (PStr name)
          /\ doc !! "phone" = None /\ doc !! "lastLogin" = None)
    as (Hdem & Hdrole & Hdpw & Hdact & Hdid & Hdname & Hdphone & Hdlast)
    by (subst doc; repeat split; by simplify_map_eq).
  clear Hdoc.
  assert (find_user Users Supervisors Guards email db1
          = (Ok (doc, PStr "SUPER_ADMIN"), db1)) as Hfind.
  { rewrite find_user_eq, (docs_of_users _ _ Hu1).
    rewrite coll_find_one_app by done.
    unfold coll_find_one. cbn [List.find].
    assert (contact_filter email doc = true) as -> by (apply contact_filter_true; auto).
    unfold dict_get_default. by rewrite Hdrole. }
  assert (dict_get doc "passwordHash" = PStr h) as Hdpw'
    by by (unfold dict_get; rewrite Hdpw).
  pose proof (login_found settings B email password now' db1
                (c ++ [doc])%list ss gs doc (PStr "SUPER_ADMIN") h true Hu1 Hss Hgs
                Hfind Hdpw' Hne Hver) as Hlogin.
  cbn [negb] in Hlogin. unfold dict_get_default at 1 in Hlogin.
  rewrite Hdact in Hlogin. cbn [default id truthy negb] in Hlogin.
  rewrite Hdid, Hdname in Hlogin. cbv zeta in Hlogin.
  change (role_collection Users Supervisors Guards (PStr "SUPER_ADMIN"))
    with (Raise (KeyError "SUPER_ADMIN") : result handle_t) in Hlogin.
  cbv iota in Hlogin.
  eexists. split; [exact Hlogin|]. cbn [user str_pyval].
  split; by simplify_map_eq.
Qed.

(** The installation on a database without users. *)
Lemma default_super_admin_can_log_in_witness :
  let db := mkDatabase (Some []) (Some []) (Some []) (Some []) in
  let db1 := (create_default_super_admin passlib_backend "root@lh.io.in"
                test_password "Super Administrator" 100 a_salt a_new_id db).2 in
  exists resp,
    login default_settings passlib_backend "root@lh.io.in" test_password 200 db1
    = (Ok resp, db1)
    /\ user resp !! "id" = Some (PStr a_new_id)
    /\ user resp !! "role" = Some (PStr "SUPER_ADMIN").
Proof.
  apply (default_super_admin_can_log_in default_settings passlib_backend
           "root@lh.io.in" test_password "Super Administrator" 100 200 a_salt
           a_new_id "$2b$12$N9qo8uLOickgx2ZMRZoMyeTest@123"
           (mkDatabase (Some []) (Some []) (Some []) (Some []))).
  - intros H. apply (f_equal (fun db => length (docs_of db Users))) in H.
    vm_compute in H. discriminate H.
  - vm_compute. reflexivity.
  - discriminate.
  - vm_compute. reflexivity.
  - constructor.
  - discriminate.
  - discriminate.
Defined.
